(** * Order lifecycle workflow of frozzenbot: a shallow embedding

    The development follows the Python backend under [backend/app]:

    - [models/order.py], [models/order_status_history.py],
      [models/notification.py]: the data model;
    - [services/order_workflow.py]: the transition table, the workflow
      engine ([transition_status]) and the bulk coordinator;
    - [services/order.py]: [cancel_order];
    - [services/notification.py]: the notification service;
    - [utils/scheduler.py]: the in-memory task scheduler.

    Conventions.  A [datetime] is an integer number of microseconds (the
    resolution of Python's [datetime]); a [timedelta] is a difference of two
    such numbers.  [int(delta.total_seconds() / 60)] truncates toward zero and
    is rendered by [Z.quot]: the two float divisions of the source have a
    relative error below 2^-52, while a quotient that is not a whole number
    of minutes is at least 1/60000000 away from one, so the two agree for
    every duration shorter than some 140 years.
    [datetime.utcnow()] is a read of an oracle clock carried in the state:
    successive reads may return different instants, as in the program.
    Database calls ([execute], [commit], [refresh]) are assumed to succeed;
    the exceptions modelled are the ones the Python code raises itself. *)

From Stdlib Require Import ZArith Lia.
From Stdlib Require Import Floats.PrimFloat.
From stdpp Require Import gmap strings list fin_maps.

Local Open Scope Z_scope.

(** ** Time *)

Definition datetime := Z.
Definition timedelta := Z.

(** [timedelta(minutes=n)] *)
Definition minutes (n : Z) : timedelta := n * 60000000.

(** [int(delta.total_seconds() / 60)] *)
Definition whole_minutes (delta : timedelta) : Z := Z.quot delta 60000000.

(** Truthiness of the Python values the code tests with [if x] / [not x]. *)
Definition truthy_int (x : option Z) : bool :=
  match x with Some n => negb (n =? 0) | None => false end.

Definition truthy_float (x : option float) : bool :=
  match x with Some f => negb (PrimFloat.eqb f 0%float) | None => false end.

(** A [datetime] object is always true; only [None] is false. *)
Definition truthy_datetime (x : option datetime) : bool :=
  match x with Some _ => true | None => false end.

(** ** models/order.py: enumerations *)

Module OrderStatus.

Inductive t :=
| PENDING | CONFIRMED | PREPARING | READY
| COMPLETED | CANCELLED | REFUNDED | FAILED.

Definition value (s : t) : string :=
  match s with
  | PENDING => "pending" | CONFIRMED => "confirmed"
  | PREPARING => "preparing" | READY => "ready"
  | COMPLETED => "completed" | CANCELLED => "cancelled"
  | REFUNDED => "refunded" | FAILED => "failed"
  end.

Definition all : list t :=
  [PENDING; CONFIRMED; PREPARING; READY; COMPLETED; CANCELLED; REFUNDED; FAILED].

Definition to_nat (s : t) : nat :=
  match s with
  | PENDING => 0 | CONFIRMED => 1 | PREPARING => 2 | READY => 3
  | COMPLETED => 4 | CANCELLED => 5 | REFUNDED => 6 | FAILED => 7
  end%nat.

Definition of_nat (n : nat) : option t := all !! n.

#[global] Instance eq_dec : EqDecision t.
Proof. solve_decision. Defined.

#[global] Instance countable : Countable t.
Proof. apply (inj_countable to_nat of_nat). by intros []. Defined.

End OrderStatus.

Module OrderPriority.

Inductive t := LOW | NORMAL | HIGH | VIP.

Definition value (p : t) : string :=
  match p with
  | LOW => "low" | NORMAL => "normal" | HIGH => "high" | VIP => "vip"
  end.

#[global] Instance eq_dec : EqDecision t.
Proof. solve_decision. Defined.

End OrderPriority.

(** ** Exceptions and the state-and-exception monad *)

(** Exceptions raised by the modelled code.  [StatusTransitionError] keeps the
    three components its message is formatted from:
    [Invalid transition from {from} to {to}. Valid transitions: {targets}].
    [TypeError] is the one Python raises when the arguments of a call do not
    fit the signature of the callee.  [OtherException] stands for any other exception
    (a transport failure, a handler failure) with the text [str] gives it. *)
Inductive Exception :=
| StatusTransitionError
    (from_status to_status : OrderStatus.t) (valid_targets : gset OrderStatus.t)
| TypeError (message : string)
| OtherException (message : string).

(** A computation over a state [S] that returns a value or raises.  The state
    reached when an exception is raised is kept: Python does not undo the
    mutations made before a [raise]. *)
Definition M (S A : Type) : Type := S → (Exception + A) * S.

#[global] Instance M_ret {S} : MRet (M S) := λ A (a : A) s, (inr a, s).

#[global] Instance M_bind {S} : MBind (M S) := λ A B (f : A → M S B) (m : M S A) s,
  match m s with
  | (inr a, s') => f a s'
  | (inl e, s') => (inl e, s')
  end.

Definition raise {S A} (e : Exception) : M S A := λ s, (inl e, s).

(** [try: body except Exception as e: handler(e)] *)
Definition try_except {S A} (body : M S A) (handler : Exception → M S A) : M S A :=
  λ s, match body s with
       | (inl e, s') => handler e s'
       | (inr a, s') => (inr a, s')
       end.

Definition get_state {S} : M S S := λ s, (inr s, s).
Definition put_state {S} (s : S) : M S unit := λ _, (inr tt, s).

(** A function that returns or raises without touching the state. *)
Definition lift_result {S A} (r : Exception + A) : M S A := λ s, (r, s).

(** ** The clock *)

(** [readings n] is what the [n]-th call of [datetime.utcnow()] returns;
    [reads] counts the calls made so far. *)
Record Clock := mkClock { readings : nat → datetime; reads : nat }.

Definition Clock_now (c : Clock) : datetime := readings c (reads c).
Definition Clock_tick (c : Clock) : Clock := mkClock (readings c) (S (reads c)).

(** ** models/order.py: the Order model *)

(** Values stored in the free-form [workflow_metadata] mapping: a string, an
    integer, or the [isoformat()] rendering of an instant (kept as the
    instant). *)
Inductive MetaValue :=
| MetaStr (s : string)
| MetaInt (n : Z)
| MetaIso (t : datetime).

Module Order.

(** The columns the workflow reads or writes.  [id], [created_at] and
    [is_deleted] are inherited from [BaseModel]; [models/base.py] is not
    among the sources, and the three are modelled from the specification (a
    unique id, a soft-delete flag) and from their uses in the code.  The
    columns left out (customer contact, kitchen notes, courier, ...) are
    neither read nor written by the operations modelled here. *)
Record t := mkOrder {
  id : Z;  (* BaseModel *)
  is_deleted : bool;  (* BaseModel *)
  created_at : datetime;  (* BaseModel *)
  user_id : Z;
  status : OrderStatus.t;
  payment_method : string;
  priority : OrderPriority.t;
  estimated_preparation_time : option Z;  (* minutes *)
  estimated_delivery_time : option datetime;
  actual_preparation_start : option datetime;
  actual_preparation_end : option datetime;
  delivery_completed_at : option datetime;
  status_pending_at : datetime;
  status_confirmed_at : option datetime;
  status_preparing_at : option datetime;
  status_ready_at : option datetime;
  status_completed_at : option datetime;
  status_cancelled_at : option datetime;
  delivery_type : string;  (* delivery or pickup *)
  cancellation_reason : option string;
  cancelled_by_user_id : option Z;
  refund_amount : option float;
  preparation_duration : option Z;  (* minutes *)
  total_duration : option Z;  (* minutes *)
  automation_flags : option (gmap string bool);
  workflow_metadata : option (gmap string MetaValue)
}.

(** Attribute assignment [order.f = v], one function per attribute the
    modelled code writes. *)
Definition set_status (v : OrderStatus.t) (o : t) : t :=
  {| id := id o; is_deleted := is_deleted o; created_at := created_at o; user_id := user_id o;
     status := v; payment_method := payment_method o; priority := priority o;
     estimated_preparation_time := estimated_preparation_time o;
     estimated_delivery_time := estimated_delivery_time o;
     actual_preparation_start := actual_preparation_start o;
     actual_preparation_end := actual_preparation_end o;
     delivery_completed_at := delivery_completed_at o; status_pending_at := status_pending_at o;
     status_confirmed_at := status_confirmed_at o; status_preparing_at := status_preparing_at o;
     status_ready_at := status_ready_at o; status_completed_at := status_completed_at o;
     status_cancelled_at := status_cancelled_at o; delivery_type := delivery_type o;
     cancellation_reason := cancellation_reason o;
     cancelled_by_user_id := cancelled_by_user_id o; refund_amount := refund_amount o;
     preparation_duration := preparation_duration o; total_duration := total_duration o;
     automation_flags := automation_flags o; workflow_metadata := workflow_metadata o |}.

Definition set_estimated_preparation_time (v : option Z) (o : t) : t :=
  {| id := id o; is_deleted := is_deleted o; created_at := created_at o; user_id := user_id o;
     status := status o; payment_method := payment_method o; priority := priority o;
     estimated_preparation_time := v; estimated_delivery_time := estimated_delivery_time o;
     actual_preparation_start := actual_preparation_start o;
     actual_preparation_end := actual_preparation_end o;
     delivery_completed_at := delivery_completed_at o; status_pending_at := status_pending_at o;
     status_confirmed_at := status_confirmed_at o; status_preparing_at := status_preparing_at o;
     status_ready_at := status_ready_at o; status_completed_at := status_completed_at o;
     status_cancelled_at := status_cancelled_at o; delivery_type := delivery_type o;
     cancellation_reason := cancellation_reason o;
     cancelled_by_user_id := cancelled_by_user_id o; refund_amount := refund_amount o;
     preparation_duration := preparation_duration o; total_duration := total_duration o;
     automation_flags := automation_flags o; workflow_metadata := workflow_metadata o |}.

Definition set_estimated_delivery_time (v : option datetime) (o : t) : t :=
  {| id := id o; is_deleted := is_deleted o; created_at := created_at o; user_id := user_id o;
     status := status o; payment_method := payment_method o; priority := priority o;
     estimated_preparation_time := estimated_preparation_time o; estimated_delivery_time := v;
     actual_preparation_start := actual_preparation_start o;
     actual_preparation_end := actual_preparation_end o;
     delivery_completed_at := delivery_completed_at o; status_pending_at := status_pending_at o;
     status_confirmed_at := status_confirmed_at o; status_preparing_at := status_preparing_at o;
     status_ready_at := status_ready_at o; status_completed_at := status_completed_at o;
     status_cancelled_at := status_cancelled_at o; delivery_type := delivery_type o;
     cancellation_reason := cancellation_reason o;
     cancelled_by_user_id := cancelled_by_user_id o; refund_amount := refund_amount o;
     preparation_duration := preparation_duration o; total_duration := total_duration o;
     automation_flags := automation_flags o; workflow_metadata := workflow_metadata o |}.

Definition set_actual_preparation_start (v : option datetime) (o : t) : t :=
  {| id := id o; is_deleted := is_deleted o; created_at := created_at o; user_id := user_id o;
     status := status o; payment_method := payment_method o; priority := priority o;
     estimated_preparation_time := estimated_preparation_time o;
     estimated_delivery_time := estimated_delivery_time o; actual_preparation_start := v;
     actual_preparation_end := actual_preparation_end o;
     delivery_completed_at := delivery_completed_at o; status_pending_at := status_pending_at o;
     status_confirmed_at := status_confirmed_at o; status_preparing_at := status_preparing_at o;
     status_ready_at := status_ready_at o; status_completed_at := status_completed_at o;
     status_cancelled_at := status_cancelled_at o; delivery_type := delivery_type o;
     cancellation_reason := cancellation_reason o;
     cancelled_by_user_id := cancelled_by_user_id o; refund_amount := refund_amount o;
     preparation_duration := preparation_duration o; total_duration := total_duration o;
     automation_flags := automation_flags o; workflow_metadata := workflow_metadata o |}.

Definition set_actual_preparation_end (v : option datetime) (o : t) : t :=
  {| id := id o; is_deleted := is_deleted o; created_at := created_at o; user_id := user_id o;
     status := status o; payment_method := payment_method o; priority := priority o;
     estimated_preparation_time := estimated_preparation_time o;
     estimated_delivery_time := estimated_delivery_time o;
     actual_preparation_start := actual_preparation_start o; actual_preparation_end := v;
     delivery_completed_at := delivery_completed_at o; status_pending_at := status_pending_at o;
     status_confirmed_at := status_confirmed_at o; status_preparing_at := status_preparing_at o;
     status_ready_at := status_ready_at o; status_completed_at := status_completed_at o;
     status_cancelled_at := status_cancelled_at o; delivery_type := delivery_type o;
     cancellation_reason := cancellation_reason o;
     cancelled_by_user_id := cancelled_by_user_id o; refund_amount := refund_amount o;
     preparation_duration := preparation_duration o; total_duration := total_duration o;
     automation_flags := automation_flags o; workflow_metadata := workflow_metadata o |}.

Definition set_delivery_completed_at (v : option datetime) (o : t) : t :=
  {| id := id o; is_deleted := is_deleted o; created_at := created_at o; user_id := user_id o;
     status := status o; payment_method := payment_method o; priority := priority o;
     estimated_preparation_time := estimated_preparation_time o;
     estimated_delivery_time := estimated_delivery_time o;
     actual_preparation_start := actual_preparation_start o;
     actual_preparation_end := actual_preparation_end o; delivery_completed_at := v;
     status_pending_at := status_pending_at o; status_confirmed_at := status_confirmed_at o;
     status_preparing_at := status_preparing_at o; status_ready_at := status_ready_at o;
     status_completed_at := status_completed_at o; status_cancelled_at := status_cancelled_at o;
     delivery_type := delivery_type o; cancellation_reason := cancellation_reason o;
     cancelled_by_user_id := cancelled_by_user_id o; refund_amount := refund_amount o;
     preparation_duration := preparation_duration o; total_duration := total_duration o;
     automation_flags := automation_flags o; workflow_metadata := workflow_metadata o |}.

Definition set_status_pending_at (v : datetime) (o : t) : t :=
  {| id := id o; is_deleted := is_deleted o; created_at := created_at o; user_id := user_id o;
     status := status o; payment_method := payment_method o; priority := priority o;
     estimated_preparation_time := estimated_preparation_time o;
     estimated_delivery_time := estimated_delivery_time o;
     actual_preparation_start := actual_preparation_start o;
     actual_preparation_end := actual_preparation_end o;
     delivery_completed_at := delivery_completed_at o; status_pending_at := v;
     status_confirmed_at := status_confirmed_at o; status_preparing_at := status_preparing_at o;
     status_ready_at := status_ready_at o; status_completed_at := status_completed_at o;
     status_cancelled_at := status_cancelled_at o; delivery_type := delivery_type o;
     cancellation_reason := cancellation_reason o;
     cancelled_by_user_id := cancelled_by_user_id o; refund_amount := refund_amount o;
     preparation_duration := preparation_duration o; total_duration := total_duration o;
     automation_flags := automation_flags o; workflow_metadata := workflow_metadata o |}.

Definition set_status_confirmed_at (v : option datetime) (o : t) : t :=
  {| id := id o; is_deleted := is_deleted o; created_at := created_at o; user_id := user_id o;
     status := status o; payment_method := payment_method o; priority := priority o;
     estimated_preparation_time := estimated_preparation_time o;
     estimated_delivery_time := estimated_delivery_time o;
     actual_preparation_start := actual_preparation_start o;
     actual_preparation_end := actual_preparation_end o;
     delivery_completed_at := delivery_completed_at o; status_pending_at := status_pending_at o;
     status_confirmed_at := v; status_preparing_at := status_preparing_at o;
     status_ready_at := status_ready_at o; status_completed_at := status_completed_at o;
     status_cancelled_at := status_cancelled_at o; delivery_type := delivery_type o;
     cancellation_reason := cancellation_reason o;
     cancelled_by_user_id := cancelled_by_user_id o; refund_amount := refund_amount o;
     preparation_duration := preparation_duration o; total_duration := total_duration o;
     automation_flags := automation_flags o; workflow_metadata := workflow_metadata o |}.

Definition set_status_preparing_at (v : option datetime) (o : t) : t :=
  {| id := id o; is_deleted := is_deleted o; created_at := created_at o; user_id := user_id o;
     status := status o; payment_method := payment_method o; priority := priority o;
     estimated_preparation_time := estimated_preparation_time o;
     estimated_delivery_time := estimated_delivery_time o;
     actual_preparation_start := actual_preparation_start o;
     actual_preparation_end := actual_preparation_end o;
     delivery_completed_at := delivery_completed_at o; status_pending_at := status_pending_at o;
     status_confirmed_at := status_confirmed_at o; status_preparing_at := v;
     status_ready_at := status_ready_at o; status_completed_at := status_completed_at o;
     status_cancelled_at := status_cancelled_at o; delivery_type := delivery_type o;
     cancellation_reason := cancellation_reason o;
     cancelled_by_user_id := cancelled_by_user_id o; refund_amount := refund_amount o;
     preparation_duration := preparation_duration o; total_duration := total_duration o;
     automation_flags := automation_flags o; workflow_metadata := workflow_metadata o |}.

Definition set_status_ready_at (v : option datetime) (o : t) : t :=
  {| id := id o; is_deleted := is_deleted o; created_at := created_at o; user_id := user_id o;
     status := status o; payment_method := payment_method o; priority := priority o;
     estimated_preparation_time := estimated_preparation_time o;
     estimated_delivery_time := estimated_delivery_time o;
     actual_preparation_start := actual_preparation_start o;
     actual_preparation_end := actual_preparation_end o;
     delivery_completed_at := delivery_completed_at o; status_pending_at := status_pending_at o;
     status_confirmed_at := status_confirmed_at o; status_preparing_at := status_preparing_at o;
     status_ready_at := v; status_completed_at := status_completed_at o;
     status_cancelled_at := status_cancelled_at o; delivery_type := delivery_type o;
     cancellation_reason := cancellation_reason o;
     cancelled_by_user_id := cancelled_by_user_id o; refund_amount := refund_amount o;
     preparation_duration := preparation_duration o; total_duration := total_duration o;
     automation_flags := automation_flags o; workflow_metadata := workflow_metadata o |}.

Definition set_status_completed_at (v : option datetime) (o : t) : t :=
  {| id := id o; is_deleted := is_deleted o; created_at := created_at o; user_id := user_id o;
     status := status o; payment_method := payment_method o; priority := priority o;
     estimated_preparation_time := estimated_preparation_time o;
     estimated_delivery_time := estimated_delivery_time o;
     actual_preparation_start := actual_preparation_start o;
     actual_preparation_end := actual_preparation_end o;
     delivery_completed_at := delivery_completed_at o; status_pending_at := status_pending_at o;
     status_confirmed_at := status_confirmed_at o; status_preparing_at := status_preparing_at o;
     status_ready_at := status_ready_at o; status_completed_at := v;
     status_cancelled_at := status_cancelled_at o; delivery_type := delivery_type o;
     cancellation_reason := cancellation_reason o;
     cancelled_by_user_id := cancelled_by_user_id o; refund_amount := refund_amount o;
     preparation_duration := preparation_duration o; total_duration := total_duration o;
     automation_flags := automation_flags o; workflow_metadata := workflow_metadata o |}.

Definition set_status_cancelled_at (v : option datetime) (o : t) : t :=
  {| id := id o; is_deleted := is_deleted o; created_at := created_at o; user_id := user_id o;
     status := status o; payment_method := payment_method o; priority := priority o;
     estimated_preparation_time := estimated_preparation_time o;
     estimated_delivery_time := estimated_delivery_time o;
     actual_preparation_start := actual_preparation_start o;
     actual_preparation_end := actual_preparation_end o;
     delivery_completed_at := delivery_completed_at o; status_pending_at := status_pending_at o;
     status_confirmed_at := status_confirmed_at o; status_preparing_at := status_preparing_at o;
     status_ready_at := status_ready_at o; status_completed_at := status_completed_at o;
     status_cancelled_at := v; delivery_type := delivery_type o;
     cancellation_reason := cancellation_reason o;
     cancelled_by_user_id := cancelled_by_user_id o; refund_amount := refund_amount o;
     preparation_duration := preparation_duration o; total_duration := total_duration o;
     automation_flags := automation_flags o; workflow_metadata := workflow_metadata o |}.

Definition set_cancellation_reason (v : option string) (o : t) : t :=
  {| id := id o; is_deleted := is_deleted o; created_at := created_at o; user_id := user_id o;
     status := status o; payment_method := payment_method o; priority := priority o;
     estimated_preparation_time := estimated_preparation_time o;
     estimated_delivery_time := estimated_delivery_time o;
     actual_preparation_start := actual_preparation_start o;
     actual_preparation_end := actual_preparation_end o;
     delivery_completed_at := delivery_completed_at o; status_pending_at := status_pending_at o;
     status_confirmed_at := status_confirmed_at o; status_preparing_at := status_preparing_at o;
     status_ready_at := status_ready_at o; status_completed_at := status_completed_at o;
     status_cancelled_at := status_cancelled_at o; delivery_type := delivery_type o;
     cancellation_reason := v; cancelled_by_user_id := cancelled_by_user_id o;
     refund_amount := refund_amount o; preparation_duration := preparation_duration o;
     total_duration := total_duration o; automation_flags := automation_flags o;
     workflow_metadata := workflow_metadata o |}.

Definition set_cancelled_by_user_id (v : option Z) (o : t) : t :=
  {| id := id o; is_deleted := is_deleted o; created_at := created_at o; user_id := user_id o;
     status := status o; payment_method := payment_method o; priority := priority o;
     estimated_preparation_time := estimated_preparation_time o;
     estimated_delivery_time := estimated_delivery_time o;
     actual_preparation_start := actual_preparation_start o;
     actual_preparation_end := actual_preparation_end o;
     delivery_completed_at := delivery_completed_at o; status_pending_at := status_pending_at o;
     status_confirmed_at := status_confirmed_at o; status_preparing_at := status_preparing_at o;
     status_ready_at := status_ready_at o; status_completed_at := status_completed_at o;
     status_cancelled_at := status_cancelled_at o; delivery_type := delivery_type o;
     cancellation_reason := cancellation_reason o; cancelled_by_user_id := v;
     refund_amount := refund_amount o; preparation_duration := preparation_duration o;
     total_duration := total_duration o; automation_flags := automation_flags o;
     workflow_metadata := workflow_metadata o |}.

Definition set_refund_amount (v : option float) (o : t) : t :=
  {| id := id o; is_deleted := is_deleted o; created_at := created_at o; user_id := user_id o;
     status := status o; payment_method := payment_method o; priority := priority o;
     estimated_preparation_time := estimated_preparation_time o;
     estimated_delivery_time := estimated_delivery_time o;
     actual_preparation_start := actual_preparation_start o;
     actual_preparation_end := actual_preparation_end o;
     delivery_completed_at := delivery_completed_at o; status_pending_at := status_pending_at o;
     status_confirmed_at := status_confirmed_at o; status_preparing_at := status_preparing_at o;
     status_ready_at := status_ready_at o; status_completed_at := status_completed_at o;
     status_cancelled_at := status_cancelled_at o; delivery_type := delivery_type o;
     cancellation_reason := cancellation_reason o;
     cancelled_by_user_id := cancelled_by_user_id o; refund_amount := v;
     preparation_duration := preparation_duration o; total_duration := total_duration o;
     automation_flags := automation_flags o; workflow_metadata := workflow_metadata o |}.

Definition set_preparation_duration (v : option Z) (o : t) : t :=
  {| id := id o; is_deleted := is_deleted o; created_at := created_at o; user_id := user_id o;
     status := status o; payment_method := payment_method o; priority := priority o;
     estimated_preparation_time := estimated_preparation_time o;
     estimated_delivery_time := estimated_delivery_time o;
     actual_preparation_start := actual_preparation_start o;
     actual_preparation_end := actual_preparation_end o;
     delivery_completed_at := delivery_completed_at o; status_pending_at := status_pending_at o;
     status_confirmed_at := status_confirmed_at o; status_preparing_at := status_preparing_at o;
     status_ready_at := status_ready_at o; status_completed_at := status_completed_at o;
     status_cancelled_at := status_cancelled_at o; delivery_type := delivery_type o;
     cancellation_reason := cancellation_reason o;
     cancelled_by_user_id := cancelled_by_user_id o; refund_amount := refund_amount o;
     preparation_duration := v; total_duration := total_duration o;
     automation_flags := automation_flags o; workflow_metadata := workflow_metadata o |}.

Definition set_total_duration (v : option Z) (o : t) : t :=
  {| id := id o; is_deleted := is_deleted o; created_at := created_at o; user_id := user_id o;
     status := status o; payment_method := payment_method o; priority := priority o;
     estimated_preparation_time := estimated_preparation_time o;
     estimated_delivery_time := estimated_delivery_time o;
     actual_preparation_start := actual_preparation_start o;
     actual_preparation_end := actual_preparation_end o;
     delivery_completed_at := delivery_completed_at o; status_pending_at := status_pending_at o;
     status_confirmed_at := status_confirmed_at o; status_preparing_at := status_preparing_at o;
     status_ready_at := status_ready_at o; status_completed_at := status_completed_at o;
     status_cancelled_at := status_cancelled_at o; delivery_type := delivery_type o;
     cancellation_reason := cancellation_reason o;
     cancelled_by_user_id := cancelled_by_user_id o; refund_amount := refund_amount o;
     preparation_duration := preparation_duration o; total_duration := v;
     automation_flags := automation_flags o; workflow_metadata := workflow_metadata o |}.

Definition set_automation_flags (v : option (gmap string bool)) (o : t) : t :=
  {| id := id o; is_deleted := is_deleted o; created_at := created_at o; user_id := user_id o;
     status := status o; payment_method := payment_method o; priority := priority o;
     estimated_preparation_time := estimated_preparation_time o;
     estimated_delivery_time := estimated_delivery_time o;
     actual_preparation_start := actual_preparation_start o;
     actual_preparation_end := actual_preparation_end o;
     delivery_completed_at := delivery_completed_at o; status_pending_at := status_pending_at o;
     status_confirmed_at := status_confirmed_at o; status_preparing_at := status_preparing_at o;
     status_ready_at := status_ready_at o; status_completed_at := status_completed_at o;
     status_cancelled_at := status_cancelled_at o; delivery_type := delivery_type o;
     cancellation_reason := cancellation_reason o;
     cancelled_by_user_id := cancelled_by_user_id o; refund_amount := refund_amount o;
     preparation_duration := preparation_duration o; total_duration := total_duration o;
     automation_flags := v; workflow_metadata := workflow_metadata o |}.

Definition set_workflow_metadata (v : option (gmap string MetaValue)) (o : t) : t :=
  {| id := id o; is_deleted := is_deleted o; created_at := created_at o; user_id := user_id o;
     status := status o; payment_method := payment_method o; priority := priority o;
     estimated_preparation_time := estimated_preparation_time o;
     estimated_delivery_time := estimated_delivery_time o;
     actual_preparation_start := actual_preparation_start o;
     actual_preparation_end := actual_preparation_end o;
     delivery_completed_at := delivery_completed_at o; status_pending_at := status_pending_at o;
     status_confirmed_at := status_confirmed_at o; status_preparing_at := status_preparing_at o;
     status_ready_at := status_ready_at o; status_completed_at := status_completed_at o;
     status_cancelled_at := status_cancelled_at o; delivery_type := delivery_type o;
     cancellation_reason := cancellation_reason o;
     cancelled_by_user_id := cancelled_by_user_id o; refund_amount := refund_amount o;
     preparation_duration := preparation_duration o; total_duration := total_duration o;
     automation_flags := automation_flags o; workflow_metadata := v |}.
(** [is_active] *)
Definition is_active (o : t) : bool :=
  bool_decide (status o ∈ [OrderStatus.PENDING; OrderStatus.CONFIRMED;
                           OrderStatus.PREPARING; OrderStatus.READY]).

(** [is_completed_state]: the order is in a final state. *)
Definition is_completed_state (o : t) : bool :=
  bool_decide (status o ∈ [OrderStatus.COMPLETED; OrderStatus.CANCELLED;
                           OrderStatus.FAILED; OrderStatus.REFUNDED]).

(** [can_be_cancelled] *)
Definition can_be_cancelled (o : t) : bool :=
  bool_decide (status o ∈ [OrderStatus.PENDING; OrderStatus.CONFIRMED;
                           OrderStatus.PREPARING]).

(** [can_be_refunded] *)
Definition can_be_refunded (o : t) : bool :=
  bool_decide (status o ∈ [OrderStatus.COMPLETED; OrderStatus.CANCELLED]).

(** [get_estimated_completion_time]: [None] when
    [estimated_preparation_time] is [None] or [0]; otherwise
    [(status_confirmed_at or created_at) + timedelta(minutes=...)]. *)
Definition get_estimated_completion_time (o : t) : option datetime :=
  match estimated_preparation_time o with
  | None => None
  | Some n =>
      if n =? 0 then None
      else
        let base_time := default (created_at o) (status_confirmed_at o) in
        Some (base_time + minutes n)
  end.

(** [calculate_preparation_duration] *)
Definition calculate_preparation_duration (o : t) : option Z :=
  match actual_preparation_start o, actual_preparation_end o with
  | Some start, Some stop => Some (whole_minutes (stop - start))
  | _, _ => None
  end.

(** [calculate_total_duration] *)
Definition calculate_total_duration (o : t) : option Z :=
  match status_completed_at o with
  | Some completed => Some (whole_minutes (completed - created_at o))
  | None => None
  end.

(** [is_overdue]: the clock is read only when an estimate exists. *)
Definition is_overdue (o : t) : M Clock bool :=
  match get_estimated_completion_time o with
  | None => mret false
  | Some estimated =>
      c ← get_state;
      put_state (Clock_tick c);;
      mret (bool_decide (estimated < Clock_now c) && negb (is_completed_state o))
  end.

(** [set_workflow_metadata_value] *)
Definition set_workflow_metadata_value (key : string) (value : MetaValue) (o : t) : t :=
  let metadata := default ∅ (workflow_metadata o) in
  set_workflow_metadata (Some (<[key := value]> metadata)) o.

(** [set_automation_flag] *)
Definition set_automation_flag (flag : string) (value : bool) (o : t) : t :=
  let flags := default ∅ (automation_flags o) in
  set_automation_flags (Some (<[flag := value]> flags)) o.

End Order.

(** ** models/order_status_history.py *)

Module StatusChangeReason.

Inductive t :=
| AUTOMATIC | MANUAL_ADMIN | PAYMENT_SUCCESS | PAYMENT_FAILED
| CUSTOMER_REQUEST | KITCHEN_READY | DELIVERY_COMPLETED | TIMEOUT | ERROR
| REFUND_PROCESSED | CANCELLED_BY_ADMIN | CANCELLED_BY_CUSTOMER.

Definition value (r : t) : string :=
  match r with
  | AUTOMATIC => "automatic" | MANUAL_ADMIN => "manual_admin"
  | PAYMENT_SUCCESS => "payment_success" | PAYMENT_FAILED => "payment_failed"
  | CUSTOMER_REQUEST => "customer_request" | KITCHEN_READY => "kitchen_ready"
  | DELIVERY_COMPLETED => "delivery_completed" | TIMEOUT => "timeout"
  | ERROR => "error" | REFUND_PROCESSED => "refund_processed"
  | CANCELLED_BY_ADMIN => "cancelled_by_admin"
  | CANCELLED_BY_CUSTOMER => "cancelled_by_customer"
  end.

End StatusChangeReason.

Module OrderStatusHistory.

(** The object [create_status_change] builds, before it is flushed: every
    column but the primary key and [changed_at], which the insert supplies. *)
Record fields := mkFields {
  order_id : Z;
  from_status : option string;
  to_status : string;
  reason : string;
  changed_by_user_id : option Z;
  notes : option string;
  system_message : option string;
  workflow_data : gmap string MetaValue;
  duration_from_previous : option Z;  (* minutes *)
  triggered_by_event : option string;
  external_reference_id : option string;
  ip_address : option string;
  user_agent : option string
}.

(** A row of [order_status_history]. *)
Record t := mkRow {
  id : Z;
  changed_at : datetime;  (* default=datetime.utcnow, set by the insert *)
  row_fields : fields
}.

(** [history.duration_from_previous = v] *)
Definition set_duration_from_previous (v : option Z) (h : fields) : fields :=
  {| order_id := order_id h; from_status := from_status h; to_status := to_status h;
     reason := reason h; changed_by_user_id := changed_by_user_id h; notes := notes h;
     system_message := system_message h; workflow_data := workflow_data h;
     duration_from_previous := v; triggered_by_event := triggered_by_event h;
     external_reference_id := external_reference_id h; ip_address := ip_address h;
     user_agent := user_agent h |}.

(** [OrderStatusHistory.create_status_change]; [workflow_data or {}]. *)
Definition create_status_change
    (order_id : Z) (from_status : option string) (to_status : string)
    (reason : StatusChangeReason.t) (changed_by_user_id : option Z)
    (notes system_message : option string)
    (workflow_data : option (gmap string MetaValue))
    (triggered_by_event external_reference_id ip_address user_agent : option string)
  : fields :=
  {| order_id := order_id; from_status := from_status; to_status := to_status;
     reason := StatusChangeReason.value reason;
     changed_by_user_id := changed_by_user_id; notes := notes;
     system_message := system_message;
     workflow_data := default ∅ workflow_data;
     duration_from_previous := None;
     triggered_by_event := triggered_by_event;
     external_reference_id := external_reference_id;
     ip_address := ip_address; user_agent := user_agent |}.

End OrderStatusHistory.

Coercion OrderStatusHistory.row_fields : OrderStatusHistory.t >-> OrderStatusHistory.fields.

(** ** The database session of the workflow *)

(** What [OrderWorkflow] reaches through [self.db] and
    [self.notification_service]:
    - [orders]: the [Order] objects of the session by primary key.  The ORM
      keeps one object per key, so the model does not tell an object's
      attributes from its row: [db_commit] writes the object back.
    - [order_status_history]: the rows of the ledger, oldest insert first.
    - [next_history_id]: the primary-key sequence of the ledger.
    - [status_change_notices]: the calls made to
      [NotificationService.notify_order_status_change], as
      (order id, old status, status at the call).  That method catches its
      own exceptions and touches neither orders nor history. *)
Record Session := mkSession {
  clock : Clock;
  orders : gmap Z Order.t;
  order_status_history : list OrderStatusHistory.t;
  next_history_id : Z;
  status_change_notices : list (Z * OrderStatus.t * OrderStatus.t)
}.

(** [datetime.utcnow()] *)
Definition utcnow : M Session datetime := λ s,
  (inr (Clock_now (clock s)),
   mkSession (Clock_tick (clock s)) (orders s) (order_status_history s)
     (next_history_id s) (status_change_notices s)).

(** [select(Order).where(Order.id == order_id, Order.is_deleted == False)]
    followed by [scalar_one_or_none()]. *)
Definition select_order (order_id : Z) : M Session (option Order.t) := λ s,
  (inr (match orders s !! order_id with
        | Some o => if Order.is_deleted o then None else Some o
        | None => None
        end), s).

(** The session's object for the key of [order] now has the attributes of
    [order]: the effect, on the session, of the in-place assignments the
    caller has made to it. *)
Definition session_put (order : Order.t) : M Session unit := λ s,
  (inr tt,
   mkSession (clock s) (<[Order.id order := order]> (orders s))
     (order_status_history s) (next_history_id s) (status_change_notices s)).

(** [db.commit()] followed by [db.refresh(order)]: the dirty order is flushed
    and read back unchanged. *)
Definition db_commit (order : Order.t) : M Session unit := session_put order.

(** [db.add(history)] flushed by the commit and read back by
    [db.refresh(history)]: the insert draws the primary key and evaluates the
    column default [changed_at = datetime.utcnow()]. *)
Definition db_add_history (h : OrderStatusHistory.fields)
  : M Session OrderStatusHistory.t :=
  now ← utcnow;
  s ← get_state;
  let row := OrderStatusHistory.mkRow (next_history_id s) now h in
  put_state (mkSession (clock s) (orders s) (order_status_history s ++ [row])
               (next_history_id s + 1) (status_change_notices s));;
  mret row.

(** [ORDER BY changed_at DESC LIMIT 1] over the given rows: a row whose
    [changed_at] is greatest (the database is free to return any of them;
    the model returns the one inserted first). *)
Definition latest (rows : list OrderStatusHistory.t) : option OrderStatusHistory.t :=
  foldl (λ best r,
           match best with
           | None => Some r
           | Some b =>
               if OrderStatusHistory.changed_at b <? OrderStatusHistory.changed_at r
               then Some r else Some b
           end) None rows.

(** [OrderWorkflow._get_last_status_history] *)
Definition _get_last_status_history (order_id : Z)
  : M Session (option OrderStatusHistory.t) := λ s,
  (inr (latest (filter (λ r : OrderStatusHistory.t, OrderStatusHistory.order_id r = order_id)
                  (order_status_history s))), s).

(** ** services/order_workflow.py: the transition table *)

(** [OrderWorkflow.valid_transitions], a dict from status to a set of
    statuses; [.get(from_status, set())] never takes its default because the
    dict has a key for each of the eight statuses. *)
Definition valid_transitions (from_status : OrderStatus.t) : gset OrderStatus.t :=
  match from_status with
  | OrderStatus.PENDING =>
      {[ OrderStatus.CONFIRMED; OrderStatus.CANCELLED; OrderStatus.FAILED ]}
  | OrderStatus.CONFIRMED => {[ OrderStatus.PREPARING; OrderStatus.CANCELLED ]}
  | OrderStatus.PREPARING => {[ OrderStatus.READY; OrderStatus.CANCELLED ]}
  | OrderStatus.READY => {[ OrderStatus.COMPLETED; OrderStatus.CANCELLED ]}
  | OrderStatus.COMPLETED => {[ OrderStatus.REFUNDED ]}
  | OrderStatus.CANCELLED => {[ OrderStatus.REFUNDED ]}
  | OrderStatus.FAILED => {[ OrderStatus.PENDING; OrderStatus.CANCELLED ]}
  | OrderStatus.REFUNDED => ∅
  end.

(** [OrderWorkflow._validate_transition]: returns normally ([inr tt]) or
    raises ([inl]). *)
Definition _validate_transition (from_status to_status : OrderStatus.t)
  : Exception + unit :=
  if decide (from_status = to_status) then inr tt
  else
    let valid_targets := valid_transitions from_status in
    if decide (to_status ∈ valid_targets) then inr tt
    else inl (StatusTransitionError from_status to_status valid_targets).


(** ** services/order_workflow.py: the workflow engine *)

(** [OrderWorkflow.default_preparation_times]; [.get(order.priority, ...)]
    never takes its default because each priority is a key. *)
Definition default_preparation_times (p : OrderPriority.t) : Z :=
  match p with
  | OrderPriority.VIP => 15
  | OrderPriority.HIGH => 25
  | OrderPriority.NORMAL => 35
  | OrderPriority.LOW => 45
  end.

(** [OrderWorkflow._auto_calculate_timing_fields] *)
Definition _auto_calculate_timing_fields (order : Order.t) (status : OrderStatus.t)
  : M Session Order.t :=
  now ← utcnow;
  match status with
  | OrderStatus.CONFIRMED =>
      (* Set estimated preparation time if not set *)
      let order :=
        if negb (truthy_int (Order.estimated_preparation_time order))
        then Order.set_estimated_preparation_time
               (Some (default_preparation_times (Order.priority order))) order
        else order in
      (* Calculate estimated delivery time *)
      let order :=
        match Order.estimated_preparation_time order with
        | Some n =>
            if n =? 0 then order
            else Order.set_estimated_delivery_time (Some (now + minutes n)) order
        | None => order
        end in
      mret order
  | OrderStatus.PREPARING =>
      (* Mark actual preparation start *)
      let order :=
        if negb (truthy_datetime (Order.actual_preparation_start order))
        then Order.set_actual_preparation_start (Some now) order
        else order in
      mret order
  | OrderStatus.READY =>
      (* Mark actual preparation end and calculate duration *)
      let order :=
        if negb (truthy_datetime (Order.actual_preparation_end order))
        then Order.set_actual_preparation_end (Some now) order
        else order in
      let order :=
        match Order.actual_preparation_start order with
        | Some start =>
            if negb (truthy_int (Order.preparation_duration order))
            then Order.set_preparation_duration (Some (whole_minutes (now - start))) order
            else order
        | None => order
        end in
      mret order
  | OrderStatus.COMPLETED =>
      (* Calculate total duration *)
      let order :=
        if negb (truthy_int (Order.total_duration order))
        then Order.set_total_duration
               (Some (whole_minutes (now - Order.created_at order))) order
        else order in
      (* Mark delivery completed *)
      let order :=
        if decide (Order.delivery_type order = "delivery")
        then Order.set_delivery_completed_at (Some now) order
        else order in
      mret order
  | _ => mret order
  end.

(** [OrderWorkflow._update_status_timestamps]; [timestamp_fields] has no
    entry for [REFUNDED] and [FAILED]. *)
Definition _update_status_timestamps
    (order : Order.t) (status : OrderStatus.t) (auto_calculate : bool)
  : M Session Order.t :=
  now ← utcnow;
  let order :=
    match status with
    | OrderStatus.PENDING => Order.set_status_pending_at now order
    | OrderStatus.CONFIRMED => Order.set_status_confirmed_at (Some now) order
    | OrderStatus.PREPARING => Order.set_status_preparing_at (Some now) order
    | OrderStatus.READY => Order.set_status_ready_at (Some now) order
    | OrderStatus.COMPLETED => Order.set_status_completed_at (Some now) order
    | OrderStatus.CANCELLED => Order.set_status_cancelled_at (Some now) order
    | OrderStatus.REFUNDED | OrderStatus.FAILED => order
    end in
  (* Auto-calculate timing fields if requested *)
  if auto_calculate then _auto_calculate_timing_fields order status
  else mret order.

(** [OrderWorkflow._send_status_change_notifications]: the call is wrapped in
    [try/except Exception], so nothing it raises reaches the caller. *)
Definition _send_status_change_notifications
    (order : Order.t) (old_status new_status : OrderStatus.t) : M Session unit :=
  if decide (old_status ≠ new_status) then
    s ← get_state;
    put_state (mkSession (clock s) (orders s) (order_status_history s)
                 (next_history_id s)
                 (status_change_notices s
                    ++ [(Order.id order, old_status, Order.status order)]))
  else mret tt.

(** [OrderWorkflow._schedule_automatic_transitions] *)
Definition _schedule_automatic_transitions
    (order : Order.t) (current_status : OrderStatus.t) : M Session Order.t :=
  let order := Order.set_automation_flag "auto_transition_scheduled" true order in
  now ← utcnow;
  mret (Order.set_workflow_metadata_value "last_auto_check" (MetaIso now) order).

(** [OrderWorkflow._update_workflow_metadata] *)
Definition _update_workflow_metadata
    (order : Order.t) (new_status : OrderStatus.t) (history : OrderStatusHistory.t)
  : M Session Order.t :=
  now ← utcnow;
  let order :=
    Order.set_workflow_metadata_value
      ("status_" +:+ OrderStatus.value new_status +:+ "_at") (MetaIso now) order in
  let order :=
    Order.set_workflow_metadata_value "last_status_change_id"
      (MetaInt (OrderStatusHistory.id history)) order in
  mret (Order.set_workflow_metadata_value "workflow_version" (MetaStr "1.0") order).

(** Status-specific hooks. *)
Definition _on_order_confirmed (order : Order.t) : Order.t :=
  let order := Order.set_automation_flag "kitchen_notified" false order in
  Order.set_automation_flag "auto_preparing_eligible" true order.

Definition _on_order_preparing (order : Order.t) : Order.t :=
  let order := Order.set_automation_flag "kitchen_notified" true order in
  Order.set_automation_flag "preparation_started" true order.

Definition _on_order_ready (order : Order.t) : Order.t :=
  if decide (Order.delivery_type order = "pickup")
  then Order.set_automation_flag "auto_complete_eligible" true order
  else order.

Definition _on_order_completed (order : Order.t) : Order.t :=
  let order := Order.set_automation_flag "workflow_completed" true order in
  Order.set_automation_flag "feedback_eligible" true order.

Definition _on_order_cancelled (order : Order.t) : Order.t :=
  let order := Order.set_automation_flag "workflow_cancelled" true order in
  Order.set_automation_flag "refund_eligible" true order.

(** [OrderWorkflow._execute_post_transition_hooks].  The hooks run after the
    commit and mutate the order object in place; the object stays in the
    session, which the final [session_put] records. *)
Definition _execute_post_transition_hooks
    (order : Order.t) (old_status new_status : OrderStatus.t)
    (history : OrderStatusHistory.t) : M Session Order.t :=
  order ← _schedule_automatic_transitions order new_status;
  order ← _update_workflow_metadata order new_status history;
  let order :=
    match new_status with
    | OrderStatus.CONFIRMED => _on_order_confirmed order
    | OrderStatus.PREPARING => _on_order_preparing order
    | OrderStatus.READY => _on_order_ready order
    | OrderStatus.COMPLETED => _on_order_completed order
    | OrderStatus.CANCELLED => _on_order_cancelled order
    | _ => order
    end in
  session_put order;;
  mret order.

(** [OrderWorkflow.transition_status].  Python's default arguments
    ([reason=MANUAL_ADMIN], [validate=True], [auto_calculate_times=True], the
    others [None]) are passed explicitly by the callers below. *)
Definition transition_status
    (order : Order.t) (new_status : OrderStatus.t)
    (reason : StatusChangeReason.t) (changed_by_user_id : option Z)
    (notes system_message : option string)
    (workflow_data : option (gmap string MetaValue))
    (validate auto_calculate_times : bool)
  : M Session (Order.t * OrderStatusHistory.t) :=
  let old_status := Order.status order in
  (* Validate transition if requested *)
  (if validate then lift_result (_validate_transition old_status new_status)
   else mret tt);;
  (* Calculate duration from previous status *)
  duration_from_previous ←
    (if decide (old_status ≠ new_status) then
       last_history ← _get_last_status_history (Order.id order);
       match last_history with
       | Some last =>
           now ← utcnow;
           mret (Some (whole_minutes (now - OrderStatusHistory.changed_at last)))
       | None => mret None
       end
     else mret None);
  (* Update order status and timestamps *)
  let order := Order.set_status new_status order in
  order ← _update_status_timestamps order new_status auto_calculate_times;
  (* Create status history record *)
  let history :=
    OrderStatusHistory.create_status_change
      (Order.id order) (Some (OrderStatus.value old_status))
      (OrderStatus.value new_status) reason changed_by_user_id notes
      system_message workflow_data None None None None in
  let history :=
    OrderStatusHistory.set_duration_from_previous duration_from_previous history in
  (* Save changes *)
  history ← db_add_history history;
  db_commit order;;
  (* Send notifications *)
  _send_status_change_notifications order old_status new_status;;
  (* Execute post-transition hooks *)
  order ← _execute_post_transition_hooks order old_status new_status history;
  mret (order, history).

(** *** Bulk operations *)

(** The text stored under ['error'] in an entry of [failed]: the literal
    ['Order not found'], or [str(e)] of the exception caught (kept as the
    exception). *)
Inductive BulkError :=
| OrderNotFound
| Raised (e : Exception).

Record BulkSuccess := mkBulkSuccess {
  bs_order_id : Z;
  bs_old_status : option string;
  bs_new_status : string;
  bs_history_id : Z
}.

Record BulkFailure := mkBulkFailure {
  bf_order_id : Z;
  bf_error : BulkError
}.

(** The [results] dictionary of [bulk_transition_orders]. *)
Record BulkResults := mkBulkResults {
  successful : list BulkSuccess;
  failed : list BulkFailure;
  total_processed : Z;
  success_count : Z;
  failure_count : Z
}.

(** One iteration of the loop of [bulk_transition_orders]. *)
Definition bulk_transition_step
    (new_status : OrderStatus.t) (reason : StatusChangeReason.t)
    (changed_by_user_id : option Z) (notes : option string)
    (results : BulkResults) (order_id : Z) : M Session BulkResults :=
  let results :=
    mkBulkResults (successful results) (failed results)
      (total_processed results + 1) (success_count results)
      (failure_count results) in
  try_except
    ((* Get order *)
     order ← select_order order_id;
     match order with
     | None =>
         mret (mkBulkResults (successful results)
                 (failed results ++ [mkBulkFailure order_id OrderNotFound])
                 (total_processed results) (success_count results)
                 (failure_count results + 1))
     | Some order =>
         (* Transition status *)
         '((updated_order, history) : Order.t * OrderStatusHistory.t) ←
           transition_status order new_status reason changed_by_user_id notes
             None None true true;
         mret (mkBulkResults
                 (successful results
                    ++ [mkBulkSuccess order_id
                          (OrderStatusHistory.from_status history)
                          (OrderStatusHistory.to_status history)
                          (OrderStatusHistory.id history)])
                 (failed results) (total_processed results)
                 (success_count results + 1) (failure_count results))
     end)
    (λ e,
       mret (mkBulkResults (successful results)
               (failed results ++ [mkBulkFailure order_id (Raised e)])
               (total_processed results) (success_count results)
               (failure_count results + 1))).

(** The [for order_id in order_ids] loop. *)
Fixpoint bulk_transition_loop
    (new_status : OrderStatus.t) (reason : StatusChangeReason.t)
    (changed_by_user_id : option Z) (notes : option string)
    (order_ids : list Z) (results : BulkResults) : M Session BulkResults :=
  match order_ids with
  | [] => mret results
  | order_id :: rest =>
      results ← bulk_transition_step new_status reason changed_by_user_id notes
                  results order_id;
      bulk_transition_loop new_status reason changed_by_user_id notes rest results
  end.

(** [OrderWorkflow.bulk_transition_orders] *)
Definition bulk_transition_orders
    (order_ids : list Z) (new_status : OrderStatus.t)
    (reason : StatusChangeReason.t) (changed_by_user_id : option Z)
    (notes : option string) : M Session BulkResults :=
  bulk_transition_loop new_status reason changed_by_user_id notes order_ids
    (mkBulkResults [] [] 0 0 0).

(** ** services/order.py: cancel_order *)

(** [OrderService.cancel_order]; the whole body is under
    [try/except Exception], which returns [False]. *)
Definition cancel_order
    (order_id : Z) (cancelled_by_user_id : option Z) (reason : option string)
    (refund_amount : option float) : M Session bool :=
  try_except
    ((* Get order first *)
     order ← select_order order_id;
     match order with
     | None => mret false
     | Some order =>
         (* Check if order can be cancelled *)
         if negb (Order.can_be_cancelled order) then mret false
         else
           (* Update cancellation fields *)
           let order := Order.set_cancelled_by_user_id cancelled_by_user_id order in
           let order := Order.set_cancellation_reason reason order in
           let order :=
             if truthy_float refund_amount
             then Order.set_refund_amount refund_amount order
             else order in
           (* the assignments above are made on the session's object *)
           session_put order;;
           (* Use workflow to transition status *)
           let reason_enum :=
             if truthy_int cancelled_by_user_id
             then StatusChangeReason.CANCELLED_BY_CUSTOMER
             else StatusChangeReason.CANCELLED_BY_ADMIN in
           let notes :=
             match reason with
             | Some r => if decide (r = "") then None
                         else Some ("Причина отмены: " +:+ r)
             | None => None
             end in
           '((updated_order, history) : Order.t * OrderStatusHistory.t) ←
             transition_status order OrderStatus.CANCELLED reason_enum
               cancelled_by_user_id notes None None true true;
           mret true
     end)
    (λ e, mret false).

(** ** models/notification.py *)

(** JSON-like values: task payloads, inline keyboards, notification
    metadata. *)
#[local] Unset Elimination Schemes.
Inductive Json :=
| JNull
| JBool (b : bool)
| JInt (n : Z)
| JStr (s : string)
| JList (items : list Json)
| JDict (entries : list (string * Json)).
#[local] Set Elimination Schemes.

Module NotificationType.

Inductive t :=
| ORDER_CREATED | ORDER_CONFIRMED | ORDER_PREPARING | ORDER_READY
| ORDER_COMPLETED | ORDER_CANCELLED | PAYMENT_SUCCESS | PAYMENT_FAILED
| FEEDBACK_REQUEST | ADMIN_NEW_ORDER | ADMIN_PAYMENT_FAILED | ADMIN_DAILY_STATS.

End NotificationType.

Module NotificationStatus.

Inductive t := PENDING | SENT | DELIVERED | FAILED | SCHEDULED.

#[global] Instance eq_dec : EqDecision t.
Proof. solve_decision. Defined.

End NotificationStatus.

Module NotificationTarget.

Inductive t := USER | ADMIN.

End NotificationTarget.

Module Notification.

(** A row of [notifications]; [id] and [is_deleted] come from [BaseModel]. *)
Record t := mkNotification {
  id : Z;
  is_deleted : bool;
  target_type : NotificationTarget.t;
  target_telegram_id : Z;
  notification_type : NotificationType.t;
  status : NotificationStatus.t;
  title : option string;
  message : string;
  order_id : option Z;
  user_id : option Z;
  scheduled_at : option datetime;
  sent_at : option datetime;
  notification_metadata : option Json;
  error_message : option string;
  retry_count : Z;
  inline_keyboard : option Json
}.

(** [notification.status = SENT; notification.sent_at = now] *)
Definition mark_sent (now : datetime) (n : t) : t :=
  {| id := id n; is_deleted := is_deleted n; target_type := target_type n;
     target_telegram_id := target_telegram_id n;
     notification_type := notification_type n; status := NotificationStatus.SENT;
     title := title n; message := message n; order_id := order_id n;
     user_id := user_id n; scheduled_at := scheduled_at n; sent_at := Some now;
     notification_metadata := notification_metadata n;
     error_message := error_message n; retry_count := retry_count n;
     inline_keyboard := inline_keyboard n |}.

(** [notification.status = FAILED; notification.error_message = str(e);
    notification.retry_count += 1] *)
Definition mark_failed (error : string) (n : t) : t :=
  {| id := id n; is_deleted := is_deleted n; target_type := target_type n;
     target_telegram_id := target_telegram_id n;
     notification_type := notification_type n; status := NotificationStatus.FAILED;
     title := title n; message := message n; order_id := order_id n;
     user_id := user_id n; scheduled_at := scheduled_at n; sent_at := sent_at n;
     notification_metadata := notification_metadata n;
     error_message := Some error; retry_count := retry_count n + 1;
     inline_keyboard := inline_keyboard n |}.


(** [should_retry] *)
Definition should_retry (n : t) : bool :=
  bool_decide (status n = NotificationStatus.FAILED) && (retry_count n <? 3).

End Notification.

(** ** services/notification.py *)

(** What [NotificationService] reaches: the [notifications] table by primary
    key with its key sequence, and the Telegram transport.  [bot_replies k]
    is the outcome of the [k]-th call of [bot.send_message] (with the
    construction of its reply markup): [None] when it returns, [Some text]
    when it raises an exception whose [str] is [text].  [bot_sent] lists the
    (chat id, text) of the calls made. *)
Record Outbox := mkOutbox {
  ob_clock : Clock;
  notifications : gmap Z Notification.t;
  next_notification_id : Z;
  bot_replies : nat → option string;
  bot_sent : list (Z * string)
}.

(** [datetime.utcnow()] *)
Definition ob_utcnow : M Outbox datetime := λ s,
  (inr (Clock_now (ob_clock s)),
   mkOutbox (Clock_tick (ob_clock s)) (notifications s) (next_notification_id s)
     (bot_replies s) (bot_sent s)).

(** [await bot.send_message(chat_id=..., text=..., ...)] *)
Definition bot_send_message (chat_id : Z) (text : string) : M Outbox unit := λ s,
  let s' := mkOutbox (ob_clock s) (notifications s) (next_notification_id s)
              (bot_replies s) (bot_sent s ++ [(chat_id, text)]) in
  match bot_replies s (length (bot_sent s)) with
  | None => (inr tt, s')
  | Some text => (inl (OtherException text), s')
  end.

(** Flush of a notification object at [db.commit()]. *)
Definition ob_commit (n : Notification.t) : M Outbox unit := λ s,
  (inr tt,
   mkOutbox (ob_clock s) (<[Notification.id n := n]> (notifications s))
     (next_notification_id s) (bot_replies s) (bot_sent s)).

(** [str(e)].  The targets of a [StatusTransitionError] are printed as the
    list of their values, in the iteration order of the set, which Python
    leaves unspecified. *)
Definition str_exception (e : Exception) : string :=
  match e with
  | OtherException text => text
  | TypeError text => text
  | StatusTransitionError from_status to_status valid_targets =>
      "Invalid transition from " +:+ OrderStatus.value from_status
      +:+ " to " +:+ OrderStatus.value to_status +:+ ". Valid transitions: ["
      +:+ String.concat ", "
            ((λ s, "'" +:+ OrderStatus.value s +:+ "'") <$> elements valid_targets)
      +:+ "]"
  end.

(** [NotificationService._send_telegram_message]: returns the success flag
    and the notification object as it left it. *)
Definition _send_telegram_message (notification : Notification.t)
  : M Outbox (bool * Notification.t) :=
  try_except
    (bot_send_message (Notification.target_telegram_id notification)
       (Notification.message notification);;
     (* Update notification status *)
     now ← ob_utcnow;
     let notification := Notification.mark_sent now notification in
     ob_commit notification;;
     mret (true, notification))
    (λ e,
       (* Update notification with error *)
       let notification := Notification.mark_failed (str_exception e) notification in
       ob_commit notification;;
       mret (false, notification)).

(** *** Calls and signatures *)

(** A Python signature without [*args]/[**kwargs]: the parameter names in
    order, the first [required] of which have no default. *)
Record Signature := mkSignature {
  callee : string;
  parameters : list string;
  required : nat
}.

(** The shape of a call site: how many arguments are positional and which
    are passed by keyword. *)
Record CallSite := mkCallSite {
  positional : nat;
  keywords : list string
}.

(** Argument binding: [TypeError] on too many positional arguments, on a
    keyword the signature does not declare, on a parameter given twice, and
    on a required parameter left without a value. *)
Definition bind_arguments (sig : Signature) (site : CallSite) : Exception + unit :=
  if bool_decide (length (parameters sig) < positional site)%nat then
    inl (TypeError (callee sig +:+ "() takes too many positional arguments"))
  else
    match filter (λ k, k ∉ parameters sig) (keywords site) with
    | k :: _ =>
        inl (TypeError (callee sig +:+ "() got an unexpected keyword argument '"
                        +:+ k +:+ "'"))
    | [] =>
        match filter (λ k, k ∈ take (positional site) (parameters sig))
                (keywords site) with
        | k :: _ =>
            inl (TypeError (callee sig +:+ "() got multiple values for argument '"
                            +:+ k +:+ "'"))
        | [] =>
            match filter (λ p, p ∉ keywords site)
                    (drop (positional site) (take (required sig) (parameters sig))) with
            | p :: _ =>
                inl (TypeError (callee sig +:+ "() missing required argument '"
                                +:+ p +:+ "'"))
            | [] => inr tt
            end
        end
    end.

(** The values a call of [send_notification] passes, defaults filled in. *)
Record SendArguments := mkSendArguments {
  telegram_id : Z;
  message : string;
  notification_type : NotificationType.t;
  target_type : NotificationTarget.t;
  order_id : option Z;
  user_id : option Z;
  title : option string;
  inline_keyboard : option Json;
  schedule_for : option datetime;
  metadata : option Json
}.

(** What a call of [send_notification] returns: the tracked definition returns
    the notification or [None], the legacy one a flag. *)
Inductive SendResult :=
| Tracked (notification : option Notification.t)
| Flag (sent : bool).

(** *** The two definitions of send_notification *)

(** The definition at line 31, an instance method: create the record, commit,
    and send at once unless a schedule time was given.  [metadata or {}]. *)
Definition send_notification_signature : Signature :=
  mkSignature "send_notification"
    ["telegram_id"; "message"; "notification_type"; "target_type"; "order_id";
     "user_id"; "title"; "inline_keyboard"; "schedule_for"; "metadata"] 3.

Definition send_notification_tracked (a : SendArguments)
  : M Outbox (option Notification.t) :=
  try_except
    ((* Create notification record *)
     s ← get_state;
     let notification :=
       Notification.mkNotification (next_notification_id s) false
         (target_type a) (telegram_id a) (notification_type a)
         (if truthy_datetime (schedule_for a)
          then NotificationStatus.SCHEDULED else NotificationStatus.PENDING)
         (title a) (message a) (order_id a) (user_id a) (schedule_for a) None
         (Some (default (JDict []) (metadata a))) None 0 (inline_keyboard a) in
     put_state (mkOutbox (ob_clock s)
                  (<[Notification.id notification := notification]> (notifications s))
                  (next_notification_id s + 1) (bot_replies s) (bot_sent s));;
     (* Send immediately if not scheduled *)
     if negb (truthy_datetime (schedule_for a)) then
       '(_, notification) ← _send_telegram_message notification;
       mret (Some notification)
     else mret (Some notification))
    (λ e, mret None).

(** [send_user_notification], a static method (line 704). *)
Definition send_user_notification (telegram_id : Z) (message : string)
  : M Outbox bool :=
  try_except (bot_send_message telegram_id message;; mret true)
             (λ e, mret false).

(** The definition at line 719, a static method:
    [return await NotificationService.send_user_notification(telegram_id, message)]. *)
Definition send_notification_legacy_signature : Signature :=
  mkSignature "send_notification" ["telegram_id"; "message"] 2.

Definition send_notification_legacy (telegram_id : Z) (message : string)
  : M Outbox bool :=
  send_user_notification telegram_id message.

(** *** The class namespace *)

(** The [def] statements of the body of [class NotificationService], in
    source order, each with the line it starts at. *)
Definition NotificationService_body : list (string * nat) :=
  [("__init__", 27); ("send_notification", 31); ("_send_telegram_message", 76);
   ("notify_order_created", 124); ("_notify_admin_new_order", 171);
   ("notify_order_status_change", 219); ("_schedule_feedback_request", 350);
   ("notify_payment_success", 405); ("notify_payment_failed", 443);
   ("save_feedback_rating", 503); ("process_scheduled_notifications", 567);
   ("retry_failed_notifications", 601); ("get_notification_stats", 632);
   ("send_admin_notification", 690); ("send_user_notification", 704);
   ("send_notification", 719)]%nat.

(** Executing a class body binds each name in turn; a later [def] of a name
    replaces the earlier one. *)
Definition class_namespace (body : list (string * nat)) : gmap string nat :=
  foldl (λ ns d, <[d.1 := d.2]> ns) ∅ body.

(** [notification_service.send_notification(...)]: the attribute is looked
    up in the class namespace, the arguments are bound to the signature of
    the definition found, and its body runs. *)
Definition NotificationService_send_notification
    (site : CallSite) (a : SendArguments) : M Outbox SendResult :=
  match class_namespace NotificationService_body !! "send_notification" with
  | Some 31%nat =>
      lift_result (bind_arguments send_notification_signature site);;
      n ← send_notification_tracked a;
      mret (Tracked n)
  | Some 719%nat =>
      lift_result (bind_arguments send_notification_legacy_signature site);;
      b ← send_notification_legacy (telegram_id a) (message a);
      mret (Flag b)
  | _ => raise (OtherException "AttributeError")
  end.

(** ** utils/scheduler.py *)

Module ScheduledTask.

(** The dataclass [ScheduledTask]; [retry_count] defaults to [0] and
    [max_retries] to [3]. *)
Record t := mkTask {
  task_id : string;
  execute_at : datetime;
  task_type : string;
  payload : Json;
  retry_count : Z;
  max_retries : Z
}.

(** [task.retry_count += 1] *)
Definition increment_retry_count (task : t) : t :=
  mkTask (task_id task) (execute_at task) (task_type task) (payload task)
    (retry_count task + 1) (max_retries task).

(** [task.execute_at = v] *)
Definition set_execute_at (v : datetime) (task : t) : t :=
  mkTask (task_id task) v (task_type task) (payload task)
    (retry_count task) (max_retries task).

End ScheduledTask.

(** A Python [dict] keyed by strings, as the list of its items in insertion
    order. *)
Module Dict.

Definition get {V} (k : string) (d : list (string * V)) : option V :=
  snd <$> List.find (λ kv, bool_decide (kv.1 = k)) d.

(** [d[k] = v]: an existing key keeps its place, a new one goes last. *)
Fixpoint set {V} (k : string) (v : V) (d : list (string * V)) : list (string * V) :=
  match d with
  | [] => [(k, v)]
  | (k', v') :: d' =>
      if decide (k' = k) then (k, v) :: d' else (k', v') :: set k v d'
  end.

(** [del d[k]] *)
Definition del {V} (k : string) (d : list (string * V)) : list (string * V) :=
  filter (λ kv, kv.1 ≠ k) d.

End Dict.

Section Scheduler.

(** The world the task handlers act on (database, transport); the scheduler
    itself never inspects it. *)
Variable World : Type.

(** [NotificationScheduler.task_handlers]: the handler of a task type takes
    the payload; it returns or raises.  The registered handlers act on the
    world only: none of them reaches [self.tasks]. *)
Variable task_handlers : gmap string (Json → M World unit).

(** [NotificationService(db).process_scheduled_notifications()] on a fresh
    session. *)
Variable process_scheduled_notifications : M World Z.

(** [NotificationScheduler]: [clock] serves the scheduler's own calls of
    [datetime.utcnow()]. *)
Record Scheduler := mkScheduler {
  sch_clock : Clock;
  running : bool;
  tasks : list (string * ScheduledTask.t);
  world : World
}.

(** [datetime.utcnow()] *)
Definition sch_utcnow : M Scheduler datetime := λ s,
  (inr (Clock_now (sch_clock s)),
   mkScheduler (Clock_tick (sch_clock s)) (running s) (tasks s) (world s)).

(** Run a computation on the world inside the scheduler. *)
Definition in_world {A} (m : M World A) : M Scheduler A := λ s,
  let '(r, w) := m (world s) in
  (r, mkScheduler (sch_clock s) (running s) (tasks s) w).

(** [self.tasks[task.task_id] = task] *)
Definition set_task (task : ScheduledTask.t) : M Scheduler unit := λ s,
  (inr tt,
   mkScheduler (sch_clock s) (running s)
     (Dict.set (ScheduledTask.task_id task) task (tasks s)) (world s)).

(** [del self.tasks[task_id]] *)
Definition del_task (task_id : string) : M Scheduler unit := λ s,
  (inr tt,
   mkScheduler (sch_clock s) (running s) (Dict.del task_id (tasks s)) (world s)).

(** [NotificationScheduler._execute_task] *)
Definition _execute_task (task : ScheduledTask.t) : M Scheduler unit :=
  try_except
    (match task_handlers !! ScheduledTask.task_type task with
     | None => mret tt
     | Some handler => in_world (handler (ScheduledTask.payload task))
     end)
    (λ e,
       (* Retry logic *)
       if ScheduledTask.retry_count task <? ScheduledTask.max_retries task then
         let task := ScheduledTask.increment_retry_count task in
         now ← sch_utcnow;
         let task :=
           ScheduledTask.set_execute_at
             (now + minutes (5 * ScheduledTask.retry_count task)) task in
         set_task task
       else mret tt).

(** [NotificationScheduler._process_database_notifications]: whatever the
    service raises is caught and logged. *)
Definition _process_database_notifications : M Scheduler unit :=
  try_except (in_world process_scheduled_notifications;; mret tt)
             (λ e, mret tt).

(** The [for task in due_tasks] loop. *)
Fixpoint execute_tasks (due_tasks : list ScheduledTask.t) : M Scheduler unit :=
  match due_tasks with
  | [] => mret tt
  | task :: rest => _execute_task task;; execute_tasks rest
  end.

(** [NotificationScheduler._process_due_tasks]: the loop over
    [list(self.tasks.items())] moves the due tasks out of [self.tasks]; they
    are executed afterwards, in order. *)
Definition _process_due_tasks : M Scheduler unit :=
  current_time ← sch_utcnow;
  (* Find due tasks *)
  s ← get_state;
  let '(due_tasks, remaining) :=
    foldl (λ acc kv,
             if bool_decide (ScheduledTask.execute_at kv.2 ≤ current_time)
             then (acc.1 ++ [kv.2], Dict.del kv.1 acc.2)
             else acc)
          ([], tasks s) (tasks s) in
  put_state (mkScheduler (sch_clock s) (running s) remaining (world s));;
  (* Execute due tasks *)
  execute_tasks due_tasks;;
  (* Also process scheduled notifications from database *)
  _process_database_notifications.

(** [NotificationScheduler.schedule_task] *)
Definition schedule_task
    (task_id : string) (execute_at : datetime) (task_type : string)
    (payload : Json) (max_retries : Z) : M Scheduler unit :=
  set_task (ScheduledTask.mkTask task_id execute_at task_type payload 0 max_retries).

(** [NotificationScheduler.cancel_task] *)
Definition cancel_task (task_id : string) : M Scheduler unit :=
  del_task task_id.

End Scheduler.

(** ** Auxiliary notions used to state the results *)

(** The rows of the transition table as the specification prints them. *)
Definition table_row (from_status : OrderStatus.t) : list OrderStatus.t :=
  match from_status with
  | OrderStatus.PENDING =>
      [OrderStatus.CONFIRMED; OrderStatus.CANCELLED; OrderStatus.FAILED]
  | OrderStatus.CONFIRMED => [OrderStatus.PREPARING; OrderStatus.CANCELLED]
  | OrderStatus.PREPARING => [OrderStatus.READY; OrderStatus.CANCELLED]
  | OrderStatus.READY => [OrderStatus.COMPLETED; OrderStatus.CANCELLED]
  | OrderStatus.COMPLETED => [OrderStatus.REFUNDED]
  | OrderStatus.CANCELLED => [OrderStatus.REFUNDED]
  | OrderStatus.FAILED => [OrderStatus.PENDING; OrderStatus.CANCELLED]
  | OrderStatus.REFUNDED => []
  end.

(** The clock after [n] more reads. *)
Definition advance (n : nat) (c : Clock) : Clock := mkClock (readings c) (n + reads c).

(** The session with another clock. *)
Definition with_clock (c : Clock) (s : Session) : Session :=
  mkSession c (orders s) (order_status_history s) (next_history_id s)
    (status_change_notices s).

(** The orders table is keyed by primary key. *)
Definition keyed (s : Session) : Prop :=
  ∀ k o, orders s !! k = Some o → Order.id o = k.

(** The order [select_order] finds, if any. *)
Definition found (s : Session) (order_id : Z) : option Order.t :=
  match orders s !! order_id with
  | Some o => if Order.is_deleted o then None else Some o
  | None => None
  end.

(** [r] is a ledger row of order [order_id]. *)
Definition row_of (order_id : Z) (r : OrderStatusHistory.t) : Prop :=
  OrderStatusHistory.order_id r = order_id.

(** [last] is a most recent ledger row of order [order_id]. *)
Definition most_recent (s : Session) (order_id : Z) (last : OrderStatusHistory.t) : Prop :=
  last ∈ order_status_history s ∧ row_of order_id last
  ∧ ∀ r, r ∈ order_status_history s → row_of order_id r →
         OrderStatusHistory.changed_at r ≤ OrderStatusHistory.changed_at last.

(** The terminal statuses. *)
Definition terminal (st : OrderStatus.t) : Prop :=
  st = OrderStatus.COMPLETED ∨ st = OrderStatus.CANCELLED
  ∨ st = OrderStatus.FAILED ∨ st = OrderStatus.REFUNDED.

(** [o'] is [o] up to its automation flags and workflow metadata. *)
Definition same_but_flags (o o' : Order.t) : Prop :=
  o' = Order.set_workflow_metadata (Order.workflow_metadata o')
         (Order.set_automation_flags (Order.automation_flags o') o).

(** [o'] has the primary key, the deletion mark and the status of [o]. *)
Definition same_identity (o o' : Order.t) : Prop :=
  Order.id o' = Order.id o ∧ Order.is_deleted o' = Order.is_deleted o
  ∧ Order.status o' = Order.status o.

(** The row [_get_last_status_history] returns in session [s]. *)
Definition last_row (s : Session) (order_id : Z) : option OrderStatusHistory.t :=
  latest (filter (λ r : OrderStatusHistory.t, OrderStatusHistory.order_id r = order_id)
            (order_status_history s)).

(** How often [transition_status] reads the clock before it updates the
    order: once, when the status changes and the order has a ledger row. *)
Definition duration_reads (order : Order.t) (new_status : OrderStatus.t) (s : Session)
  : nat :=
  if decide (Order.status order ≠ new_status) then
    match last_row s (Order.id order) with Some _ => 1%nat | None => 0%nat end
  else 0%nat.

(** The value [transition_status] stores in [duration_from_previous]. *)
Definition duration_value (order : Order.t) (new_status : OrderStatus.t) (s : Session)
  : option Z :=
  if decide (Order.status order ≠ new_status) then
    match last_row s (Order.id order) with
    | Some last =>
        Some (whole_minutes (Clock_now (clock s) - OrderStatusHistory.changed_at last))
    | None => None
    end
  else None.

(** The ledger row [transition_status] appends, given the instant of the
    insert. *)
Definition appended_row
    (order : Order.t) (new_status : OrderStatus.t) (reason : StatusChangeReason.t)
    (changed_by_user_id : option Z) (notes system_message : option string)
    (workflow_data : option (gmap string MetaValue)) (s : Session)
    (changed_at : datetime) : OrderStatusHistory.t :=
  OrderStatusHistory.mkRow (next_history_id s) changed_at
    (OrderStatusHistory.set_duration_from_previous (duration_value order new_status s)
       (OrderStatusHistory.create_status_change (Order.id order)
          (Some (OrderStatus.value (Order.status order)))
          (OrderStatus.value new_status) reason changed_by_user_id notes
          system_message workflow_data None None None None)).

(** The call of the notification service [transition_status] makes. *)
Definition notice (order : Order.t) (new_status : OrderStatus.t)
  : list (Z * OrderStatus.t * OrderStatus.t) :=
  if decide (Order.status order ≠ new_status)
  then [(Order.id order, Order.status order, new_status)] else [].

(** ** Concrete inputs *)

(** An order just placed: pending, normal priority, nothing computed yet. *)
Definition ex_order : Order.t :=
  {| Order.id := 1;
     Order.is_deleted := false;
     Order.created_at := 0;
     Order.user_id := 7;
     Order.status := OrderStatus.PENDING;
     Order.payment_method := "card";
     Order.priority := OrderPriority.NORMAL;
     Order.estimated_preparation_time := None;
     Order.estimated_delivery_time := None;
     Order.actual_preparation_start := None;
     Order.actual_preparation_end := None;
     Order.delivery_completed_at := None;
     Order.status_pending_at := 0;
     Order.status_confirmed_at := None;
     Order.status_preparing_at := None;
     Order.status_ready_at := None;
     Order.status_completed_at := None;
     Order.status_cancelled_at := None;
     Order.delivery_type := "delivery";
     Order.cancellation_reason := None;
     Order.cancelled_by_user_id := None;
     Order.refund_amount := None;
     Order.preparation_duration := None;
     Order.total_duration := None;
     Order.automation_flags := Some ∅;
     Order.workflow_metadata := Some ∅ |}.

(** A clock whose [n]-th reading is minute [44 + n]. *)
Definition ex_clock : Clock := mkClock (λ n, minutes (44 + Z.of_nat n)) 0.

(** A session holding [ex_order] and an empty ledger. *)
Definition ex_session : Session := mkSession ex_clock {[ 1 := ex_order ]} [] 1 [].

(** An order in preparation whose preparation start (minute 0) and end
    (minute 30) are both recorded and whose duration is not. *)
Definition ex_prepared : Order.t :=
  {| Order.id := 2;
     Order.is_deleted := false;
     Order.created_at := 0;
     Order.user_id := 7;
     Order.status := OrderStatus.PREPARING;
     Order.payment_method := "card";
     Order.priority := OrderPriority.NORMAL;
     Order.estimated_preparation_time := Some 35;
     Order.estimated_delivery_time := Some (minutes 35);
     Order.actual_preparation_start := Some 0;
     Order.actual_preparation_end := Some (minutes 30);
     Order.delivery_completed_at := None;
     Order.status_pending_at := 0;
     Order.status_confirmed_at := Some 0;
     Order.status_preparing_at := Some 0;
     Order.status_ready_at := None;
     Order.status_completed_at := None;
     Order.status_cancelled_at := None;
     Order.delivery_type := "delivery";
     Order.cancellation_reason := None;
     Order.cancelled_by_user_id := None;
     Order.refund_amount := None;
     Order.preparation_duration := None;
     Order.total_duration := None;
     Order.automation_flags := Some ∅;
     Order.workflow_metadata := Some ∅ |}.

Definition ex_kitchen : Session := mkSession ex_clock {[ 2 := ex_prepared ]} [] 1 [].

(** An order in preparation with a preparation estimate of 30 minutes from
    its creation at minute 0 and no estimated delivery time. *)
Definition ex_late : Order.t :=
  {| Order.id := 3;
     Order.is_deleted := false;
     Order.created_at := 0;
     Order.user_id := 7;
     Order.status := OrderStatus.PREPARING;
     Order.payment_method := "card";
     Order.priority := OrderPriority.NORMAL;
     Order.estimated_preparation_time := Some 30;
     Order.estimated_delivery_time := None;
     Order.actual_preparation_start := None;
     Order.actual_preparation_end := None;
     Order.delivery_completed_at := None;
     Order.status_pending_at := 0;
     Order.status_confirmed_at := None;
     Order.status_preparing_at := None;
     Order.status_ready_at := None;
     Order.status_completed_at := None;
     Order.status_cancelled_at := None;
     Order.delivery_type := "delivery";
     Order.cancellation_reason := None;
     Order.cancelled_by_user_id := None;
     Order.refund_amount := None;
     Order.preparation_duration := None;
     Order.total_duration := None;
     Order.automation_flags := Some ∅;
     Order.workflow_metadata := Some ∅ |}.

(** A ledger row of [ex_order] written at minute 14, and a session that
    holds it. *)
Definition ex_row : OrderStatusHistory.t :=
  OrderStatusHistory.mkRow 1 (minutes 14)
    (OrderStatusHistory.create_status_change 1 None "pending"
       StatusChangeReason.AUTOMATIC None None None None None None None None).

Definition ex_tracked : Session := mkSession ex_clock {[ 1 := ex_order ]} [ex_row] 2 [].

(** ** The effect of a batch, for the statement of the bulk result *)

(** [results] after one more failure, and after one more success. *)
Definition add_failure (results : BulkResults) (order_id : Z) (error : BulkError)
  : BulkResults :=
  mkBulkResults (successful results)
    (failed results ++ [mkBulkFailure order_id error])
    (total_processed results + 1) (success_count results)
    (failure_count results + 1).

Definition add_success (results : BulkResults) (entry : BulkSuccess) : BulkResults :=
  mkBulkResults (successful results ++ [entry]) (failed results)
    (total_processed results + 1) (success_count results + 1)
    (failure_count results).



(** A session for a batch: order 1 is pending, order 2 is in preparation,
    and there is no order 9. *)
Definition ex_batch : Session :=
  mkSession ex_clock {[ 1 := ex_order; 2 := ex_prepared ]} [] 1 [].

(** ** Repeated failure of a task, for the statement of the retry bound *)

(** The task as a failed execution puts it back, [now] being the clock
    reading made for it. *)
Definition retried (now : datetime) (task : ScheduledTask.t) : ScheduledTask.t :=
  ScheduledTask.mkTask (ScheduledTask.task_id task)
    (now + minutes (5 * (ScheduledTask.retry_count task + 1)))
    (ScheduledTask.task_type task) (ScheduledTask.payload task)
    (ScheduledTask.retry_count task + 1) (ScheduledTask.max_retries task).


(** A handler that raises on every call, a task for it with the default
    [max_retries = 3], and a scheduler with an empty queue. *)
Definition ex_handlers : gmap string (Json → M unit unit) :=
  {[ "send_notification" := λ _ w, (inl (OtherException "unreachable"), w) ]}.

Definition ex_task : ScheduledTask.t :=
  ScheduledTask.mkTask "notification_7_0" 0 "send_notification" JNull 0 3.


(** ** Calls of send_notification, for the statement of the dispatcher result *)

(** An outbox with no notification and a transport that always delivers. *)
Definition ex_outbox : Outbox := mkOutbox ex_clock ∅ 1 (λ _, None) [].

(** The call [send_notification(telegram_id=7, message=..., 
    notification_type=FEEDBACK_REQUEST, schedule_for=<minute 104>)], as
    [_schedule_feedback_request] makes it: every argument by keyword, the
    schedule time one hour after the first clock reading. *)
Definition ex_scheduled_call : CallSite * SendArguments :=
  (mkCallSite 0 ["telegram_id"; "message"; "notification_type"; "target_type";
                 "order_id"; "user_id"; "title"; "inline_keyboard"; "schedule_for"],
   mkSendArguments 7 "rate the order" NotificationType.FEEDBACK_REQUEST
     NotificationTarget.USER (Some 1) (Some 7) (Some "feedback") None
     (Some (minutes 104)) None).

(** The call [send_notification(telegram_id=7, message=...,
    notification_type=ORDER_CREATED)], with no schedule time. *)
Definition ex_immediate_call : CallSite * SendArguments :=
  (mkCallSite 0 ["telegram_id"; "message"; "notification_type"],
   mkSendArguments 7 "order created" NotificationType.ORDER_CREATED
     NotificationTarget.USER None None None None None None).

(** * Further code *)

(** Functions next to the ones above: the rest of the order model's
    helpers, the automation rules of the workflow engine, the notification
    sweeps and the display of durations.  Of services/order.py only
    [cancel_order] is modelled: the signatures of [update_order_priority]
    (line 448), [assign_courier] (line 493) and [schedule_delivery]
    (line 541) put the parameter [db], which has no default, after
    parameters that have one, and Python rejects such a signature when it
    compiles the module, so these three have no behaviour to model. *)

(** ** models/order.py: get_status_timestamp *)

(** [Order.get_status_timestamp]: [timestamp_map.get(status)], a map with no
    entry for [REFUNDED] and [FAILED]. *)
Definition get_status_timestamp (o : Order.t) (status : OrderStatus.t)
  : option datetime :=
  match status with
  | OrderStatus.PENDING => Some (Order.status_pending_at o)
  | OrderStatus.CONFIRMED => Order.status_confirmed_at o
  | OrderStatus.PREPARING => Order.status_preparing_at o
  | OrderStatus.READY => Order.status_ready_at o
  | OrderStatus.COMPLETED => Order.status_completed_at o
  | OrderStatus.CANCELLED => Order.status_cancelled_at o
  | OrderStatus.REFUNDED | OrderStatus.FAILED => None
  end.

(** ** Paths of validated transitions *)

(** [to_status] can be reached from [from_status] by transitions that
    [_validate_transition] accepts. *)
Inductive reachable : OrderStatus.t → OrderStatus.t → Prop :=
| reachable_here st : reachable st st
| reachable_step st mid final :
    _validate_transition st mid = inr tt → reachable mid final → reachable st final.

(** ** The automation flags of a status *)



(** ** Ledger rows and batch entries *)

(** [entry] reports the ledger row [row]. *)
Definition reports (row : OrderStatusHistory.t) (entry : BulkSuccess) : Prop :=
  OrderStatusHistory.id row = bs_history_id entry
  ∧ OrderStatusHistory.from_status row = bs_old_status entry
  ∧ OrderStatusHistory.to_status row = bs_new_status entry.

(** ** The scheduler's queue *)

(** The queue as [schedule_task] and [_execute_task] build it: a dictionary
    (no key twice) that files every task under its own identifier. *)
Definition queue_ok (queue : list (string * ScheduledTask.t)) : Prop :=
  NoDup queue.*1 ∧ ∀ k task, (k, task) ∈ queue → ScheduledTask.task_id task = k.

(** A queue with a task that is due at the first reading of [ex_clock]
    (minute 44) and fails, and one that waits. *)
Definition ex_waiting : ScheduledTask.t :=
  ScheduledTask.mkTask "feedback_1_6000" (minutes 100) "process_feedback_request" JNull 0 3.

Definition ex_queue : Scheduler unit :=
  mkScheduler unit ex_clock true
    [("notification_7_0", ex_task); ("feedback_1_6000", ex_waiting)] tt.

(** ** services/notification.py: the sweeps *)

Section NotificationSweeps.

(** The order in which the database returns the rows of a [select] that has
    no [ORDER BY]. *)
Variable fetch : list Notification.t → list Notification.t.

(** [select(Notification).where(...)] followed by [scalars().all()]. *)
Definition select_notifications (condition : Notification.t → bool)
  : M Outbox (list Notification.t) := λ s,
  (inr (fetch (filter (λ n, condition n = true) (map_to_list (notifications s)).*2)), s).

(** The loop [for notification in notifications] of both sweeps, with its
    counter. *)
Fixpoint send_each (notifications : list Notification.t) (count : Z) : M Outbox Z :=
  match notifications with
  | [] => mret count
  | notification :: rest =>
      count ←
        try_except
          ('((success, _) : bool * Notification.t) ← _send_telegram_message notification;
           mret (if success then count + 1 else count))
          (λ e, mret count);
      send_each rest count
  end.

(** [NotificationService.process_scheduled_notifications]; a row whose
    [scheduled_at] is NULL does not satisfy the comparison. *)
Definition process_scheduled_notifications : M Outbox Z :=
  try_except
    ((* Get notifications that are scheduled and due *)
     current_time ← ob_utcnow;
     notifications ←
       select_notifications
         (λ n, bool_decide (Notification.status n = NotificationStatus.SCHEDULED)
               && match Notification.scheduled_at n with
                  | Some at_ => bool_decide (at_ ≤ current_time)
                  | None => false
                  end
               && negb (Notification.is_deleted n));
     send_each notifications 0)
    (λ e, mret 0).


End NotificationSweeps.






(** ** models/payment.py *)

Module PaymentStatus.

Inductive t := PENDING | SUCCESS | FAILED | REFUNDED.

#[global] Instance eq_dec : EqDecision t.
Proof. solve_decision. Defined.

End PaymentStatus.

(** ** services/order_workflow.py: automation *)

(** [str.lower] on the letters A to Z; every other byte is kept.  Python
    also lowers letters outside ASCII, but no such letter lowers to one of
    the letters of [cash], the only text the result is compared with. *)
Definition lower_char (c : Ascii.ascii) : Ascii.ascii :=
  let n := Ascii.nat_of_ascii c in
  if (65 <=? n)%nat && (n <=? 90)%nat then Ascii.ascii_of_nat (n + 32) else c.

Fixpoint lower (s : string) : string :=
  match s with
  | EmptyString => EmptyString
  | String c rest => String (lower_char c) (lower rest)
  end.

(** The [results] dictionary of [process_automatic_transitions]; an entry of
    [errors] is kept as the exception it is formatted from, with the order
    it names, if any. *)
Inductive AutoError :=
| OrderError (order_id : Z) (e : Exception)
| ProcessingError (e : Exception).

Record AutoResults := mkAutoResults {
  processed_orders : Z;
  transitions_made : Z;
  errors : list AutoError
}.

Section Automation.

(** The status of the payment row of an order, [None] without a row: what
    [_get_order_payment] reads from the [payments] table. *)
Variable payment_status_of : Z → option PaymentStatus.t.

(** The exception raised while the query of
    [_get_orders_for_auto_processing] is built. *)
Variable query_error : Exception.

(** [OrderWorkflow._get_order_payment], reduced to the status the caller
    reads. *)
Definition _get_order_payment (order_id : Z) : M Session (option PaymentStatus.t) :=
  mret (payment_status_of order_id).

(** [OrderWorkflow._check_auto_confirm_conditions] *)
Definition _check_auto_confirm_conditions (order : Order.t)
  : M Session (option OrderStatus.t) :=
  (* Auto-confirm VIP orders with successful payment *)
  paid ←
    (if decide (Order.priority order = OrderPriority.VIP) then
       payment ← _get_order_payment (Order.id order);
       mret (bool_decide (payment = Some PaymentStatus.SUCCESS))
     else mret false);
  if paid : bool then mret (Some OrderStatus.CONFIRMED)
  (* Auto-confirm cash orders for high priority *)
  else if bool_decide (lower (Order.payment_method order) = "cash")
          && bool_decide (Order.priority order
                          ∈ [OrderPriority.HIGH; OrderPriority.VIP])
  then mret (Some OrderStatus.CONFIRMED)
  else mret None.

(** [OrderWorkflow._check_auto_preparing_conditions]: the clock is read only
    for a VIP order with a confirmation timestamp. *)
Definition _check_auto_preparing_conditions (order : Order.t)
  : M Session (option OrderStatus.t) :=
  (* Auto-transition after 5 minutes for VIP orders *)
  if decide (Order.priority order = OrderPriority.VIP) then
    match Order.status_confirmed_at order with
    | Some confirmed_at =>
        now ← utcnow;
        let time_since_confirm := now - confirmed_at in
        if bool_decide (minutes 5 ≤ time_since_confirm)
        then mret (Some OrderStatus.PREPARING)
        else mret None
    | None => mret None
    end
  else mret None.

(** [OrderWorkflow._check_auto_complete_conditions] *)
Definition _check_auto_complete_conditions (order : Order.t)
  : M Session (option OrderStatus.t) :=
  mret None.

(** [OrderWorkflow.auto_transition_rules] with its [.get(order.status)]. *)
Definition auto_transition_rules (status : OrderStatus.t)
  : option (Order.t → M Session (option OrderStatus.t)) :=
  match status with
  | OrderStatus.PENDING => Some _check_auto_confirm_conditions
  | OrderStatus.CONFIRMED => Some _check_auto_preparing_conditions
  | OrderStatus.READY => Some _check_auto_complete_conditions
  | _ => None
  end.

(** One iteration of the loop of [process_automatic_transitions]. *)
Definition process_automatic_step (results : AutoResults) (order : Order.t)
  : M Session AutoResults :=
  let results :=
    mkAutoResults (processed_orders results + 1) (transitions_made results)
      (errors results) in
  try_except
    ((* Check transition rules for current status *)
     match auto_transition_rules (Order.status order) with
     | Some rule_func =>
         target_status ← rule_func order;
         match target_status with
         | Some target_status =>
             if decide (target_status ≠ Order.status order) then
               '((_, _) : Order.t * OrderStatusHistory.t) ←
                 transition_status order target_status StatusChangeReason.AUTOMATIC
                   None None None None true true;
               mret (mkAutoResults (processed_orders results)
                       (transitions_made results + 1) (errors results))
             else mret results
         | None => mret results
         end
     | None => mret results
     end)
    (λ e,
       mret (mkAutoResults (processed_orders results) (transitions_made results)
               (errors results ++ [OrderError (Order.id order) e]))).

(** The [for order in eligible_orders] loop. *)
Fixpoint process_automatic_loop (eligible_orders : list Order.t) (results : AutoResults)
  : M Session AutoResults :=
  match eligible_orders with
  | [] => mret results
  | order :: rest =>
      results ← process_automatic_step results order;
      process_automatic_loop rest results
  end.

(** [OrderWorkflow._get_orders_for_auto_processing].  The [where] clause
    contains [Order.automation_flags['auto_transition_scheduled'].astext.cast(sqlalchemy.Boolean)]
    (lines 523-526), and the module binds no name [sqlalchemy]: its imports
    (lines 6-8) are [from sqlalchemy... import ...] only.  Evaluating the
    arguments of [select(...).where(...)] therefore raises before
    [self.db.execute] is called ([NameError], unless the attribute [astext]
    is refused first), and no row is ever read. *)
Definition _get_orders_for_auto_processing : M Session (list Order.t) :=
  raise query_error.

(** [OrderWorkflow.process_automatic_transitions] *)
Definition process_automatic_transitions : M Session AutoResults :=
  let results := mkAutoResults 0 0 [] in
  try_except
    ((* Get orders eligible for automatic processing *)
     eligible_orders ← _get_orders_for_auto_processing;
     process_automatic_loop eligible_orders results)
    (λ e,
       mret (mkAutoResults (processed_orders results) (transitions_made results)
               (errors results ++ [ProcessingError e]))).

End Automation.

(** ** models/order_status_history.py: duration_display *)

(** The texts [duration_display] formats, by their template and the numbers
    put into it: ["{m} мин."], ["{h} ч."], ["{h} ч. {m} мин."], ["{d} д."]
    and ["{d} д. {h} ч."]. *)
Inductive DurationText :=
| Minutes (m : Z)
| Hours (h : Z)
| HoursMinutes (h m : Z)
| Days (d : Z)
| DaysHours (d h : Z).

(** [OrderStatusHistory.duration_display]; [//] and [%] are Python's floor
    division and remainder. *)
Definition duration_display (h : OrderStatusHistory.fields) : option DurationText :=
  if negb (truthy_int (OrderStatusHistory.duration_from_previous h)) then None
  else
    let minutes := default 0 (OrderStatusHistory.duration_from_previous h) in
    if minutes <? 60 then Some (Minutes minutes)
    else if minutes <? 1440 then
      let hours := minutes / 60 in
      let remaining_minutes := minutes mod 60 in
      if remaining_minutes =? 0 then Some (Hours hours)
      else Some (HoursMinutes hours remaining_minutes)
    else
      let days := minutes / 1440 in
      let remaining_hours := (minutes mod 1440) / 60 in
      if remaining_hours =? 0 then Some (Days days)
      else Some (DaysHours days remaining_hours).

(** The minutes a duration text stands for. *)
Definition shown_minutes (text : DurationText) : Z :=
  match text with
  | Minutes m => m
  | Hours h => 60 * h
  | HoursMinutes h m => 60 * h + m
  | Days d => 1440 * d
  | DaysHours d h => 1440 * d + 60 * h
  end.



(** * Results *)

(** ** Simplification *)

Ltac order_simpl :=
  cbn [Order.id Order.is_deleted Order.created_at Order.user_id Order.status
       Order.payment_method Order.priority Order.estimated_preparation_time
       Order.estimated_delivery_time Order.actual_preparation_start
       Order.actual_preparation_end Order.delivery_completed_at
       Order.status_pending_at Order.status_confirmed_at Order.status_preparing_at
       Order.status_ready_at Order.status_completed_at Order.status_cancelled_at
       Order.delivery_type Order.cancellation_reason Order.cancelled_by_user_id
       Order.refund_amount Order.preparation_duration Order.total_duration
       Order.automation_flags Order.workflow_metadata
       Order.set_status Order.set_estimated_preparation_time
       Order.set_estimated_delivery_time Order.set_actual_preparation_start
       Order.set_actual_preparation_end Order.set_delivery_completed_at
       Order.set_status_pending_at Order.set_status_confirmed_at
       Order.set_status_preparing_at Order.set_status_ready_at
       Order.set_status_completed_at Order.set_status_cancelled_at
       Order.set_cancellation_reason Order.set_cancelled_by_user_id
       Order.set_refund_amount Order.set_preparation_duration
       Order.set_total_duration Order.set_automation_flags
       Order.set_workflow_metadata Order.set_automation_flag
       Order.set_workflow_metadata_value] in *.

Ltac monad_simpl :=
  unfold mbind, mret, M_bind, M_ret, get_state, put_state, lift_result, raise,
    try_except in *;
  cbn [clock orders order_status_history next_history_id status_change_notices
       readings reads Clock_now Clock_tick advance with_clock fst snd] in *.

(** ** The monad *)

Lemma bind_run {S A B} (m : M S A) (f : A → M S B) s a s1 :
  m s = (inr a, s1) → (m ≫= f) s = f a s1.
Proof. intros H. unfold mbind, M_bind. rewrite H. reflexivity. Qed.

Lemma bind_raise {S A B} (m : M S A) (f : A → M S B) s e s1 :
  m s = (inl e, s1) → (m ≫= f) s = (inl e, s1).
Proof. intros H. unfold mbind, M_bind. rewrite H. reflexivity. Qed.

Lemma try_except_run {S A} (m : M S A) (handler : Exception → M S A) s a s1 :
  m s = (inr a, s1) → try_except m handler s = (inr a, s1).
Proof. intros H. unfold try_except. rewrite H. reflexivity. Qed.

Lemma try_except_raise {S A} (m : M S A) (handler : Exception → M S A) s e s1 :
  m s = (inl e, s1) → try_except m handler s = handler e s1.
Proof. intros H. unfold try_except. rewrite H. reflexivity. Qed.

(** ** The clock and the session primitives *)

Lemma utcnow_run s :
  utcnow s = (inr (Clock_now (clock s)), with_clock (advance 1 (clock s)) s).
Proof. reflexivity. Qed.

Lemma advance_advance n m c : advance n (advance m c) = advance (n + m) c.
Proof. unfold advance. cbn. f_equal. lia. Qed.

Lemma with_clock_with_clock c c' s : with_clock c (with_clock c' s) = with_clock c s.
Proof. reflexivity. Qed.

(** ** The timing calculator *)

Lemma auto_calculate_timing_fields_run order status s :
  ∃ o', _auto_calculate_timing_fields order status s
        = (inr o', with_clock (advance 1 (clock s)) s)
    ∧ same_identity order o'.
Proof.
  unfold _auto_calculate_timing_fields, utcnow, same_identity. monad_simpl.
  destruct status; eexists; (split; [reflexivity|]);
    repeat case_match; order_simpl; auto.
Qed.

Lemma update_status_timestamps_run order status auto s :
  ∃ o', _update_status_timestamps order status auto s
        = (inr o', with_clock (advance (if auto then 2 else 1) (clock s)) s)
    ∧ same_identity order o'.
Proof.
  unfold _update_status_timestamps. monad_simpl. rewrite utcnow_run.
  destruct auto.
  - match goal with |- context [_auto_calculate_timing_fields ?o ?st ?s'] =>
      destruct (auto_calculate_timing_fields_run o st s') as (o' & -> & Hid)
    end.
    exists o'. split; [reflexivity|].
    unfold same_identity in *. destruct status; order_simpl; auto.
  - eexists. split; [reflexivity|].
    unfold same_identity. destruct status; order_simpl; auto.
Qed.

Lemma same_but_flags_identity o o' : same_but_flags o o' → same_identity o o'.
Proof. unfold same_but_flags, same_identity. intros ->. order_simpl. auto. Qed.

Lemma same_identity_trans o1 o2 o3 :
  same_identity o1 o2 → same_identity o2 o3 → same_identity o1 o3.
Proof. unfold same_identity. intuition congruence. Qed.

(** ** The post-transition hooks *)

Lemma execute_post_transition_hooks_run order old_status new_status history s :
  ∃ o', _execute_post_transition_hooks order old_status new_status history s
        = (inr o',
           mkSession (advance 2 (clock s)) (<[Order.id order := o']> (orders s))
             (order_status_history s) (next_history_id s)
             (status_change_notices s))
    ∧ same_but_flags order o'.
Proof.
  unfold _execute_post_transition_hooks, _schedule_automatic_transitions,
    _update_workflow_metadata, session_put, utcnow, same_but_flags.
  monad_simpl.
  destruct new_status;
    unfold _on_order_confirmed, _on_order_preparing, _on_order_ready,
      _on_order_completed, _on_order_cancelled;
    try case_decide; eexists; (split; [reflexivity|]); order_simpl; reflexivity.
Qed.

(** ** The ledger *)

Lemma db_add_history_run h s :
  db_add_history h s
  = (inr (OrderStatusHistory.mkRow (next_history_id s) (Clock_now (clock s)) h),
     mkSession (advance 1 (clock s)) (orders s)
       (order_status_history s
          ++ [OrderStatusHistory.mkRow (next_history_id s) (Clock_now (clock s)) h])
       (next_history_id s + 1) (status_change_notices s)).
Proof. reflexivity. Qed.

(** ** C1: the transition table *)

Lemma valid_transitions_table (from_status to_status : OrderStatus.t) :
  to_status ∈ valid_transitions from_status ↔ In to_status (table_row from_status).
Proof.
  rewrite <- list_elem_of_In.
  assert (bool_decide (to_status ∈ valid_transitions from_status)
          = bool_decide (to_status ∈ table_row from_status)) as Heq
    by (destruct from_status, to_status; vm_compute; reflexivity).
  split; intros H.
  - apply (bool_decide_unpack _). rewrite <- Heq. by apply bool_decide_pack.
  - apply (bool_decide_unpack _). rewrite Heq. by apply bool_decide_pack.
Qed.

(** C1. [_validate_transition from to] returns normally exactly when
    [from = to] or [to] is in the table row of [from]; in every other case it
    raises [StatusTransitionError] carrying [from], [to] and the set of
    allowed targets of [from], whose members are exactly the row's. *)
Theorem validate_transition_table (from_status to_status : OrderStatus.t) :
  (_validate_transition from_status to_status = inr tt
   ↔ from_status = to_status ∨ In to_status (table_row from_status))
  ∧ (¬ (from_status = to_status ∨ In to_status (table_row from_status))
     → _validate_transition from_status to_status
       = inl (StatusTransitionError from_status to_status
                (valid_transitions from_status)))
  ∧ (∀ s, s ∈ valid_transitions from_status ↔ In s (table_row from_status)).
Proof.
  split; [| split].
  - unfold _validate_transition.
    destruct (decide (from_status = to_status)) as [->|Hne]; [tauto|].
    destruct (decide (to_status ∈ valid_transitions from_status)) as [Hin|Hnin].
    + apply valid_transitions_table in Hin. tauto.
    + split; [discriminate|].
      intros [?|Hin]; [done|]. apply valid_transitions_table in Hin. done.
  - intros Hno. unfold _validate_transition.
    destruct (decide (from_status = to_status)) as [->|Hne]; [tauto|].
    destruct (decide (to_status ∈ valid_transitions from_status)) as [Hin|Hnin];
      [|done].
    apply valid_transitions_table in Hin. tauto.
  - intros s. apply valid_transitions_table.
Qed.

(** ** The workflow engine *)

(** With validation enabled, an invalid transition raises before anything is
    read or written. *)
Lemma transition_status_invalid order new_status reason by_ notes sm wd auto e s :
  _validate_transition (Order.status order) new_status = inl e →
  transition_status order new_status reason by_ notes sm wd true auto s = (inl e, s).
Proof.
  intros He. unfold transition_status. monad_simpl. rewrite He. reflexivity.
Qed.

(** A transition that passes validation (or skips it) returns; the lemma
    gives the order as updated by the timing calculator ([o1]), the order
    returned ([o']), the ledger row and the session reached. *)
Lemma transition_status_run order new_status reason by_ notes sm wd (validate auto : bool) s :
  (validate = true → _validate_transition (Order.status order) new_status = inr tt) →
  let k := duration_reads order new_status s in
  let u := if auto then 2%nat else 1%nat in
  let h := appended_row order new_status reason by_ notes sm wd s
             (readings (clock s) (k + u + reads (clock s))) in
  ∃ o1 o',
    transition_status order new_status reason by_ notes sm wd validate auto s
    = (inr (o', h),
       mkSession (advance (k + u + 3) (clock s))
         (<[Order.id order := o']> (orders s))
         (order_status_history s ++ [h]) (next_history_id s + 1)
         (status_change_notices s ++ notice order new_status))
    ∧ _update_status_timestamps (Order.set_status new_status order) new_status auto
        (with_clock (advance k (clock s)) s)
      = (inr o1, with_clock (advance (k + u) (clock s)) s)
    ∧ same_but_flags o1 o'.
Proof.
  intros Hv k u h.
  destruct (update_status_timestamps_run (Order.set_status new_status order)
              new_status auto (with_clock (advance k (clock s)) s))
    as (o1 & Hrun & Hid1).
  fold u in Hrun. cbn [with_clock clock] in Hrun. rewrite advance_advance in Hrun.
  replace (u + k)%nat with (k + u)%nat in Hrun by lia.
  destruct Hid1 as (Hid1 & Hdel1 & Hst1). order_simpl.
  destruct (execute_post_transition_hooks_run o1 (Order.status order) new_status h
              (mkSession (advance (k + u + 1) (clock s))
                 (<[Order.id order := o1]> (orders s))
                 (order_status_history s ++ [h]) (next_history_id s + 1)
                 (status_change_notices s ++ notice order new_status)))
    as (o' & Hhooks & Hflags).
  exists o1, o'. split; [|split; [exact Hrun|exact Hflags]].
  unfold transition_status.
  rewrite (bind_run _ _ s tt s); cycle 1.
  { destruct validate; [unfold lift_result; rewrite Hv|]; reflexivity. }
  rewrite (bind_run _ _ s (duration_value order new_status s)
             (with_clock (advance k (clock s)) s)); cycle 1.
  { subst k. unfold duration_value, duration_reads. case_decide; [|by destruct s as [[]]].
    erewrite bind_run by reflexivity. fold (last_row s (Order.id order)).
    destruct (last_row s (Order.id order)); [|by destruct s as [[]]].
    erewrite bind_run by apply utcnow_run. reflexivity. }
  rewrite (bind_run _ _ _ _ _ Hrun). rewrite Hid1.
  erewrite bind_run by apply db_add_history_run.
  erewrite bind_run by reflexivity.
  erewrite bind_run; cycle 1.
  { unfold _send_status_change_notifications. rewrite Hst1.
    instantiate (1 := mkSession (advance (k + u + 1) (clock s))
                        (<[Order.id order := o1]> (orders s))
                        (order_status_history s ++ [h]) (next_history_id s + 1)
                        (status_change_notices s ++ notice order new_status)).
    instantiate (1 := tt).
    unfold notice, db_commit, session_put. rewrite Hid1.
    cbn [with_clock clock orders order_status_history next_history_id
         status_change_notices].
    rewrite advance_advance.
    replace (1 + (k + u))%nat with (k + u + 1)%nat by lia.
    case_decide; [reflexivity|]. rewrite app_nil_r. reflexivity. }
  erewrite bind_run by exact Hhooks.
  unfold mret, M_ret. f_equal.
  cbn [clock orders order_status_history next_history_id status_change_notices].
  rewrite advance_advance, Hid1, insert_insert_eq.
  replace (2 + (k + u + 1))%nat with (k + u + 3)%nat by lia. reflexivity.
Qed.

Lemma transition_status_inv order new_status reason by_ notes sm wd
    (validate auto : bool) s o' h s' :
  transition_status order new_status reason by_ notes sm wd validate auto s
  = (inr (o', h), s') →
  let k := duration_reads order new_status s in
  let u := if auto then 2%nat else 1%nat in
  (validate = true → _validate_transition (Order.status order) new_status = inr tt)
  ∧ h = appended_row order new_status reason by_ notes sm wd s
          (readings (clock s) (k + u + reads (clock s)))
  ∧ s' = mkSession (advance (k + u + 3) (clock s))
           (<[Order.id order := o']> (orders s))
           (order_status_history s ++ [h]) (next_history_id s + 1)
           (status_change_notices s ++ notice order new_status)
  ∧ ∃ o1,
      _update_status_timestamps (Order.set_status new_status order) new_status auto
        (with_clock (advance k (clock s)) s)
      = (inr o1, with_clock (advance (k + u) (clock s)) s)
      ∧ same_but_flags o1 o'.
Proof.
  intros H k u.
  assert (Hv : validate = true
               → _validate_transition (Order.status order) new_status = inr tt).
  { intros ->. destruct (_validate_transition (Order.status order) new_status)
      as [e|[]] eqn:He; [|reflexivity].
    rewrite (transition_status_invalid _ _ _ _ _ _ _ _ _ _ He) in H. discriminate. }
  split; [exact Hv|].
  destruct (transition_status_run order new_status reason by_ notes sm wd
              validate auto s Hv) as (o1 & o'' & Hrun & Hts & Hflags).
  rewrite Hrun in H. injection H as <- <- <-.
  split; [reflexivity|]. split; [reflexivity|]. eauto.
Qed.

(** The order returned has the key and deletion mark it had, and the new
    status. *)
Lemma transition_status_identity order new_status reason by_ notes sm wd
    (validate auto : bool) s o' h s' :
  transition_status order new_status reason by_ notes sm wd validate auto s
  = (inr (o', h), s') →
  Order.id o' = Order.id order ∧ Order.is_deleted o' = Order.is_deleted order
  ∧ Order.status o' = new_status.
Proof.
  intros H. apply transition_status_inv in H as (_ & _ & _ & o1 & Hts & Hflags).
  destruct (update_status_timestamps_run (Order.set_status new_status order)
              new_status auto
              (with_clock (advance (duration_reads order new_status s) (clock s)) s))
    as (o1' & Hrun & Hid).
  rewrite Hrun in Hts. injection Hts as ->.
  apply same_but_flags_identity in Hflags.
  destruct (same_identity_trans _ _ _ Hid Hflags) as (? & ? & ?).
  order_simpl. auto.
Qed.

(** ** C2: invalid transitions *)




(** ** C4: entering Confirmed *)

Lemma default_preparation_times_nonzero p : (default_preparation_times p =? 0) = false.
Proof. by destruct p. Qed.

(** What the timestamp update does to the preparation estimates of an order
    entering [CONFIRMED]; [now] is the reading made by
    [_auto_calculate_timing_fields], the second of the two. *)
Lemma update_confirmed_estimates order s o1 s1 :
  _update_status_timestamps order OrderStatus.CONFIRMED true s = (inr o1, s1) →
  let now := readings (clock s) (1 + reads (clock s)) in
  (Order.estimated_preparation_time order = None
   → Order.estimated_preparation_time o1
     = Some (default_preparation_times (Order.priority order)))
  ∧ ∃ n, Order.estimated_preparation_time o1 = Some n
         ∧ Order.estimated_delivery_time o1 = Some (now + minutes n).
Proof.
  unfold _update_status_timestamps, _auto_calculate_timing_fields, utcnow.
  monad_simpl. intros H. injection H as <- <-. order_simpl.
  destruct (Order.estimated_preparation_time order) as [n|] eqn:Hn; cbn [truthy_int negb].
  - destruct (n =? 0) eqn:Hz; cbn [negb]; order_simpl.
    + rewrite default_preparation_times_nonzero. order_simpl.
      split; [discriminate|]. eauto.
    + rewrite Hn, Hz. order_simpl. split; [discriminate|]. eauto.
  - order_simpl. rewrite default_preparation_times_nonzero. order_simpl.
    split; [reflexivity|]. eauto.
Qed.

(** C4.  When [transition_status] brings an order into [CONFIRMED] with
    [auto_calculate_times] on, an unset [estimated_preparation_time] becomes
    the default of the order's priority (VIP 15, High 25, Normal 35, Low 45
    minutes), and [estimated_delivery_time] becomes [now] plus
    [estimated_preparation_time] minutes, [now] being the clock reading made
    by the timing calculator during the call. *)
Theorem confirmed_sets_preparation_estimates
    order reason by_ notes sm wd (validate : bool) s o' h s' :
  transition_status order OrderStatus.CONFIRMED reason by_ notes sm wd validate true s
  = (inr (o', h), s') →
  let now :=
    readings (clock s)
      (1 + duration_reads order OrderStatus.CONFIRMED s + reads (clock s)) in
  (Order.estimated_preparation_time order = None
   → Order.estimated_preparation_time o'
     = Some (default_preparation_times (Order.priority order)))
  ∧ (default_preparation_times OrderPriority.VIP = 15
     ∧ default_preparation_times OrderPriority.HIGH = 25
     ∧ default_preparation_times OrderPriority.NORMAL = 35
     ∧ default_preparation_times OrderPriority.LOW = 45)
  ∧ ∃ n, Order.estimated_preparation_time o' = Some n
         ∧ Order.estimated_delivery_time o' = Some (now + minutes n).
Proof.
  intros H now.
  apply transition_status_inv in H as (_ & _ & _ & o1 & Hts & Hflags).
  apply update_confirmed_estimates in Hts as (Hdef & n & Hn & Hd).
  cbn [with_clock clock advance readings reads] in Hd.
  rewrite Hflags. order_simpl. split; [exact Hdef|]. split; [done|].
  exists n. split; [exact Hn|]. exact Hd.
Qed.

Lemma confirmed_sets_preparation_estimates_witness :
  ∃ o' h s',
    transition_status ex_order OrderStatus.CONFIRMED StatusChangeReason.MANUAL_ADMIN
      None None None None true true ex_session = (inr (o', h), s')
    ∧ Order.estimated_preparation_time o' = Some 35
    ∧ Order.estimated_delivery_time o' = Some (minutes 45 + minutes 35).
Proof.
  destruct (transition_status_run ex_order OrderStatus.CONFIRMED
              StatusChangeReason.MANUAL_ADMIN None None None None true true
              ex_session) as (o1 & o' & Hrun & _ & _); [reflexivity|].
  eexists _, _, _. split; [exact Hrun|].
  destruct (confirmed_sets_preparation_estimates _ _ _ _ _ _ _ _ _ _ _ Hrun)
    as (Hdef & _ & n & Hn & Hd).
  specialize (Hdef eq_refl). rewrite Hdef in Hn. injection Hn as <-.
  split; [exact Hdef|exact Hd].
Defined.

(** ** C5: entering Ready *)

(** What the timestamp update does to the preparation fields of an order
    entering [READY]: the duration is measured from the start to [now], the
    reading made by [_auto_calculate_timing_fields], whether or not an end
    was already recorded. *)
Lemma update_ready_preparation order s o1 s1 :
  _update_status_timestamps order OrderStatus.READY true s = (inr o1, s1) →
  let now := readings (clock s) (1 + reads (clock s)) in
  Order.actual_preparation_end o1
  = Some (default now (Order.actual_preparation_end order))
  ∧ (∀ start,
       Order.actual_preparation_start order = Some start →
       truthy_int (Order.preparation_duration order) = false →
       Order.preparation_duration o1 = Some (whole_minutes (now - start))).
Proof.
  unfold _update_status_timestamps, _auto_calculate_timing_fields, utcnow.
  monad_simpl. intros H. injection H as <- <-. order_simpl.
  split.
  - destruct (Order.actual_preparation_end order) eqn:He;
      cbn [truthy_datetime negb default]; order_simpl; repeat case_match;
      order_simpl; rewrite ?He; reflexivity.
  - intros start Hs Hd.
    destruct (Order.actual_preparation_end order) eqn:He;
      cbn [truthy_datetime negb]; order_simpl; rewrite Hs, Hd; reflexivity.
Qed.

(** C5 at the input of the specification's own example: preparation start
    at minute 0 and end at minute 30 are recorded, the order enters [READY]
    at minute 45.  The engine stores 45, the minutes from the start to the
    clock reading; the claim (and [calculate_preparation_duration], which
    subtracts the recorded end) gives 30. *)
Theorem ready_duration_ignores_recorded_end :
  ∃ o' h s',
    transition_status ex_prepared OrderStatus.READY StatusChangeReason.MANUAL_ADMIN
      None None None None true true ex_kitchen = (inr (o', h), s')
    ∧ Order.actual_preparation_start o' = Some 0
    ∧ Order.actual_preparation_end o' = Some (minutes 30)
    ∧ Order.preparation_duration o' = Some 45
    ∧ Order.calculate_preparation_duration o' = Some 30.
Proof.
  destruct (transition_status_run ex_prepared OrderStatus.READY
              StatusChangeReason.MANUAL_ADMIN None None None None true true
              ex_kitchen) as (o1 & o' & Hrun & Hts & Hflags); [reflexivity|].
  eexists _, _, _. split; [exact Hrun|].
  injection Hts as <-. rewrite Hflags.
  unfold Order.calculate_preparation_duration. order_simpl.
  repeat split; reflexivity.
Qed.

(** ** C6: duration from the previous ledger row *)

Lemma foldl_latest (l : list OrderStatusHistory.t) (b : OrderStatusHistory.t) :
  ∃ x,
    foldl (λ best r,
             match best with
             | None => Some r
             | Some b =>
                 if OrderStatusHistory.changed_at b <? OrderStatusHistory.changed_at r
                 then Some r else Some b
             end) (Some b) l = Some x
    ∧ (x = b ∨ x ∈ l)
    ∧ OrderStatusHistory.changed_at b ≤ OrderStatusHistory.changed_at x
    ∧ ∀ r, r ∈ l → OrderStatusHistory.changed_at r ≤ OrderStatusHistory.changed_at x.
Proof.
  revert b. induction l as [|a l IH]; intros b; cbn [foldl].
  - exists b. split; [reflexivity|]. split; [by left|]. split; [lia|].
    intros r Hr. by apply elem_of_nil in Hr.
  - destruct (OrderStatusHistory.changed_at b <? OrderStatusHistory.changed_at a)
      eqn:Hlt.
    + apply Z.ltb_lt in Hlt. destruct (IH a) as (x & Hx & Hin & Hle & Hall).
      exists x. split; [exact Hx|]. split.
      { right. destruct Hin as [->|Hin]; [by left|by right]. }
      split; [lia|]. intros r Hr. apply elem_of_cons in Hr as [->|Hr]; auto.
    + apply Z.ltb_ge in Hlt. destruct (IH b) as (x & Hx & Hin & Hle & Hall).
      exists x. split; [exact Hx|]. split.
      { destruct Hin as [->|Hin]; [by left|right; by right]. }
      split; [lia|]. intros r Hr. apply elem_of_cons in Hr as [->|Hr]; [lia|auto].
Qed.

(** [latest] returns a row of greatest [changed_at], and nothing only on an
    empty list. *)
Lemma latest_spec (l : list OrderStatusHistory.t) :
  match latest l with
  | None => l = []
  | Some x =>
      x ∈ l ∧ ∀ r, r ∈ l → OrderStatusHistory.changed_at r ≤ OrderStatusHistory.changed_at x
  end.
Proof.
  destruct l as [|a l]; [reflexivity|].
  unfold latest. cbn [foldl].
  destruct (foldl_latest l a) as (x & -> & Hin & Hle & Hall).
  split.
  - destruct Hin as [->|Hin]; [by left|by right].
  - intros r Hr. apply elem_of_cons in Hr as [->|Hr]; auto.
Qed.

(** [last_row] is a most recent row of the order, when the order has rows. *)
Lemma last_row_spec s order_id :
  match last_row s order_id with
  | None => ∀ r, r ∈ order_status_history s → ¬ row_of order_id r
  | Some x => most_recent s order_id x
  end.
Proof.
  unfold last_row.
  pose proof (latest_spec
                (filter (λ r : OrderStatusHistory.t,
                           OrderStatusHistory.order_id r = order_id)
                   (order_status_history s))) as H.
  destruct (latest _) as [x|].
  - destruct H as (Hin & Hall). apply list_elem_of_filter in Hin as (Hx & Hin).
    split; [exact Hin|]. split; [exact Hx|].
    intros r Hr Hrow. apply Hall. apply list_elem_of_filter. by split.
  - intros r Hr Hrow.
    assert (r ∈ filter (λ r : OrderStatusHistory.t,
                          OrderStatusHistory.order_id r = order_id)
                  (order_status_history s)) as Hf
      by (apply list_elem_of_filter; by split).
    rewrite H in Hf. by apply elem_of_nil in Hf.
Qed.

(** C6, amended.  The ledger row written by a transition that changes the
    status has [duration_from_previous] equal to the whole minutes (truncated
    toward zero) from the [changed_at] of the order's most recent ledger row
    to [now], the clock reading made for it; the field is left unset, not
    [0], when the order has no ledger row, and also when the transition
    keeps the status. *)
Theorem duration_from_previous_value
    order new_status reason by_ notes sm wd (validate auto : bool) s o' h s' :
  transition_status order new_status reason by_ notes sm wd validate auto s
  = (inr (o', h), s') →
  let now := Clock_now (clock s) in
  (Order.status order ≠ new_status →
   ∀ last, most_recent s (Order.id order) last →
     OrderStatusHistory.duration_from_previous h
     = Some (whole_minutes (now - OrderStatusHistory.changed_at last)))
  ∧ (Order.status order ≠ new_status →
     (∀ r, r ∈ order_status_history s → ¬ row_of (Order.id order) r) →
     OrderStatusHistory.duration_from_previous h = None)
  ∧ (Order.status order = new_status →
     OrderStatusHistory.duration_from_previous h = None).
Proof.
  intros H now. apply transition_status_inv in H as (_ & -> & _ & _).
  unfold appended_row, duration_value.
  cbn [OrderStatusHistory.row_fields OrderStatusHistory.duration_from_previous
       OrderStatusHistory.set_duration_from_previous].
  pose proof (last_row_spec s (Order.id order)) as Hlast.
  split; [|split].
  - intros Hne last (Hin & Hrow & Hmax). case_decide; [|done].
    destruct (last_row s (Order.id order)) as [x|].
    + destruct Hlast as (Hxin & Hxrow & Hxmax).
      assert (OrderStatusHistory.changed_at x = OrderStatusHistory.changed_at last)
        as -> by (apply Z.le_antisymm; auto).
      reflexivity.
    + exfalso. exact (Hlast last Hin Hrow).
  - intros Hne Hnone. case_decide; [|done].
    destruct (last_row s (Order.id order)) as [x|]; [|reflexivity].
    destruct Hlast as (Hxin & Hxrow & _). exfalso. exact (Hnone x Hxin Hxrow).
  - intros Heq. case_decide; [done|reflexivity].
Qed.

Lemma duration_from_previous_value_witness :
  ∃ o' h s',
    transition_status ex_order OrderStatus.CONFIRMED StatusChangeReason.MANUAL_ADMIN
      None None None None true true ex_tracked = (inr (o', h), s')
    ∧ OrderStatusHistory.duration_from_previous h = Some 30.
Proof.
  destruct (transition_status_run ex_order OrderStatus.CONFIRMED
              StatusChangeReason.MANUAL_ADMIN None None None None true true
              ex_tracked) as (o1 & o' & Hrun & _ & _); [reflexivity|].
  eexists _, _, _. split; [exact Hrun|].
  destruct (duration_from_previous_value _ _ _ _ _ _ _ _ _ _ _ _ _ Hrun)
    as (Hlast & _ & _).
  rewrite (Hlast ltac:(discriminate) ex_row); [reflexivity|].
  split; [by apply list_elem_of_singleton|]. split; [reflexivity|].
  intros r Hr _. apply list_elem_of_singleton in Hr as ->. reflexivity.
Defined.

(** C6 as stated fails for the first transition of an order: the ledger has
    no row for it and [duration_from_previous] is left unset, not [0]. *)
Lemma first_transition_duration_counterexample :
  order_status_history ex_session = []
  ∧ ∃ o' h s',
      transition_status ex_order OrderStatus.CONFIRMED StatusChangeReason.MANUAL_ADMIN
        None None None None true true ex_session = (inr (o', h), s')
      ∧ OrderStatusHistory.duration_from_previous h = None
      ∧ OrderStatusHistory.duration_from_previous h ≠ Some 0.
Proof.
  split; [reflexivity|].
  destruct (transition_status_run ex_order OrderStatus.CONFIRMED
              StatusChangeReason.MANUAL_ADMIN None None None None true true
              ex_session) as (o1 & o' & Hrun & _ & _); [reflexivity|].
  eexists _, _, _. split; [exact Hrun|]. split; [reflexivity|discriminate].
Qed.

(** ** C7: overdue orders *)

Lemma is_completed_state_terminal o :
  Order.is_completed_state o = true ↔ terminal (Order.status o).
Proof.
  unfold Order.is_completed_state, terminal.
  destruct (Order.status o); cbn; intuition (discriminate || reflexivity).
Qed.

(** C7, amended.  [is_overdue] returns, and returns true exactly when
    [estimated_preparation_time] is set and not zero, the clock reading is
    after [status_confirmed_at] (or [created_at] when the order was never
    confirmed) plus that many minutes, and the order is in none of the
    terminal states.  [estimated_delivery_time] is not consulted. *)
Theorem is_overdue_by_preparation_estimate (o : Order.t) (c : Clock) :
  ∃ b c',
    Order.is_overdue o c = (inr b, c')
    ∧ (b = true
       ↔ ∃ n, Order.estimated_preparation_time o = Some n ∧ n ≠ 0
              ∧ default (Order.created_at o) (Order.status_confirmed_at o) + minutes n
                < Clock_now c
              ∧ ¬ terminal (Order.status o)).
Proof.
  unfold Order.is_overdue, Order.get_estimated_completion_time.
  destruct (Order.estimated_preparation_time o) as [n|] eqn:Hn.
  - destruct (n =? 0) eqn:Hz.
    + apply Z.eqb_eq in Hz. exists false, c. split; [reflexivity|].
      split; [discriminate|]. intros (m & Hm & Hnz & _). congruence.
    + apply Z.eqb_neq in Hz. eexists _, _. split; [reflexivity|].
      rewrite andb_true_iff, bool_decide_eq_true, negb_true_iff.
      rewrite <- not_true_iff_false, is_completed_state_terminal.
      split.
      * intros (Hlt & Hterm). exists n. auto.
      * intros (m & Hm & _ & Hlt & Hterm). injection Hm as <-. auto.
  - exists false, c. split; [reflexivity|].
    split; [discriminate|]. intros (m & Hm & _). discriminate.
Qed.

(** C7 as stated fails for an order without [estimated_delivery_time]:
    [ex_late] has none, yet it is overdue at minute 44, 14 minutes after its
    preparation estimate ran out. *)
Lemma is_overdue_counterexample :
  Order.estimated_delivery_time ex_late = None
  ∧ ∃ c', Order.is_overdue ex_late ex_clock = (inr true, c').
Proof. split; [reflexivity|]. eexists. reflexivity. Qed.

(** ** C3: bulk transitions *)

Lemma select_order_run k s : select_order k s = (inr (found s k), s).
Proof. reflexivity. Qed.

Lemma found_Some s k o :
  found s k = Some o → orders s !! k = Some o ∧ Order.is_deleted o = false.
Proof.
  unfold found. destruct (orders s !! k) as [o0|]; [|discriminate].
  destruct (Order.is_deleted o0) eqn:Hd; [discriminate|]. intros [= <-]. auto.
Qed.










(** The batch of the specification's example: a valid order, an order whose
    transition is refused and a missing one give one success and two
    failures; the first order is stored as confirmed, the second is left in
    preparation. *)
Lemma bulk_transition_orders_example :
  ∃ r s',
    bulk_transition_orders [1; 2; 9] OrderStatus.CONFIRMED
      StatusChangeReason.MANUAL_ADMIN None None ex_batch = (inr r, s')
    ∧ success_count r = 1 ∧ failure_count r = 2
    ∧ bs_order_id <$> successful r = [1]
    ∧ bf_order_id <$> failed r = [2; 9]
    ∧ Order.status <$> orders s' !! 1 = Some OrderStatus.CONFIRMED
    ∧ orders s' !! 2 = Some ex_prepared
    ∧ length (order_status_history s') = 1%nat.
Proof.
  eexists _, _. split; [vm_compute; reflexivity|].
  repeat split; vm_compute; reflexivity.
Qed.

(** ** C10: cancel_order *)



(** ** C8: retries of a failed task *)

Lemma Dict_get_set_eq {V} (k : string) (v : V) d : Dict.get k (Dict.set k v d) = Some v.
Proof.
  unfold Dict.get. induction d as [|[k' v'] d IH]; cbn [Dict.set List.find fst].
  - rewrite bool_decide_eq_true_2 by reflexivity. reflexivity.
  - destruct (decide (k' = k)) as [->|Hne]; cbn [List.find fst].
    + rewrite bool_decide_eq_true_2 by reflexivity. reflexivity.
    + rewrite bool_decide_eq_false_2 by exact Hne. exact IH.
Qed.

Lemma Dict_get_del_eq {V} (k : string) (d : list (string * V)) :
  Dict.get k (Dict.del k d) = None.
Proof.
  unfold Dict.get, Dict.del. induction d as [|[k' v'] d IH]; [reflexivity|].
  rewrite filter_cons. cbn [fst]. destruct (decide (k' ≠ k)) as [Hne|Heq].
  - cbn [List.find fst]. rewrite bool_decide_eq_false_2 by exact Hne. exact IH.
  - exact IH.
Qed.

Section SchedulerResults.

Variable World : Type.
Variable task_handlers : gmap string (Json → M World unit).

Lemma execute_task_failed task (handler : Json → M World unit) e w' (s : Scheduler World) :
  task_handlers !! ScheduledTask.task_type task = Some handler →
  handler (ScheduledTask.payload task) (world World s) = (inl e, w') →
  _execute_task World task_handlers task s
  = (inr tt,
     if ScheduledTask.retry_count task <? ScheduledTask.max_retries task
     then mkScheduler World (advance 1 (sch_clock World s)) (running World s)
            (Dict.set (ScheduledTask.task_id task)
               (retried (Clock_now (sch_clock World s)) task) (tasks World s)) w'
     else mkScheduler World (sch_clock World s) (running World s) (tasks World s) w').
Proof.
  intros Hh He. unfold _execute_task. rewrite Hh.
  erewrite try_except_raise; cycle 1.
  { unfold in_world. rewrite He. reflexivity. }
  destruct (ScheduledTask.retry_count task <? ScheduledTask.max_retries task);
    reflexivity.
Qed.


(** A tick over a queue that holds one due task: the task is out of the
    queue while it is executed. *)
Lemma process_due_tasks_single
    (process_scheduled_notifications : M World Z) task (s : Scheduler World) :
  tasks World s = [(ScheduledTask.task_id task, task)] →
  ScheduledTask.execute_at task ≤ Clock_now (sch_clock World s) →
  _process_due_tasks World task_handlers process_scheduled_notifications s
  = (_execute_task World task_handlers task;;
     _process_database_notifications World process_scheduled_notifications)
      (mkScheduler World (advance 1 (sch_clock World s)) (running World s) []
         (world World s)).
Proof.
  intros Hq Hdue. unfold _process_due_tasks.
  erewrite bind_run by reflexivity. erewrite bind_run by reflexivity.
  cbn [tasks sch_clock running world]. rewrite Hq. cbn [foldl fst snd].
  rewrite bool_decide_eq_true_2 by exact Hdue. cbn [fst snd app].
  unfold Dict.del. rewrite filter_cons. cbn [fst].
  destruct (decide (ScheduledTask.task_id task ≠ ScheduledTask.task_id task));
    [done|].
  rewrite filter_nil.
  erewrite bind_run by reflexivity. cbn [execute_tasks].
  unfold mbind, M_bind.
  destruct (_execute_task World task_handlers task _) as [[e|[]] s1]; reflexivity.
Qed.


End SchedulerResults.


(** ** C9: the notification dispatcher *)

(** The class body binds [send_notification] twice; the binding left in the
    class is the one of line 719, the legacy static method. *)
Lemma send_notification_resolves_to_legacy :
  class_namespace NotificationService_body !! "send_notification" = Some 719%nat.
Proof. vm_compute. reflexivity. Qed.

(** The definition of line 31, taken by itself, with a schedule time: the
    notification is stored as [SCHEDULED] and the transport is not called. *)
Lemma tracked_send_scheduled (a : SendArguments) (t : datetime) (s : Outbox) :
  schedule_for a = Some t →
  ∃ n,
    send_notification_tracked a s
    = (inr (Some n),
       mkOutbox (ob_clock s) (<[next_notification_id s := n]> (notifications s))
         (next_notification_id s + 1) (bot_replies s) (bot_sent s))
    ∧ Notification.id n = next_notification_id s
    ∧ Notification.status n = NotificationStatus.SCHEDULED
    ∧ Notification.scheduled_at n = Some t
    ∧ Notification.sent_at n = None.
Proof.
  intros Ht. unfold send_notification_tracked. rewrite Ht.
  eexists. split; [reflexivity|]. repeat split; reflexivity.
Qed.

(** The definition of line 31 without a schedule time, when the transport
    delivers: the notification is stored, sent, and marked [SENT] with
    [sent_at]. *)
Lemma tracked_send_delivered (a : SendArguments) (s : Outbox) :
  schedule_for a = None →
  bot_replies s (length (bot_sent s)) = None →
  ∃ n,
    send_notification_tracked a s
    = (inr (Some n),
       mkOutbox (advance 1 (ob_clock s)) (<[next_notification_id s := n]> (notifications s))
         (next_notification_id s + 1) (bot_replies s)
         (bot_sent s ++ [(telegram_id a, message a)]))
    ∧ Notification.id n = next_notification_id s
    ∧ Notification.status n = NotificationStatus.SENT
    ∧ Notification.sent_at n = Some (Clock_now (ob_clock s)).
Proof.
  intros Ht Hok. unfold send_notification_tracked, _send_telegram_message,
    bot_send_message, ob_utcnow, ob_commit.
  rewrite Ht. monad_simpl.
  cbn [ob_clock notifications next_notification_id bot_replies bot_sent
       truthy_datetime negb Notification.target_telegram_id Notification.message
       Notification.id Notification.mark_sent].
  rewrite Hok.
  cbn [ob_clock notifications next_notification_id bot_replies bot_sent
       Notification.id Notification.mark_sent].
  rewrite insert_insert_eq. eexists. split; [reflexivity|]. repeat split; reflexivity.
Qed.

(** The definition of line 31 without a schedule time, when the transport
    raises: the notification is stored and marked [FAILED] with the error
    text, and its [retry_count] goes from 0 to 1. *)
Lemma tracked_send_failed (a : SendArguments) (s : Outbox) (text : string) :
  schedule_for a = None →
  bot_replies s (length (bot_sent s)) = Some text →
  ∃ n,
    send_notification_tracked a s
    = (inr (Some n),
       mkOutbox (ob_clock s) (<[next_notification_id s := n]> (notifications s))
         (next_notification_id s + 1) (bot_replies s)
         (bot_sent s ++ [(telegram_id a, message a)]))
    ∧ Notification.id n = next_notification_id s
    ∧ Notification.status n = NotificationStatus.FAILED
    ∧ Notification.error_message n = Some text
    ∧ Notification.retry_count n = 1
    ∧ Notification.sent_at n = None.
Proof.
  intros Ht Hfail. unfold send_notification_tracked, _send_telegram_message,
    bot_send_message, ob_utcnow, ob_commit.
  rewrite Ht. monad_simpl.
  cbn [ob_clock notifications next_notification_id bot_replies bot_sent
       truthy_datetime negb Notification.target_telegram_id Notification.message
       Notification.id Notification.mark_failed].
  rewrite Hfail.
  cbn [ob_clock notifications next_notification_id bot_replies bot_sent
       Notification.id Notification.mark_failed].
  rewrite insert_insert_eq. eexists. split; [reflexivity|]. repeat split; reflexivity.
Qed.

(** A call that fits the signature of line 31 passes [notification_type],
    which the signature of line 719 does not take. *)
Lemma tracked_call_passes_notification_type (site : CallSite) :
  bind_arguments send_notification_signature site = inr tt →
  (3 ≤ positional site)%nat ∨ "notification_type" ∈ keywords site.
Proof.
  unfold bind_arguments.
  cbn [parameters required callee send_notification_signature length take].
  case_bool_decide as Hpos; [discriminate|].
  destruct (filter _ (keywords site)) as [|k1 l1]; [|discriminate].
  destruct (filter _ (keywords site)) as [|k2 l2]; [|discriminate].
  destruct (filter _ (drop _ _)) as [|p l3] eqn:Hmissing; [|discriminate].
  intros _.
  destruct (decide ("notification_type" ∈ keywords site)) as [Hin|Hnin];
    [by right|left].
  destruct (positional site) as [|[|[|n]]]; [| | |lia]; exfalso.
  all: assert ("notification_type" ∈ @nil string) as Hnil;
    [|by apply elem_of_nil in Hnil].
  all: rewrite <- Hmissing; apply list_elem_of_filter; split; [exact Hnin|].
  all: cbn [drop]; repeat (apply elem_of_cons; first [by left|right]).
Qed.

Lemma tracked_call_rejected_by_legacy (site : CallSite) :
  bind_arguments send_notification_signature site = inr tt →
  ∃ text, bind_arguments send_notification_legacy_signature site
          = inl (TypeError text).
Proof.
  intros H. apply tracked_call_passes_notification_type in H.
  unfold bind_arguments.
  cbn [parameters required callee send_notification_legacy_signature length].
  case_bool_decide as Hpos; [eauto|].
  destruct H as [H|H]; [lia|].
  destruct (filter _ (keywords site)) as [|k l] eqn:Hunknown; [|eauto].
  exfalso.
  assert ("notification_type" ∈ @nil string) as Hnil;
    [|by apply elem_of_nil in Hnil].
  rewrite <- Hunknown. apply list_elem_of_filter. split; [|exact H].
  intros Hin. apply elem_of_cons in Hin as [?|Hin]; [discriminate|].
  apply elem_of_cons in Hin as [?|Hin]; [discriminate|].
  by apply elem_of_nil in Hin.
Qed.

(** Every call of [notification_service.send_notification] that fits the
    signature of line 31 raises [TypeError]; nothing is stored and the
    transport is not called. *)
Lemma send_notification_raises (site : CallSite) (a : SendArguments) (s : Outbox) :
  bind_arguments send_notification_signature site = inr tt →
  ∃ text, NotificationService_send_notification site a s = (inl (TypeError text), s).
Proof.
  intros H. apply tracked_call_rejected_by_legacy in H as (text & Htext).
  exists text. unfold NotificationService_send_notification.
  rewrite send_notification_resolves_to_legacy.
  erewrite bind_raise; [reflexivity|]. unfold lift_result. rewrite Htext. reflexivity.
Qed.

(** C9 at two calls the program makes.  A call that passes a schedule time
    one hour ahead raises [TypeError] and stores nothing: no notification
    with status [SCHEDULED] exists afterwards.  A call without a schedule
    time raises [TypeError] as well: nothing is stored and no delivery is
    attempted.  The definition the claim describes (line 31) would store the
    first as [SCHEDULED] and send the second, as the tests expect; the class
    body rebinds the name to the legacy static method of line 719. *)
Theorem send_notification_shadowed_by_legacy :
  class_namespace NotificationService_body !! "send_notification" = Some 719%nat
  ∧ bind_arguments send_notification_signature ex_scheduled_call.1 = inr tt
  ∧ bind_arguments send_notification_signature ex_immediate_call.1 = inr tt
  ∧ NotificationService_send_notification ex_scheduled_call.1 ex_scheduled_call.2
      ex_outbox
    = (inl (TypeError
              "send_notification() got an unexpected keyword argument 'notification_type'"),
       ex_outbox)
  ∧ NotificationService_send_notification ex_immediate_call.1 ex_immediate_call.2
      ex_outbox
    = (inl (TypeError
              "send_notification() got an unexpected keyword argument 'notification_type'"),
       ex_outbox)
  ∧ notifications ex_outbox = ∅ ∧ bot_sent ex_outbox = []
  ∧ (∃ n s',
       send_notification_tracked ex_scheduled_call.2 ex_outbox = (inr (Some n), s')
       ∧ Notification.status n = NotificationStatus.SCHEDULED
       ∧ notifications s' !! Notification.id n = Some n ∧ bot_sent s' = [])
  ∧ (∃ n s',
       send_notification_tracked ex_immediate_call.2 ex_outbox = (inr (Some n), s')
       ∧ Notification.status n = NotificationStatus.SENT
       ∧ notifications s' !! Notification.id n = Some n
       ∧ bot_sent s' = [(7, "order created")]).
Proof.
  split; [exact send_notification_resolves_to_legacy|].
  split; [vm_compute; reflexivity|]. split; [vm_compute; reflexivity|].
  split; [vm_compute; reflexivity|]. split; [vm_compute; reflexivity|].
  split; [reflexivity|]. split; [reflexivity|]. split.
  - destruct (tracked_send_scheduled ex_scheduled_call.2 (minutes 104) ex_outbox
                eq_refl) as (n & Hrun & Hid & Hst & _).
    eexists n, _. split; [exact Hrun|]. split; [exact Hst|].
    cbn [notifications]. rewrite Hid, lookup_insert_eq. auto.
  - destruct (tracked_send_delivered ex_immediate_call.2 ex_outbox eq_refl eq_refl)
      as (n & Hrun & Hid & Hst & _).
    eexists n, _. split; [exact Hrun|]. split; [exact Hst|].
    cbn [notifications]. rewrite Hid, lookup_insert_eq. auto.
Qed.

(** * Further results *)

(** ** The status predicates of an order *)

(** X1.  Every status is either active or final, never both; an order that
    can be cancelled is active, one that can be refunded is final, and no
    order is both cancellable and refundable. *)
Theorem status_predicates_partition (o : Order.t) :
  Order.is_active o = negb (Order.is_completed_state o)
  ∧ (Order.can_be_cancelled o = true → Order.is_active o = true)
  ∧ (Order.can_be_refunded o = true → Order.is_completed_state o = true)
  ∧ ¬ (Order.can_be_cancelled o = true ∧ Order.can_be_refunded o = true).
Proof.
  unfold Order.is_active, Order.is_completed_state, Order.can_be_cancelled,
    Order.can_be_refunded.
  destruct (Order.status o); vm_compute; intuition discriminate.
Qed.

(** X2.  The model's predicates against the transition table: an order can
    be refunded exactly when the table has the edge to [REFUNDED]; an order
    that can be cancelled has the edge to [CANCELLED], and the table has that
    edge for two more statuses, [READY] and [FAILED]. *)
Theorem refund_and_cancel_against_table (o : Order.t) :
  (Order.can_be_refunded o = true
   ↔ OrderStatus.REFUNDED ∈ valid_transitions (Order.status o))
  ∧ (OrderStatus.CANCELLED ∈ valid_transitions (Order.status o)
     ↔ Order.can_be_cancelled o = true
       ∨ Order.status o = OrderStatus.READY ∨ Order.status o = OrderStatus.FAILED).
Proof.
  unfold Order.can_be_cancelled, Order.can_be_refunded.
  rewrite !valid_transitions_table.
  destruct (Order.status o); cbn; intuition (discriminate || reflexivity).
Qed.

(** ** Durations and estimates *)

Lemma whole_minutes_minutes n : whole_minutes (minutes n) = n.
Proof. unfold whole_minutes, minutes. apply Z.quot_mul. lia. Qed.


(** X3.  [get_estimated_completion_time] gives nothing exactly when
    [estimated_preparation_time] is unset or zero; otherwise it gives an
    instant whose distance in whole minutes from the base time
    ([status_confirmed_at], or [created_at] for an order never confirmed) is
    [estimated_preparation_time] again. *)
Theorem estimated_completion_round_trip (o : Order.t) :
  let base := default (Order.created_at o) (Order.status_confirmed_at o) in
  (Order.get_estimated_completion_time o = None
   ↔ truthy_int (Order.estimated_preparation_time o) = false)
  ∧ ∀ t, Order.get_estimated_completion_time o = Some t →
         Order.estimated_preparation_time o = Some (whole_minutes (t - base)).
Proof.
  intros base. unfold Order.get_estimated_completion_time.
  destruct (Order.estimated_preparation_time o) as [n|]; cbn [truthy_int].
  - destruct (n =? 0) eqn:Hz; cbn [negb].
    + split; [done|]. discriminate.
    + split; [split; discriminate|]. intros t [= <-]. f_equal. fold base.
      replace (base + minutes n - base) with (minutes n) by lia.
      by rewrite whole_minutes_minutes.
  - split; [done|]. discriminate.
Qed.



(** ** Paths in the transition table *)

Lemma validate_transition_cases from_status to_status :
  _validate_transition from_status to_status = inr tt
  ↔ from_status = to_status ∨ In to_status (table_row from_status).
Proof.
  unfold _validate_transition.
  destruct (decide (from_status = to_status)) as [->|Hne]; [tauto|].
  destruct (decide (to_status ∈ valid_transitions from_status)) as [Hin|Hnin].
  - apply valid_transitions_table in Hin. tauto.
  - split; [discriminate|].
    intros [?|Hin]; [done|]. apply valid_transitions_table in Hin. done.
Qed.

(** X5.  Under validated transitions an order that is completed, cancelled
    or refunded stays among these three statuses whatever is done next, and
    a refunded order stays refunded; a failed order, which
    [is_completed_state] also counts as final, can go back to pending. *)
Theorem settled_orders_stay_settled (from_status to_status : OrderStatus.t) :
  reachable from_status to_status →
  (from_status = OrderStatus.REFUNDED → to_status = OrderStatus.REFUNDED)
  ∧ (In from_status [OrderStatus.COMPLETED; OrderStatus.CANCELLED; OrderStatus.REFUNDED]
     → In to_status [OrderStatus.COMPLETED; OrderStatus.CANCELLED; OrderStatus.REFUNDED])
  ∧ reachable OrderStatus.FAILED OrderStatus.PENDING.
Proof.
  intros Hreach. split; [|split].
  - induction Hreach as [st|st mid final Hv _ IH]; [done|].
    intros ->. apply validate_transition_cases in Hv as [<-|Hin]; [auto|].
    destruct Hin.
  - induction Hreach as [st|st mid final Hv _ IH]; [done|].
    intros Hst. apply IH. apply validate_transition_cases in Hv as [<-|Hin]; [done|].
    cbn in Hst. destruct Hst as [<-|[<-|[<-|[]]]]; cbn in Hin |- *;
      intuition (subst; auto).
  - eapply reachable_step; [|apply reachable_here]. vm_compute. reflexivity.
Qed.

Lemma settled_orders_stay_settled_witness :
  reachable OrderStatus.COMPLETED OrderStatus.REFUNDED
  ∧ In OrderStatus.REFUNDED
       [OrderStatus.COMPLETED; OrderStatus.CANCELLED; OrderStatus.REFUNDED].
Proof.
  assert (H : reachable OrderStatus.COMPLETED OrderStatus.REFUNDED).
  { eapply reachable_step; [|apply reachable_here]. vm_compute. reflexivity. }
  split; [exact H|].
  destruct (settled_orders_stay_settled _ _ H) as (_ & Hin & _).
  apply Hin. cbn. auto.
Defined.

(** X6.  The table has no dead end but [REFUNDED]: every active status has
    the edge to [CANCELLED], and from every status [REFUNDED] can be reached
    by validated transitions. *)
Theorem refund_is_always_reachable (st : OrderStatus.t) :
  (In st [OrderStatus.PENDING; OrderStatus.CONFIRMED; OrderStatus.PREPARING;
          OrderStatus.READY]
   → _validate_transition st OrderStatus.CANCELLED = inr tt)
  ∧ reachable st OrderStatus.REFUNDED
  ∧ valid_transitions OrderStatus.REFUNDED = ∅.
Proof.
  split; [|split; [|reflexivity]].
  - intros Hin. cbn in Hin.
    destruct Hin as [<-|[<-|[<-|[<-|[]]]]]; vm_compute; reflexivity.
  - assert (Hc : reachable OrderStatus.CANCELLED OrderStatus.REFUNDED)
      by (eapply reachable_step; [|apply reachable_here]; vm_compute; reflexivity).
    destruct st.
    1-4, 8: (eapply reachable_step; [|exact Hc]; vm_compute; reflexivity).
    + eapply reachable_step; [|apply reachable_here]. vm_compute. reflexivity.
    + exact Hc.
    + apply reachable_here.
Qed.

(** ** The steps of a transition *)


(** The hooks write only the two JSON columns, so every other column of the
    order returned is the one the timestamp update left. *)
Lemma transition_status_columns order new_status reason by_ notes sm wd
    (validate auto : bool) s o' h s' :
  transition_status order new_status reason by_ notes sm wd validate auto s
  = (inr (o', h), s') →
  ∃ o1 s1,
    _update_status_timestamps (Order.set_status new_status order) new_status auto
      (with_clock (advance (duration_reads order new_status s) (clock s)) s)
    = (inr o1, s1)
    ∧ same_but_flags o1 o'.
Proof.
  intros H. apply transition_status_inv in H as (_ & _ & _ & o1 & Hts & Hflags).
  eauto.
Qed.

(** ** Frame of a transition *)

(** X7.  A transition that returns leaves every other order of the session
    as it was, stores the order it returns under the order's key, appends
    exactly one ledger row (the one it returns, numbered with the next free
    identifier) and keeps every older row; it reads the clock but does not
    change its readings, and it reports the change to the notification
    service exactly when the status differs from the old one. *)
Theorem transition_status_frame order new_status reason by_ notes sm wd
    (validate auto : bool) s o' h s' :
  transition_status order new_status reason by_ notes sm wd validate auto s
  = (inr (o', h), s') →
  (∀ k, k ≠ Order.id order → orders s' !! k = orders s !! k)
  ∧ orders s' !! Order.id order = Some o'
  ∧ order_status_history s' = order_status_history s ++ [h]
  ∧ OrderStatusHistory.id h = next_history_id s
  ∧ OrderStatusHistory.order_id h = Order.id order
  ∧ next_history_id s' = next_history_id s + 1
  ∧ readings (clock s') = readings (clock s)
  ∧ (reads (clock s) < reads (clock s'))%nat
  ∧ status_change_notices s'
    = status_change_notices s
      ++ (if decide (Order.status order = new_status) then []
          else [(Order.id order, Order.status order, new_status)]).
Proof.
  intros H. apply transition_status_inv in H as (_ & -> & -> & _).
  cbn [orders order_status_history next_history_id status_change_notices clock
       advance readings reads].
  split; [intros k Hk; by rewrite lookup_insert_ne|].
  split; [by rewrite lookup_insert_eq|].
  split; [reflexivity|]. split; [reflexivity|]. split; [reflexivity|].
  split; [reflexivity|]. split; [reflexivity|]. split; [lia|].
  unfold notice. by repeat case_decide.
Qed.

Lemma transition_status_frame_witness :
  ∃ o' h s',
    transition_status ex_order OrderStatus.CONFIRMED StatusChangeReason.MANUAL_ADMIN
      None None None None true true ex_session = (inr (o', h), s')
    ∧ order_status_history s' = order_status_history ex_session ++ [h]
    ∧ OrderStatusHistory.id h = next_history_id ex_session.
Proof.
  destruct (transition_status_run ex_order OrderStatus.CONFIRMED
              StatusChangeReason.MANUAL_ADMIN None None None None true true
              ex_session) as (o1 & o' & Hrun & _ & _); [reflexivity|].
  eexists _, _, _. split; [exact Hrun|].
  pose proof (transition_status_frame _ _ _ _ _ _ _ _ _ _ _ _ _ Hrun)
    as (_ & _ & Hl & Hi & _).
  split; [exact Hl|exact Hi].
Defined.

(** ** Skipping validation *)

(** X8.  With [validate=False] the engine accepts every pair of statuses,
    also the ones the table refuses and the ones that leave a terminal
    status: the call returns, the order has the new status and the ledger
    row records the old and the new one. *)
Theorem transition_without_validation order new_status reason by_ notes sm wd
    (auto : bool) s :
  ∃ o' h s',
    transition_status order new_status reason by_ notes sm wd false auto s
    = (inr (o', h), s')
    ∧ Order.status o' = new_status
    ∧ OrderStatusHistory.from_status h = Some (OrderStatus.value (Order.status order))
    ∧ OrderStatusHistory.to_status h = OrderStatus.value new_status
    ∧ orders s' !! Order.id order = Some o'.
Proof.
  destruct (transition_status_run order new_status reason by_ notes sm wd false auto s)
    as (o1 & o' & Hrun & _ & _); [discriminate|].
  pose proof (transition_status_identity _ _ _ _ _ _ _ _ _ _ _ _ _ Hrun) as (_ & _ & Hst).
  eexists o', _, _. split; [exact Hrun|]. split; [exact Hst|].
  split; [reflexivity|]. split; [reflexivity|].
  cbn [orders]. by rewrite lookup_insert_eq.
Qed.

(** ** What the timestamp update writes *)

(** The status timestamps after [_update_status_timestamps], read through
    [get_status_timestamp]; the JSON columns and the columns that identify
    the order are not written. *)
Lemma update_status_timestamps_stamps order status (auto : bool) s o1 s1 :
  _update_status_timestamps order status auto s = (inr o1, s1) →
  (∀ st, get_status_timestamp o1 st
         = if decide (st = status)
           then match st with
                | OrderStatus.REFUNDED | OrderStatus.FAILED => None
                | _ => Some (Clock_now (clock s))
                end
           else get_status_timestamp order st)
  ∧ Order.created_at o1 = Order.created_at order
  ∧ Order.user_id o1 = Order.user_id order
  ∧ Order.payment_method o1 = Order.payment_method order
  ∧ Order.priority o1 = Order.priority order
  ∧ Order.delivery_type o1 = Order.delivery_type order
  ∧ Order.cancellation_reason o1 = Order.cancellation_reason order
  ∧ Order.cancelled_by_user_id o1 = Order.cancelled_by_user_id order
  ∧ Order.refund_amount o1 = Order.refund_amount order
  ∧ Order.automation_flags o1 = Order.automation_flags order
  ∧ Order.workflow_metadata o1 = Order.workflow_metadata order.
Proof.
  unfold _update_status_timestamps, _auto_calculate_timing_fields, utcnow.
  monad_simpl. intros H.
  destruct auto, status; injection H as <- <-; order_simpl;
    (split; [intros st; destruct st; unfold get_status_timestamp;
             repeat case_match; order_simpl; first [reflexivity|congruence]
            |repeat case_match; order_simpl; repeat split; reflexivity]).
Qed.

(** X9.  After a transition the timestamp of the new status, as
    [get_status_timestamp] reads it, is the first clock reading the engine
    makes once the duration is computed; [REFUNDED] and [FAILED] have no
    timestamp column and read as [None]; the timestamps of all other
    statuses are untouched. *)
Theorem transition_stamps_new_status order new_status reason by_ notes sm wd
    (validate auto : bool) s o' h s' :
  transition_status order new_status reason by_ notes sm wd validate auto s
  = (inr (o', h), s') →
  let now :=
    readings (clock s) (duration_reads order new_status s + reads (clock s)) in
  get_status_timestamp o' new_status
  = (if decide (new_status = OrderStatus.REFUNDED ∨ new_status = OrderStatus.FAILED)
     then None else Some now)
  ∧ ∀ st, st ≠ new_status → get_status_timestamp o' st = get_status_timestamp order st.
Proof.
  intros H now.
  apply transition_status_columns in H as (o1 & s1 & Hts & Hflags).
  apply update_status_timestamps_stamps in Hts as (Hst & _).
  assert (Heq : ∀ st, get_status_timestamp o' st = get_status_timestamp o1 st).
  { intros st. rewrite Hflags. unfold get_status_timestamp. order_simpl. reflexivity. }
  split.
  - rewrite Heq, Hst. rewrite decide_True by reflexivity.
    destruct new_status; case_decide; try reflexivity; exfalso; intuition discriminate.
  - intros st Hne. rewrite Heq, Hst. rewrite decide_False by exact Hne.
    unfold get_status_timestamp. destruct st; order_simpl; reflexivity.
Qed.

Lemma transition_stamps_new_status_witness :
  ∃ o' h s',
    transition_status ex_order OrderStatus.CONFIRMED StatusChangeReason.MANUAL_ADMIN
      None None None None true true ex_session = (inr (o', h), s')
    ∧ get_status_timestamp o' OrderStatus.CONFIRMED = Some (minutes 44)
    ∧ get_status_timestamp o' OrderStatus.PENDING = Some 0.
Proof.
  destruct (transition_status_run ex_order OrderStatus.CONFIRMED
              StatusChangeReason.MANUAL_ADMIN None None None None true true
              ex_session) as (o1 & o' & Hrun & _ & _); [reflexivity|].
  eexists _, _, _. split; [exact Hrun|].
  destruct (transition_stamps_new_status _ _ _ _ _ _ _ _ _ _ _ _ _ Hrun) as (Hn & Ho).
  split; [exact Hn|]. rewrite Ho by discriminate. reflexivity.
Defined.

(** ** Which timing columns a transition can write *)

Lemma update_status_timestamps_timing order status (auto : bool) s o1 s1 :
  _update_status_timestamps order status auto s = (inr o1, s1) →
  let now := readings (clock s) (1 + reads (clock s)) in
  (auto = false ∨ status ≠ OrderStatus.CONFIRMED →
   Order.estimated_preparation_time o1 = Order.estimated_preparation_time order
   ∧ Order.estimated_delivery_time o1 = Order.estimated_delivery_time order)
  ∧ (auto = false ∨ status ≠ OrderStatus.PREPARING →
     Order.actual_preparation_start o1 = Order.actual_preparation_start order)
  ∧ (auto = false ∨ status ≠ OrderStatus.READY →
     Order.actual_preparation_end o1 = Order.actual_preparation_end order
     ∧ Order.preparation_duration o1 = Order.preparation_duration order)
  ∧ (auto = false ∨ status ≠ OrderStatus.COMPLETED →
     Order.total_duration o1 = Order.total_duration order
     ∧ Order.delivery_completed_at o1 = Order.delivery_completed_at order)
  ∧ (auto = true → status = OrderStatus.PREPARING →
     Order.actual_preparation_start o1
     = Some (default now (Order.actual_preparation_start order)))
  ∧ (auto = true → status = OrderStatus.COMPLETED →
     Order.total_duration o1
     = (if truthy_int (Order.total_duration order) then Order.total_duration order
        else Some (whole_minutes (now - Order.created_at order)))
     ∧ Order.delivery_completed_at o1
       = (if decide (Order.delivery_type order = "delivery") then Some now
          else Order.delivery_completed_at order)).
Proof.
  unfold _update_status_timestamps, _auto_calculate_timing_fields, utcnow.
  monad_simpl. intros H.
  destruct auto, status; injection H as <- <-; order_simpl;
    repeat split; intros; try discriminate; try (intuition congruence);
    repeat case_match; order_simpl; cbn [default truthy_int truthy_datetime negb] in *;
    try reflexivity; try congruence.
  all: destruct (Order.actual_preparation_start order); cbn in *;
    first [reflexivity|congruence].
Qed.

(** X10.  A transition writes the timing columns of its target status and
    no others: the two estimates only on the way into [CONFIRMED], the
    preparation start only into [PREPARING], the preparation end and
    duration only into [READY], the total duration and the delivery
    completion only into [COMPLETED], and none of them when
    [auto_calculate_times] is off.  The customer, the creation time, the
    payment method, the priority, the delivery type and the cancellation
    columns are never written. *)
Theorem transition_writes_only_its_timing_columns order new_status reason by_ notes
    sm wd (validate auto : bool) s o' h s' :
  transition_status order new_status reason by_ notes sm wd validate auto s
  = (inr (o', h), s') →
  (auto = false ∨ new_status ≠ OrderStatus.CONFIRMED →
   Order.estimated_preparation_time o' = Order.estimated_preparation_time order
   ∧ Order.estimated_delivery_time o' = Order.estimated_delivery_time order)
  ∧ (auto = false ∨ new_status ≠ OrderStatus.PREPARING →
     Order.actual_preparation_start o' = Order.actual_preparation_start order)
  ∧ (auto = false ∨ new_status ≠ OrderStatus.READY →
     Order.actual_preparation_end o' = Order.actual_preparation_end order
     ∧ Order.preparation_duration o' = Order.preparation_duration order)
  ∧ (auto = false ∨ new_status ≠ OrderStatus.COMPLETED →
     Order.total_duration o' = Order.total_duration order
     ∧ Order.delivery_completed_at o' = Order.delivery_completed_at order)
  ∧ Order.created_at o' = Order.created_at order
  ∧ Order.user_id o' = Order.user_id order
  ∧ Order.payment_method o' = Order.payment_method order
  ∧ Order.priority o' = Order.priority order
  ∧ Order.delivery_type o' = Order.delivery_type order
  ∧ Order.cancellation_reason o' = Order.cancellation_reason order
  ∧ Order.cancelled_by_user_id o' = Order.cancelled_by_user_id order
  ∧ Order.refund_amount o' = Order.refund_amount order.
Proof.
  intros H.
  apply transition_status_columns in H as (o1 & s1 & Hts & Hflags).
  pose proof (update_status_timestamps_timing _ _ _ _ _ _ Hts)
    as (Hc & Hp & Hr & Hd & _).
  apply update_status_timestamps_stamps in Hts
    as (_ & H1 & H2 & H3 & H4 & H5 & H6 & H7 & H8 & _).
  rewrite Hflags. order_simpl.
  repeat split; try assumption;
    match goal with
    | Hcase : _ ∨ _ |- _ =>
        first [by destruct (Hc Hcase)|by apply Hp|by destruct (Hr Hcase)
              |by destruct (Hd Hcase)]
    end.
Qed.

Lemma transition_writes_only_its_timing_columns_witness :
  ∃ o' h s',
    transition_status ex_order OrderStatus.CONFIRMED StatusChangeReason.MANUAL_ADMIN
      None None None None true true ex_session = (inr (o', h), s')
    ∧ Order.actual_preparation_start o' = None
    ∧ Order.total_duration o' = None
    ∧ Order.priority o' = OrderPriority.NORMAL.
Proof.
  destruct (transition_status_run ex_order OrderStatus.CONFIRMED
              StatusChangeReason.MANUAL_ADMIN None None None None true true
              ex_session) as (o1 & o' & Hrun & _ & _); [reflexivity|].
  eexists _, _, _. split; [exact Hrun|].
  destruct (transition_writes_only_its_timing_columns _ _ _ _ _ _ _ _ _ _ _ _ _ Hrun)
    as (_ & Hp & _ & Hd & _ & _ & _ & Hprio & _).
  split; [apply Hp; right; discriminate|].
  split; [apply Hd; right; discriminate|exact Hprio].
Defined.

(** ** Entering Preparing and Completed *)

(** X11.  An order that enters [PREPARING] with [auto_calculate_times] on
    has a preparation start afterwards: the one already recorded if there is
    one, and otherwise the clock reading made by the timing calculator.  A
    start once recorded therefore survives a second transition into
    [PREPARING]. *)
Theorem preparing_records_first_start order reason by_ notes sm wd
    (validate : bool) s o' h s' :
  transition_status order OrderStatus.PREPARING reason by_ notes sm wd validate true s
  = (inr (o', h), s') →
  let now :=
    readings (clock s)
      (duration_reads order OrderStatus.PREPARING s + 1 + reads (clock s)) in
  Order.actual_preparation_start o'
  = Some (default now (Order.actual_preparation_start order)).
Proof.
  intros H now.
  apply transition_status_columns in H as (o1 & s1 & Hts & Hflags).
  apply update_status_timestamps_timing in Hts as (_ & _ & _ & _ & Hp & _).
  rewrite Hflags. order_simpl. rewrite Hp by reflexivity.
  order_simpl. cbn [with_clock clock advance readings reads]. subst now.
  do 3 f_equal. lia.
Qed.

Lemma preparing_records_first_start_witness :
  ∃ o' h s',
    transition_status ex_prepared OrderStatus.PREPARING
      StatusChangeReason.MANUAL_ADMIN None None None None false true ex_kitchen
    = (inr (o', h), s')
    ∧ Order.actual_preparation_start o' = Some 0.
Proof.
  destruct (transition_status_run ex_prepared OrderStatus.PREPARING
              StatusChangeReason.MANUAL_ADMIN None None None None false true
              ex_kitchen) as (o1 & o' & Hrun & _ & _); [discriminate|].
  eexists _, _, _. split; [exact Hrun|].
  exact (preparing_records_first_start _ _ _ _ _ _ _ _ _ _ _ Hrun).
Defined.

(** X12.  An order that enters [COMPLETED] with [auto_calculate_times] on
    keeps a total duration that is already set and not zero, and otherwise
    gets the whole minutes from its creation to the clock reading made by
    the timing calculator; [delivery_completed_at] is set to that reading
    for a delivery order and left alone for any other delivery type. *)
Theorem completed_fixes_total_duration order reason by_ notes sm wd
    (validate : bool) s o' h s' :
  transition_status order OrderStatus.COMPLETED reason by_ notes sm wd validate true s
  = (inr (o', h), s') →
  let now :=
    readings (clock s)
      (duration_reads order OrderStatus.COMPLETED s + 1 + reads (clock s)) in
  Order.total_duration o'
  = (if truthy_int (Order.total_duration order) then Order.total_duration order
     else Some (whole_minutes (now - Order.created_at order)))
  ∧ Order.delivery_completed_at o'
    = (if decide (Order.delivery_type order = "delivery") then Some now
       else Order.delivery_completed_at order)
  ∧ Order.calculate_total_duration o'
    = Some (whole_minutes
              (readings (clock s)
                 (duration_reads order OrderStatus.COMPLETED s + reads (clock s))
               - Order.created_at order)).
Proof.
  intros H now.
  apply transition_status_columns in H as (o1 & s1 & Hts & Hflags).
  pose proof (update_status_timestamps_timing _ _ _ _ _ _ Hts)
    as (_ & _ & _ & _ & _ & Hc).
  destruct (Hc eq_refl eq_refl) as (Ht & Hd).
  apply update_status_timestamps_stamps in Hts as (Hst & Hcr & _).
  specialize (Hst OrderStatus.COMPLETED). rewrite decide_True in Hst by reflexivity.
  unfold get_status_timestamp in Hst.
  unfold Order.calculate_total_duration.
  rewrite Hflags. order_simpl. rewrite Ht, Hd, Hst, Hcr. order_simpl.
  cbn [with_clock clock advance readings reads Clock_now].
  replace (1 + (duration_reads order OrderStatus.COMPLETED s + reads (clock s)))%nat
    with (duration_reads order OrderStatus.COMPLETED s + 1 + reads (clock s))%nat by lia.
  split; [reflexivity|]. split; reflexivity.
Qed.

Lemma completed_fixes_total_duration_witness :
  ∃ o' h s',
    transition_status ex_order OrderStatus.COMPLETED StatusChangeReason.MANUAL_ADMIN
      None None None None false true ex_session = (inr (o', h), s')
    ∧ Order.total_duration o' = Some 45
    ∧ Order.delivery_completed_at o' = Some (minutes 45)
    ∧ Order.calculate_total_duration o' = Some 44.
Proof.
  destruct (transition_status_run ex_order OrderStatus.COMPLETED
              StatusChangeReason.MANUAL_ADMIN None None None None false true
              ex_session) as (o1 & o' & Hrun & _ & _); [discriminate|].
  eexists _, _, _. split; [exact Hrun|].
  exact (completed_fixes_total_duration _ _ _ _ _ _ _ _ _ _ _ Hrun).
Defined.

(** ** What the hooks write *)

Lemma automation_flags_set_automation_flag flag value o :
  Order.automation_flags (Order.set_automation_flag flag value o)
  = Some (<[flag := value]> (default ∅ (Order.automation_flags o))).
Proof. reflexivity. Qed.






(** ** Consecutive transitions *)

Lemma duration_value_most_recent order new_status s last :
  Order.status order ≠ new_status →
  most_recent s (Order.id order) last →
  duration_value order new_status s
  = Some (whole_minutes (Clock_now (clock s) - OrderStatusHistory.changed_at last)).
Proof.
  intros Hne (Hin & Hrow & Hmax). unfold duration_value.
  rewrite decide_True by exact Hne.
  pose proof (last_row_spec s (Order.id order)) as Hlast.
  destruct (last_row s (Order.id order)) as [x|].
  - destruct Hlast as (Hxin & Hxrow & Hxmax).
    assert (OrderStatusHistory.changed_at x = OrderStatusHistory.changed_at last)
      as -> by (apply Z.le_antisymm; auto).
    reflexivity.
  - exfalso. exact (Hlast last Hin Hrow).
Qed.

(** X15.  Two transitions of the same order, the second made on the order
    the first returns and in the session it leaves: the ledger gains the two
    rows in that order with consecutive identifiers, and the second row
    starts from the status the first one ends in.  When no older row of the
    order is later than the first row and the second transition changes the
    status, the second row's duration is measured from the first row. *)
Theorem consecutive_transitions_chain order st1 st2 reason1 reason2 by1 by2
    notes1 notes2 sm1 sm2 wd1 wd2 (validate1 validate2 auto1 auto2 : bool)
    s o1 h1 s1 o2 h2 s2 :
  transition_status order st1 reason1 by1 notes1 sm1 wd1 validate1 auto1 s
  = (inr (o1, h1), s1) →
  transition_status o1 st2 reason2 by2 notes2 sm2 wd2 validate2 auto2 s1
  = (inr (o2, h2), s2) →
  order_status_history s2 = order_status_history s ++ [h1; h2]
  ∧ OrderStatusHistory.id h2 = OrderStatusHistory.id h1 + 1
  ∧ OrderStatusHistory.order_id h2 = OrderStatusHistory.order_id h1
  ∧ OrderStatusHistory.from_status h2 = Some (OrderStatusHistory.to_status h1)
  ∧ orders s2 !! Order.id order = Some o2
  ∧ (st1 ≠ st2 →
     (∀ r, r ∈ order_status_history s → row_of (Order.id order) r →
           OrderStatusHistory.changed_at r ≤ OrderStatusHistory.changed_at h1) →
     OrderStatusHistory.duration_from_previous h2
     = Some (whole_minutes (Clock_now (clock s1) - OrderStatusHistory.changed_at h1))).
Proof.
  intros H1 H2.
  pose proof (transition_status_identity _ _ _ _ _ _ _ _ _ _ _ _ _ H1) as (Hid1 & _ & Hst1).
  pose proof (transition_status_identity _ _ _ _ _ _ _ _ _ _ _ _ _ H2) as (Hid2 & _ & Hst2).
  pose proof (transition_status_inv _ _ _ _ _ _ _ _ _ _ _ _ _ H1) as (_ & Hh1 & Hs1 & _).
  pose proof (transition_status_inv _ _ _ _ _ _ _ _ _ _ _ _ _ H2) as (_ & Hh2 & Hs2 & _).
  assert (Hhist1 : order_status_history s1 = order_status_history s ++ [h1])
    by (rewrite Hs1; reflexivity).
  assert (Hnext1 : next_history_id s1 = next_history_id s + 1)
    by (rewrite Hs1; reflexivity).
  assert (Hrow1 : OrderStatusHistory.order_id h1 = Order.id order)
    by (rewrite Hh1; reflexivity).
  split.
  { rewrite Hs2. cbn [order_status_history]. rewrite Hhist1, <- app_assoc. reflexivity. }
  split.
  { rewrite Hh2, Hh1. cbn [appended_row OrderStatusHistory.id]. exact Hnext1. }
  split.
  { rewrite Hh2, Hrow1. cbn [appended_row OrderStatusHistory.row_fields
      OrderStatusHistory.order_id OrderStatusHistory.set_duration_from_previous
      OrderStatusHistory.create_status_change]. exact Hid1. }
  split.
  { rewrite Hh2, Hh1. cbn. by rewrite Hst1. }
  split.
  { rewrite Hs2. cbn [orders]. by rewrite Hid1, lookup_insert_eq. }
  intros Hne Hpast. rewrite Hh2.
  cbn [appended_row OrderStatusHistory.row_fields
       OrderStatusHistory.duration_from_previous
       OrderStatusHistory.set_duration_from_previous].
  apply duration_value_most_recent; [by rewrite Hst1|].
  rewrite Hid1. split; [rewrite Hhist1; apply elem_of_app; right; by left|].
  split; [exact Hrow1|].
  intros r Hr Hrow. rewrite Hhist1 in Hr.
  apply elem_of_app in Hr as [Hr|Hr]; [by apply Hpast|].
  apply list_elem_of_singleton in Hr as ->. lia.
Qed.

Lemma consecutive_transitions_chain_witness :
  ∃ o1 h1 s1 o2 h2 s2,
    transition_status ex_order OrderStatus.CONFIRMED StatusChangeReason.MANUAL_ADMIN
      None None None None true true ex_session = (inr (o1, h1), s1)
    ∧ transition_status o1 OrderStatus.PREPARING StatusChangeReason.MANUAL_ADMIN
        None None None None true true s1 = (inr (o2, h2), s2)
    ∧ OrderStatusHistory.id h2 = 2
    ∧ OrderStatusHistory.from_status h2 = Some "confirmed"
    ∧ OrderStatusHistory.duration_from_previous h2 = Some 3.
Proof.
  destruct (transition_status_run ex_order OrderStatus.CONFIRMED
              StatusChangeReason.MANUAL_ADMIN None None None None true true
              ex_session) as (o & o1 & Hrun1 & _ & _); [reflexivity|].
  pose proof (transition_status_identity _ _ _ _ _ _ _ _ _ _ _ _ _ Hrun1)
    as (_ & _ & Hst1).
  match type of Hrun1 with _ = (_, ?s1) =>
    destruct (transition_status_run o1 OrderStatus.PREPARING
                StatusChangeReason.MANUAL_ADMIN None None None None true true s1)
      as (o' & o2 & Hrun2 & _ & _); [by rewrite Hst1|]
  end.
  eexists _, _, _, _, _, _. split; [exact Hrun1|]. split; [exact Hrun2|].
  destruct (consecutive_transitions_chain _ _ _ _ _ _ _ _ _ _ _ _ _ _ _ _ _ _ _ _ _ _ _ _
              Hrun1 Hrun2) as (_ & Hid & _ & Hfrom & _ & Hdur).
  split; [exact Hid|]. split; [exact Hfrom|].
  rewrite Hdur; [reflexivity|discriminate|].
  intros r Hr. by apply elem_of_nil in Hr.
Defined.

(** ** The ledger under a batch *)

(** One iteration either fails and leaves the session alone, or succeeds and
    appends the ledger row it reports, numbered with the next identifier. *)
Lemma bulk_transition_step_ledger new_status reason by_ notes results k s :
  ∃ r s',
    bulk_transition_step new_status reason by_ notes results k s = (inr r, s')
    ∧ ((s' = s ∧ ∃ e, r = add_failure results k e)
       ∨ (∃ row entry,
            r = add_success results entry
            ∧ order_status_history s' = order_status_history s ++ [row]
            ∧ next_history_id s' = next_history_id s + 1
            ∧ bs_history_id entry = next_history_id s
            ∧ reports row entry)).
Proof.
  unfold bulk_transition_step.
  destruct (found s k) as [o|] eqn:Hfound.
  - destruct (_validate_transition (Order.status o) new_status) as [e|[]] eqn:Hv.
    + exists (add_failure results k (Raised e)), s. split.
      { erewrite try_except_raise; [reflexivity|].
        erewrite bind_run by apply select_order_run. rewrite Hfound.
        erewrite bind_raise; [reflexivity|].
        by apply transition_status_invalid. }
      left. eauto.
    + destruct (transition_status_run o new_status reason by_ notes None None
                  true true s (λ _, Hv)) as (o1 & o' & Hrun & _ & _).
      eexists _, _. split.
      { erewrite try_except_run; [reflexivity|].
        erewrite bind_run by apply select_order_run. rewrite Hfound.
        erewrite bind_run by exact Hrun. reflexivity. }
      right. eexists _, _. split; [reflexivity|].
      cbn [order_status_history next_history_id bs_history_id].
      split; [reflexivity|]. split; [reflexivity|]. split; [reflexivity|].
      by unfold reports.
  - exists (add_failure results k OrderNotFound), s. split.
    { erewrite try_except_run; [reflexivity|].
      erewrite bind_run by apply select_order_run. rewrite Hfound. reflexivity. }
    left. eauto.
Qed.

Lemma bulk_transition_loop_ledger new_status reason by_ notes order_ids :
  ∀ results s,
  ∃ succ fl rows s',
    bulk_transition_loop new_status reason by_ notes order_ids results s
    = (inr (mkBulkResults (successful results ++ succ) (failed results ++ fl)
              (total_processed results + Z.of_nat (length order_ids))
              (success_count results + Z.of_nat (length succ))
              (failure_count results + Z.of_nat (length fl))), s')
    ∧ order_status_history s' = order_status_history s ++ rows
    ∧ next_history_id s' = next_history_id s + Z.of_nat (length succ)
    ∧ Forall2 reports rows succ
    ∧ bs_history_id <$> succ = seqZ (next_history_id s) (Z.of_nat (length succ))
    ∧ (succ = [] → s' = s).
Proof.
  induction order_ids as [|k rest IH]; intros results s.
  - exists [], [], [], s. cbn [bulk_transition_loop length].
    rewrite !app_nil_r, !Z.add_0_r.
    split; [by destruct results|]. repeat split; try reflexivity. constructor.
  - destruct (bulk_transition_step_ledger new_status reason by_ notes results k s)
      as (r1 & s1 & Hstep & Hcase).
    destruct (IH r1 s1) as (succ & fl & rows & s' & Hloop & Hhist & Hnext & Hrep & Hids & Hnil).
    cbn [bulk_transition_loop]. erewrite bind_run by exact Hstep. rewrite Hloop.
    assert (Hlen : ∀ z, z + 1 + Z.of_nat (length rest) = z + Z.of_nat (length (k :: rest)))
      by (intros z; cbn [length]; lia).
    destruct Hcase as [(-> & e & ->)|(row & entry & -> & Hh1 & Hn1 & Hid1 & Hr1)].
    + exists succ, (mkBulkFailure k e :: fl), rows, s'.
      cbn [add_failure successful failed total_processed success_count failure_count].
      split.
      { do 2 f_equal. f_equal; [by rewrite <- app_assoc|apply Hlen|cbn [length]; lia]. }
      auto.
    + exists (entry :: succ), fl, (row :: rows), s'.
      cbn [add_success successful failed total_processed success_count failure_count].
      split.
      { do 2 f_equal. f_equal; [by rewrite <- app_assoc|apply Hlen|cbn [length]; lia]. }
      split; [by rewrite Hhist, Hh1, <- app_assoc|].
      split; [rewrite Hnext, Hn1; cbn [length]; lia|].
      split; [by constructor|].
      split; [|discriminate].
      cbn [length]. rewrite Nat2Z.inj_succ, seqZ_cons by lia.
      rewrite fmap_cons, Hid1, Hids, Hn1. do 2 f_equal; lia.
Qed.

(** X16.  [bulk_transition_orders] needs nothing of the session to return.
    The ledger grows by exactly one row per entry of [successful], in the
    order of the entries; each entry reports the identifier and the two
    statuses of its row, and the identifiers are consecutive from the next
    free one.  Failed entries write nothing: a batch without a success
    leaves the session as it was. *)
Theorem bulk_appends_one_row_per_success order_ids new_status reason by_ notes s :
  ∃ r s' rows,
    bulk_transition_orders order_ids new_status reason by_ notes s = (inr r, s')
    ∧ order_status_history s' = order_status_history s ++ rows
    ∧ Forall2 reports rows (successful r)
    ∧ bs_history_id <$> successful r
      = seqZ (next_history_id s) (success_count r)
    ∧ next_history_id s' = next_history_id s + success_count r
    ∧ (successful r = [] → s' = s).
Proof.
  unfold bulk_transition_orders.
  destruct (bulk_transition_loop_ledger new_status reason by_ notes order_ids
              (mkBulkResults [] [] 0 0 0) s)
    as (succ & fl & rows & s' & Hloop & Hhist & Hnext & Hrep & Hids & Hnil).
  cbn [successful failed total_processed success_count failure_count app] in Hloop.
  eexists _, s', rows. split; [exact Hloop|].
  cbn [successful success_count]. rewrite Z.add_0_l. auto.
Qed.

(** ** Cancelling an order *)

(** The run of [cancel_order] on an order that can be cancelled: the
    cancellation columns are written, then the engine makes the
    transition. *)
Lemma cancel_order_accepted order_id by_ reason refund s o :
  found s order_id = Some o →
  Order.can_be_cancelled o = true →
  let order :=
    if truthy_float refund
    then Order.set_refund_amount refund
           (Order.set_cancellation_reason reason
              (Order.set_cancelled_by_user_id by_ o))
    else Order.set_cancellation_reason reason
           (Order.set_cancelled_by_user_id by_ o) in
  ∃ o' h s',
    cancel_order order_id by_ reason refund s = (inr true, s')
    ∧ transition_status order OrderStatus.CANCELLED
        (if truthy_int by_ then StatusChangeReason.CANCELLED_BY_CUSTOMER
         else StatusChangeReason.CANCELLED_BY_ADMIN)
        by_
        match reason with
        | Some r => if decide (r = "") then None else Some ("Причина отмены: " +:+ r)
        | None => None
        end
        None None true true
        (mkSession (clock s) (<[Order.id order := order]> (orders s))
           (order_status_history s) (next_history_id s) (status_change_notices s))
      = (inr (o', h), s').
Proof.
  intros Hfound Hcan order.
  assert (Hst : Order.status order = Order.status o)
    by (subst order; destruct (truthy_float refund); reflexivity).
  assert (Hv : _validate_transition (Order.status order) OrderStatus.CANCELLED = inr tt).
  { rewrite Hst. unfold Order.can_be_cancelled in Hcan.
    destruct (Order.status o); try discriminate; vm_compute; reflexivity. }
  match goal with |- context [transition_status _ _ ?r ?b ?n _ _ _ _ ?s0] =>
    destruct (transition_status_run order OrderStatus.CANCELLED r b n None None
                true true s0 (λ _, Hv)) as (o1 & o' & Hrun & _ & _)
  end.
  eexists o', _, _. split; [|exact Hrun].
  unfold cancel_order.
  erewrite try_except_run; [reflexivity|].
  erewrite bind_run by apply select_order_run. rewrite Hfound, Hcan.
  cbn [negb]. cbv zeta. fold order.
  erewrite bind_run by reflexivity.
  erewrite bind_run by exact Hrun. reflexivity.
Qed.

Lemma cancel_order_refused order_id by_ reason refund s o :
  found s order_id = Some o →
  Order.can_be_cancelled o = false →
  cancel_order order_id by_ reason refund s = (inr false, s).
Proof.
  intros Hfound Hcan. unfold cancel_order.
  erewrite try_except_run; [reflexivity|].
  erewrite bind_run by apply select_order_run. rewrite Hfound, Hcan. reflexivity.
Qed.

(** X17.  A cancellation that is accepted stores the order as cancelled
    with the canceller and the reason as given and with the cancellation
    timestamp read from the clock; a refund amount is stored only when it is
    given and not zero.  It appends one ledger row to [cancelled] which names
    the canceller; the row's reason is [cancelled_by_customer] when a nonzero
    user id is given and [cancelled_by_admin] otherwise (also for the id 0),
    and its notes carry the reason text unless that is missing or empty. *)
Theorem cancel_order_records_cancellation order_id by_ reason refund s o :
  found s order_id = Some o →
  Order.can_be_cancelled o = true →
  ∃ o' h s',
    cancel_order order_id by_ reason refund s = (inr true, s')
    ∧ orders s' !! Order.id o = Some o'
    ∧ Order.status o' = OrderStatus.CANCELLED
    ∧ Order.cancelled_by_user_id o' = by_
    ∧ Order.cancellation_reason o' = reason
    ∧ Order.refund_amount o'
      = (if truthy_float refund then refund else Order.refund_amount o)
    ∧ Order.status_cancelled_at o'
      = Some (readings (clock s)
                (duration_reads o OrderStatus.CANCELLED s + reads (clock s)))
    ∧ order_status_history s' = order_status_history s ++ [h]
    ∧ OrderStatusHistory.from_status h = Some (OrderStatus.value (Order.status o))
    ∧ OrderStatusHistory.to_status h = "cancelled"
    ∧ OrderStatusHistory.changed_by_user_id h = by_
    ∧ OrderStatusHistory.reason h
      = (if truthy_int by_ then "cancelled_by_customer" else "cancelled_by_admin")
    ∧ OrderStatusHistory.notes h
      = match reason with
        | Some r => if decide (r = "") then None else Some ("Причина отмены: " +:+ r)
        | None => None
        end.
Proof.
  intros Hfound Hcan.
  destruct (cancel_order_accepted order_id by_ reason refund s o Hfound Hcan)
    as (o' & h & s' & Hcancel & Hrun).
  exists o', h, s'. split; [exact Hcancel|].
  set (order := if truthy_float refund then _ else _) in Hrun.
  assert (Hid : Order.id order = Order.id o)
    by (subst order; destruct (truthy_float refund); reflexivity).
  assert (Hst : Order.status order = Order.status o)
    by (subst order; destruct (truthy_float refund); reflexivity).
  pose proof (transition_status_identity _ _ _ _ _ _ _ _ _ _ _ _ _ Hrun) as (_ & _ & Hst').
  pose proof (transition_status_inv _ _ _ _ _ _ _ _ _ _ _ _ _ Hrun) as (_ & Hh & Hs' & _).
  pose proof (transition_status_columns _ _ _ _ _ _ _ _ _ _ _ _ _ Hrun)
    as (o1 & s1 & Hts & Hflags).
  apply update_status_timestamps_stamps in Hts
    as (Hstamp & _ & _ & _ & _ & _ & Hreason & Hby & Hrefund & _).
  specialize (Hstamp OrderStatus.CANCELLED). rewrite decide_True in Hstamp by reflexivity.
  unfold get_status_timestamp in Hstamp. order_simpl.
  split; [rewrite Hs'; cbn [orders]; by rewrite Hid, !lookup_insert_eq|].
  split; [exact Hst'|].
  split; [rewrite Hflags; order_simpl; rewrite Hby; subst order;
          by destruct (truthy_float refund)|].
  split; [rewrite Hflags; order_simpl; rewrite Hreason; subst order;
          by destruct (truthy_float refund)|].
  split; [rewrite Hflags; order_simpl; rewrite Hrefund; subst order;
          by destruct (truthy_float refund)|].
  split.
  { rewrite Hflags. order_simpl. rewrite Hstamp.
    unfold duration_reads, last_row. rewrite Hid, Hst. reflexivity. }
  split; [by rewrite Hs'|].
  rewrite Hh. cbn. rewrite Hst.
  repeat split; by destruct (truthy_int by_).
Qed.

Lemma cancel_order_records_cancellation_witness :
  ∃ o' h s',
    cancel_order 1 (Some 0) (Some "") None ex_session = (inr true, s')
    ∧ Order.status o' = OrderStatus.CANCELLED
    ∧ Order.cancelled_by_user_id o' = Some 0
    ∧ Order.status_cancelled_at o' = Some (minutes 44)
    ∧ OrderStatusHistory.reason h = "cancelled_by_admin"
    ∧ OrderStatusHistory.notes h = None.
Proof.
  destruct (cancel_order_records_cancellation 1 (Some 0) (Some "") None ex_session
              ex_order eq_refl eq_refl)
    as (o' & h & s' & Hrun & _ & Hst & Hby & _ & _ & Hat & _ & _ & _ & _ & Hreason & Hnotes).
  exists o', h, s'. repeat split; assumption.
Defined.

(** X18.  An accepted cancellation cannot be repeated: in the session it
    leaves, every further [cancel_order] of the same order returns [False]
    and changes nothing. *)
Theorem cancel_order_is_final order_id by_ reason refund s o :
  keyed s →
  found s order_id = Some o →
  Order.can_be_cancelled o = true →
  ∃ s',
    cancel_order order_id by_ reason refund s = (inr true, s')
    ∧ ∀ by2 reason2 refund2,
        cancel_order order_id by2 reason2 refund2 s' = (inr false, s').
Proof.
  intros Hkeyed Hfound Hcan.
  destruct (cancel_order_accepted order_id by_ reason refund s o Hfound Hcan)
    as (o' & h & s' & Hcancel & Hrun).
  exists s'. split; [exact Hcancel|]. intros by2 reason2 refund2.
  set (order := if truthy_float refund then _ else _) in Hrun.
  assert (Hid : Order.id order = Order.id o)
    by (subst order; destruct (truthy_float refund); reflexivity).
  assert (Hdel : Order.is_deleted order = Order.is_deleted o)
    by (subst order; destruct (truthy_float refund); reflexivity).
  pose proof (transition_status_identity _ _ _ _ _ _ _ _ _ _ _ _ _ Hrun)
    as (_ & Hdel' & Hst').
  pose proof (transition_status_inv _ _ _ _ _ _ _ _ _ _ _ _ _ Hrun) as (_ & _ & Hs' & _).
  apply found_Some in Hfound as (Hk & Hnd).
  pose proof (Hkeyed _ _ Hk) as Hkey.
  apply (cancel_order_refused _ _ _ _ _ o').
  - unfold found. rewrite Hs'. cbn [orders].
    rewrite Hid, Hkey, lookup_insert_eq, Hdel', Hdel, Hnd. reflexivity.
  - unfold Order.can_be_cancelled. rewrite Hst'. reflexivity.
Qed.

Lemma cancel_order_is_final_witness :
  ∃ s',
    cancel_order 1 None None None ex_session = (inr true, s')
    ∧ cancel_order 1 (Some 7) None None s' = (inr false, s').
Proof.
  destruct (cancel_order_is_final 1 None None None ex_session ex_order)
    as (s' & Hfirst & Hagain).
  - intros k o Hk. cbn [ex_session orders] in Hk.
    apply lookup_singleton_Some in Hk as [<- <-]. reflexivity.
  - reflexivity.
  - reflexivity.
  - exists s'. split; [exact Hfirst|apply Hagain].
Defined.

(** ** The scheduler's queue *)

Lemma Dict_get_set_ne {V} (k k' : string) (v : V) d :
  k ≠ k' → Dict.get k (Dict.set k' v d) = Dict.get k d.
Proof.
  intros Hne. unfold Dict.get.
  induction d as [|[k0 v0] d IH]; cbn [Dict.set List.find fst].
  - rewrite bool_decide_eq_false_2 by congruence. reflexivity.
  - destruct (decide (k0 = k')) as [->|Hne0]; cbn [List.find fst].
    + rewrite !bool_decide_eq_false_2 by congruence. reflexivity.
    + destruct (bool_decide (k0 = k)); [reflexivity|exact IH].
Qed.

Lemma Dict_get_del_ne {V} (k k' : string) (d : list (string * V)) :
  k ≠ k' → Dict.get k (Dict.del k' d) = Dict.get k d.
Proof.
  intros Hne. unfold Dict.get, Dict.del.
  induction d as [|[k0 v0] d IH]; [reflexivity|].
  rewrite filter_cons. cbn [fst].
  destruct (decide (k0 ≠ k')) as [Hne0|Heq]; cbn [List.find fst].
  - destruct (bool_decide (k0 = k)); [reflexivity|exact IH].
  - apply dec_stable in Heq as ->.
    rewrite bool_decide_eq_false_2 by congruence. exact IH.
Qed.

Lemma Dict_get_None {V} (k : string) (d : list (string * V)) :
  Dict.get k d = None ↔ k ∉ d.*1.
Proof.
  unfold Dict.get. induction d as [|[k0 v0] d IH]; cbn [List.find fst fmap list_fmap].
  - split; [intros _; apply not_elem_of_nil|reflexivity].
  - rewrite not_elem_of_cons. cbn [fst].
    destruct (decide (k0 = k)) as [->|Hne].
    + rewrite bool_decide_eq_true_2 by reflexivity. cbn. split; [discriminate|tauto].
    + rewrite bool_decide_eq_false_2 by exact Hne. rewrite IH. split; [split; auto|tauto].
Qed.

Lemma Dict_get_Some {V} (k : string) (v : V) (d : list (string * V)) :
  NoDup d.*1 → (k, v) ∈ d → Dict.get k d = Some v.
Proof.
  unfold Dict.get. induction d as [|[k0 v0] d IH]; cbn [List.find fst fmap list_fmap].
  - intros _ H. by apply elem_of_nil in H.
  - intros Hnd Hin. apply NoDup_cons in Hnd as (Hk0 & Hnd). cbn [fst] in Hk0.
    apply elem_of_cons in Hin as [[= <- <-]|Hin].
    + rewrite bool_decide_eq_true_2 by reflexivity. reflexivity.
    + destruct (decide (k0 = k)) as [->|Hne].
      * exfalso. apply Hk0. apply list_elem_of_fmap. by exists (k, v).
      * rewrite bool_decide_eq_false_2 by exact Hne. by apply IH.
Qed.

Lemma Dict_del_set_fresh {V} (k : string) (v : V) (d : list (string * V)) :
  k ∉ d.*1 → Dict.del k (Dict.set k v d) = d.
Proof.
  unfold Dict.del. induction d as [|[k0 v0] d IH]; cbn [Dict.set fmap list_fmap fst].
  - intros _. rewrite filter_cons. cbn [fst].
    destruct (decide (k ≠ k)); [done|reflexivity].
  - intros Hout. apply not_elem_of_cons in Hout as (Hne & Hout).
    destruct (decide (k0 = k)) as [->|Hne0]; [done|].
    rewrite filter_cons. cbn [fst].
    destruct (decide (k0 ≠ k)); [|done]. f_equal. by apply IH.
Qed.

Section SchedulerQueue.

Variable World : Type.
Variable task_handlers : gmap string (Json → M World unit).
Variable process_scheduled_notifications : M World Z.

(** X19.  [schedule_task] files the task under its identifier with a retry
    count of zero, replacing a task already filed there, and [cancel_task]
    takes it out again; neither touches a task filed under another
    identifier.  Scheduling under a fresh identifier and cancelling gives
    back the scheduler one started from. *)
Theorem schedule_then_cancel task_id execute_at task_type payload max_retries
    (s : Scheduler World) :
  let task := ScheduledTask.mkTask task_id execute_at task_type payload 0 max_retries in
  ∃ s1 s2,
    schedule_task World task_id execute_at task_type payload max_retries s = (inr tt, s1)
    ∧ cancel_task World task_id s1 = (inr tt, s2)
    ∧ Dict.get task_id (tasks World s1) = Some task
    ∧ (∀ k, k ≠ task_id → Dict.get k (tasks World s1) = Dict.get k (tasks World s))
    ∧ Dict.get task_id (tasks World s2) = None
    ∧ (∀ k, k ≠ task_id → Dict.get k (tasks World s2) = Dict.get k (tasks World s))
    ∧ (Dict.get task_id (tasks World s) = None → s2 = s).
Proof.
  intros task. eexists _, _. split; [reflexivity|]. split; [reflexivity|].
  cbn [tasks ScheduledTask.task_id].
  split; [apply Dict_get_set_eq|].
  split; [intros k Hk; by apply Dict_get_set_ne|].
  split; [apply Dict_get_del_eq|].
  split; [intros k Hk; by rewrite Dict_get_del_ne, Dict_get_set_ne|].
  intros Hfresh. apply Dict_get_None in Hfresh.
  cbn [sch_clock running world]. rewrite Dict_del_set_fresh by exact Hfresh.
  by destruct s.
Qed.

(** One execution: the queue is left alone, or the task failed with retries
    left and is filed again. *)
Lemma execute_task_queue task (s : Scheduler World) :
  ∃ s',
    _execute_task World task_handlers task s = (inr tt, s')
    ∧ running World s' = running World s
    ∧ readings (sch_clock World s') = readings (sch_clock World s)
    ∧ (tasks World s' = tasks World s
       ∨ (ScheduledTask.retry_count task < ScheduledTask.max_retries task
          ∧ is_Some (task_handlers !! ScheduledTask.task_type task)
          ∧ tasks World s'
            = Dict.set (ScheduledTask.task_id task)
                (retried (Clock_now (sch_clock World s)) task) (tasks World s))).
Proof.
  destruct (task_handlers !! ScheduledTask.task_type task) as [handler|] eqn:Hh.
  - destruct (handler (ScheduledTask.payload task) (world World s)) as [[e|[]] w'] eqn:He.
    + rewrite (execute_task_failed World task_handlers task handler e w' s Hh He).
      destruct (ScheduledTask.retry_count task <? ScheduledTask.max_retries task)
        eqn:Hlt.
      * apply Z.ltb_lt in Hlt. eexists. split; [reflexivity|].
        cbn [running sch_clock tasks advance readings].
        split; [reflexivity|]. split; [reflexivity|]. right. eauto.
      * eexists. split; [reflexivity|]. cbn [running sch_clock tasks]. auto.
    + eexists. split.
      { unfold _execute_task. rewrite Hh. erewrite try_except_run; [reflexivity|].
        unfold in_world. rewrite He. reflexivity. }
      cbn [running sch_clock tasks]. auto.
  - exists s. split; [|auto].
    unfold _execute_task. rewrite Hh. by erewrite try_except_run.
Qed.

Lemma execute_tasks_queue due :
  ∀ s : Scheduler World,
  NoDup (ScheduledTask.task_id <$> due) →
  ∃ s',
    execute_tasks World task_handlers due s = (inr tt, s')
    ∧ running World s' = running World s
    ∧ readings (sch_clock World s') = readings (sch_clock World s)
    ∧ (∀ k, k ∉ ScheduledTask.task_id <$> due →
            Dict.get k (tasks World s') = Dict.get k (tasks World s))
    ∧ (∀ task, task ∈ due →
         Dict.get (ScheduledTask.task_id task) (tasks World s) = None →
         Dict.get (ScheduledTask.task_id task) (tasks World s') = None
         ∨ (ScheduledTask.retry_count task < ScheduledTask.max_retries task
            ∧ is_Some (task_handlers !! ScheduledTask.task_type task)
            ∧ ∃ n, Dict.get (ScheduledTask.task_id task) (tasks World s')
                   = Some (retried (readings (sch_clock World s) n) task))).
Proof.
  induction due as [|t rest IH]; intros s Hnd.
  - exists s. split; [reflexivity|]. split; [reflexivity|]. split; [reflexivity|].
    split; [auto|]. intros task Hin. by apply elem_of_nil in Hin.
  - rewrite fmap_cons in Hnd. apply NoDup_cons in Hnd as (Hfresh & Hnd).
    destruct (execute_task_queue t s) as (s1 & Hstep & Hrun1 & Hrd1 & Hq1).
    destruct (IH s1 Hnd) as (s' & Hloop & Hrun & Hrd & Hother & Hdue).
    exists s'. split.
    { cbn [execute_tasks]. erewrite bind_run by exact Hstep. exact Hloop. }
    split; [congruence|]. split; [congruence|].
    assert (Hstep_other : ∀ k, k ≠ ScheduledTask.task_id t →
              Dict.get k (tasks World s1) = Dict.get k (tasks World s)).
    { intros k Hk. destruct Hq1 as [->|(_ & _ & ->)]; [reflexivity|].
      by apply Dict_get_set_ne. }
    split.
    { intros k Hk. rewrite fmap_cons in Hk. apply not_elem_of_cons in Hk as (Hk & Hk').
      by rewrite Hother, Hstep_other. }
    intros task Hin Hnone. apply elem_of_cons in Hin as [->|Hin].
    + rewrite Hother by exact Hfresh.
      destruct Hq1 as [->|(Hlt & Hh & ->)]; [by left|].
      right. split; [exact Hlt|]. split; [exact Hh|].
      exists (reads (sch_clock World s)). apply Dict_get_set_eq.
    + assert (Hne : ScheduledTask.task_id task ≠ ScheduledTask.task_id t).
      { intros Heq. apply Hfresh. rewrite <- Heq. by apply list_elem_of_fmap_2. }
      destruct (Hdue task Hin) as [Hgone|(Hlt & Hh & n & Hback)].
      * by rewrite Hstep_other.
      * by left.
      * right. split; [exact Hlt|]. split; [exact Hh|]. exists n.
        by rewrite <- Hrd1.
Qed.

(** The first loop of [_process_due_tasks]: the due tasks in the order of
    the queue, and the queue without their keys. *)
Lemma due_tasks_partition (now : datetime) (queue : list (string * ScheduledTask.t)) :
  ∀ due remaining,
  foldl (λ (acc : list ScheduledTask.t * list (string * ScheduledTask.t)) kv,
           if bool_decide (ScheduledTask.execute_at kv.2 ≤ now)
           then (acc.1 ++ [kv.2], Dict.del kv.1 acc.2)
           else acc)
        (due, remaining) queue
  = (due ++ (snd <$> filter (λ kv, ScheduledTask.execute_at kv.2 ≤ now) queue),
     foldl (λ r kv,
              if bool_decide (ScheduledTask.execute_at kv.2 ≤ now)
              then Dict.del kv.1 r else r)
           remaining queue).
Proof.
  induction queue as [|kv queue IH]; intros due remaining; cbn [foldl].
  - by rewrite app_nil_r.
  - rewrite filter_cons. case_bool_decide.
    + rewrite decide_True by assumption. cbn [fst snd]. rewrite IH, fmap_cons, <- app_assoc.
      reflexivity.
    + rewrite decide_False by assumption. by destruct kv.
Qed.

Lemma remaining_tasks_get (now : datetime) (queue : list (string * ScheduledTask.t)) :
  ∀ (remaining : list (string * ScheduledTask.t)) k,
  Dict.get k
    (foldl (λ r kv,
              if bool_decide (ScheduledTask.execute_at kv.2 ≤ now)
              then Dict.del kv.1 r else r)
           remaining queue)
  = if decide (k ∈ (filter (λ kv, ScheduledTask.execute_at kv.2 ≤ now) queue).*1)
    then None else Dict.get k remaining.
Proof.
  induction queue as [|kv queue IH]; intros remaining k; cbn [foldl].
  - rewrite filter_nil. rewrite decide_False by apply not_elem_of_nil. reflexivity.
  - rewrite IH, filter_cons. case_bool_decide.
    + rewrite (decide_True (P := ScheduledTask.execute_at kv.2 ≤ now)) by assumption.
      rewrite fmap_cons.
      destruct (decide (k = kv.1)) as [->|Hne].
      * rewrite (decide_True (P := _ ∈ _ :: _)) by apply list_elem_of_here.
        case_decide; [reflexivity|apply Dict_get_del_eq].
      * rewrite Dict_get_del_ne by exact Hne.
        repeat case_decide; try reflexivity.
        -- exfalso. by apply H1, list_elem_of_further.
        -- exfalso. apply elem_of_cons in H1 as [?|?]; contradiction.
    + rewrite (decide_False (P := ScheduledTask.execute_at kv.2 ≤ now)) by assumption.
      reflexivity.
Qed.

Lemma process_database_notifications_queue (s : Scheduler World) :
  ∃ w',
    _process_database_notifications World process_scheduled_notifications s
    = (inr tt, mkScheduler World (sch_clock World s) (running World s)
                 (tasks World s) w').
Proof.
  unfold _process_database_notifications, try_except, in_world.
  monad_simpl.
  destruct (process_scheduled_notifications (world World s)) as [[e|n] w'];
    by exists w'.
Qed.

(** X20.  A tick of the scheduler over a well-formed queue returns without
    raising, whatever the handlers and the database do.  A task that is not
    yet due stays in the queue unchanged.  A task that is due leaves the
    queue, unless its handler exists and raised while the task had retries
    left: then it is filed again as [retried], with one retry more and a
    later execution time.  No identifier appears that was not queued. *)
Theorem process_due_tasks_tick (s : Scheduler World) :
  queue_ok (tasks World s) →
  let now := Clock_now (sch_clock World s) in
  ∃ s',
    _process_due_tasks World task_handlers process_scheduled_notifications s
    = (inr tt, s')
    ∧ running World s' = running World s
    ∧ (∀ k task, (k, task) ∈ tasks World s → now < ScheduledTask.execute_at task →
                 Dict.get k (tasks World s') = Some task)
    ∧ (∀ k task, (k, task) ∈ tasks World s → ScheduledTask.execute_at task ≤ now →
         Dict.get k (tasks World s') = None
         ∨ (ScheduledTask.retry_count task < ScheduledTask.max_retries task
            ∧ is_Some (task_handlers !! ScheduledTask.task_type task)
            ∧ ∃ n, Dict.get k (tasks World s')
                   = Some (retried (readings (sch_clock World s) n) task)))
    ∧ (∀ k, Dict.get k (tasks World s) = None → Dict.get k (tasks World s') = None).
Proof.
  intros (Hnd & Hkeys) now.
  set (is_due := λ kv : string * ScheduledTask.t, ScheduledTask.execute_at kv.2 ≤ now).
  set (due := snd <$> filter is_due (tasks World s)).
  set (remaining :=
         foldl (λ r (kv : string * ScheduledTask.t),
                  if bool_decide (ScheduledTask.execute_at kv.2 ≤ now)
                  then Dict.del kv.1 r else r)
               (tasks World s) (tasks World s)).
  assert (Hids : ScheduledTask.task_id <$> due = (filter is_due (tasks World s)).*1).
  { subst due. rewrite <- list_fmap_compose. apply list_fmap_ext.
    intros i [k task] Hi. cbn. apply Hkeys.
    apply list_elem_of_lookup_2 in Hi. by apply list_elem_of_filter in Hi as (_ & Hi). }
  assert (Hnd_due : NoDup (ScheduledTask.task_id <$> due)).
  { rewrite Hids. eapply sublist_NoDup; [exact Hnd|].
    apply fmap_sublist, sublist_filter. }
  set (s0 := mkScheduler World (advance 1 (sch_clock World s)) (running World s)
               remaining (world World s)).
  destruct (execute_tasks_queue due s0 Hnd_due)
    as (s1 & Hloop & Hrun1 & Hrd1 & Hother & Hdue).
  destruct (process_database_notifications_queue s1) as (w' & Hdb).
  eexists. split.
  { unfold _process_due_tasks.
    erewrite bind_run by reflexivity. erewrite bind_run by reflexivity.
    cbn [tasks sch_clock running world].
    rewrite (due_tasks_partition (Clock_now (sch_clock World s))). cbn [app].
    erewrite bind_run by reflexivity.
    fold now is_due due remaining s0.
    erewrite bind_run by exact Hloop. exact Hdb. }
  cbn [running tasks]. split; [exact Hrun1|].
  assert (Hrem : ∀ k, Dict.get k remaining
                      = if decide (k ∈ (filter is_due (tasks World s)).*1)
                        then None else Dict.get k (tasks World s))
    by (intros k; apply remaining_tasks_get).
  assert (Hdue_key : ∀ k, k ∈ (filter is_due (tasks World s)).*1 →
                          ∃ task, (k, task) ∈ tasks World s ∧ is_due (k, task)).
  { intros k Hk. apply list_elem_of_fmap in Hk as ([k' task] & -> & Hin).
    apply list_elem_of_filter in Hin as (Hd & Hin). eauto. }
  split; [|split].
  - intros k task Hin Hwait.
    assert (Hout : k ∉ (filter is_due (tasks World s)).*1).
    { intros Hk. destruct (Hdue_key k Hk) as (task' & Hin' & Hd).
      pose proof (Dict_get_Some _ _ _ Hnd Hin) as H1.
      pose proof (Dict_get_Some _ _ _ Hnd Hin') as H2.
      rewrite H1 in H2. injection H2 as <-. unfold is_due in Hd. cbn in Hd. lia. }
    rewrite Hother by (by rewrite Hids).
    subst s0. cbn [tasks]. rewrite Hrem, decide_False by exact Hout.
    by apply Dict_get_Some.
  - intros k task Hin Hd.
    pose proof (Hkeys _ _ Hin) as Hid.
    assert (Hk : k ∈ (filter is_due (tasks World s)).*1).
    { apply list_elem_of_fmap. exists (k, task). split; [reflexivity|].
      apply list_elem_of_filter. by split. }
    assert (Htask : task ∈ due).
    { subst due. apply list_elem_of_fmap. exists (k, task). split; [reflexivity|].
      apply list_elem_of_filter. by split. }
    rewrite <- Hid.
    destruct (Hdue task Htask) as [Hgone|Hback].
    + subst s0. cbn [tasks]. rewrite Hid, Hrem. by rewrite decide_True.
    + by left.
    + right. exact Hback.
  - intros k Hnone.
    assert (Hout : k ∉ (filter is_due (tasks World s)).*1).
    { intros Hk. destruct (Hdue_key k Hk) as (task' & Hin' & _).
      rewrite (Dict_get_Some _ _ _ Hnd Hin') in Hnone. discriminate. }
    rewrite Hother by (by rewrite Hids).
    subst s0. cbn [tasks]. rewrite Hrem, decide_False by exact Hout. exact Hnone.
Qed.

End SchedulerQueue.

Lemma process_due_tasks_tick_witness :
  ∃ s',
    _process_due_tasks unit ex_handlers (mret 0) ex_queue = (inr tt, s')
    ∧ Dict.get "feedback_1_6000" (tasks unit s') = Some ex_waiting
    ∧ (Dict.get "notification_7_0" (tasks unit s') = None
       ∨ ∃ n, Dict.get "notification_7_0" (tasks unit s')
              = Some (retried (readings ex_clock n) ex_task)).
Proof.
  assert (Hok : queue_ok (tasks unit ex_queue)).
  { split.
    - cbn. apply NoDup_cons. split; [|apply NoDup_singleton].
      intros H. apply list_elem_of_singleton in H. discriminate.
    - intros k task Hin. cbn in Hin.
      repeat (apply elem_of_cons in Hin as [[= -> ->]|Hin]; [reflexivity|]).
      by apply elem_of_nil in Hin. }
  destruct (process_due_tasks_tick unit ex_handlers (mret 0) ex_queue Hok)
    as (s' & Hrun & _ & Hwait & Hdue & _).
  exists s'. split; [exact Hrun|]. split.
  - apply Hwait; [cbn; apply list_elem_of_further, list_elem_of_here|].
    vm_compute. reflexivity.
  - destruct (Hdue "notification_7_0" ex_task) as [Hgone|(_ & _ & Hback)].
    + cbn. apply list_elem_of_here.
    + vm_compute. discriminate.
    + by left.
    + by right.
Defined.

(** ** The notification sweeps *)











(** ** Automatic transitions *)

Section AutomationResults.

Variable payment_status_of : Z → option PaymentStatus.t.
Variable query_error : Exception.

Lemma check_auto_confirm_conditions_run order s :
  ∃ target,
    _check_auto_confirm_conditions payment_status_of order s = (inr target, s)
    ∧ (target = None ∨ target = Some OrderStatus.CONFIRMED).
Proof.
  unfold _check_auto_confirm_conditions, _get_order_payment. monad_simpl.
  repeat case_match; simplify_eq; eexists; (split; [reflexivity|]); auto.
Qed.

Lemma check_auto_preparing_conditions_run order s :
  ∃ target c',
    _check_auto_preparing_conditions order s = (inr target, with_clock c' s)
    ∧ (target = None
       ∨ (target = Some OrderStatus.PREPARING
          ∧ Order.priority order = OrderPriority.VIP
          ∧ ∃ confirmed_at,
              Order.status_confirmed_at order = Some confirmed_at
              ∧ confirmed_at + minutes 5 ≤ Clock_now (clock s))).
Proof.
  unfold _check_auto_preparing_conditions, utcnow. monad_simpl.
  destruct (decide (Order.priority order = OrderPriority.VIP)) as [Hvip|];
    [|exists None, (clock s); split; [by destruct s|by left]].
  destruct (Order.status_confirmed_at order) as [confirmed_at|] eqn:Hc;
    [|exists None, (clock s); split; [by destruct s|by left]].
  case_bool_decide.
  - eexists _, _. split; [reflexivity|]. right. split; [reflexivity|].
    split; [exact Hvip|]. exists confirmed_at. split; [reflexivity|].
    unfold Clock_now, minutes in *. lia.
  - eexists _, _. split; [reflexivity|]. by left.
Qed.

(** One iteration of the loop of [process_automatic_transitions]: either no
    rule proposes a new status and the order is only counted, or a rule
    proposes one and the engine makes the transition. *)
Lemma process_automatic_step_cases results order s :
  let counted :=
    mkAutoResults (processed_orders results + 1) (transitions_made results)
      (errors results) in
  (∃ c',
     process_automatic_step payment_status_of results order s
     = (inr counted, with_clock c' s)
     ∧ (Order.status order ≠ OrderStatus.PENDING →
        Order.status order ≠ OrderStatus.CONFIRMED → with_clock c' s = s))
  ∨ (∃ target c' o' h s',
       ((Order.status order = OrderStatus.PENDING ∧ target = OrderStatus.CONFIRMED)
        ∨ (Order.status order = OrderStatus.CONFIRMED
           ∧ target = OrderStatus.PREPARING
           ∧ Order.priority order = OrderPriority.VIP))
       ∧ transition_status order target StatusChangeReason.AUTOMATIC
           None None None None true true (with_clock c' s)
         = (inr (o', h), s')
       ∧ process_automatic_step payment_status_of results order s
         = (inr (mkAutoResults (processed_orders results + 1)
                   (transitions_made results + 1) (errors results)), s')).
Proof.
  intros counted. unfold process_automatic_step. fold counted.
  assert (Hs : with_clock (clock s) s = s) by (by destruct s).
  destruct (Order.status order) eqn:Hst; cbn [auto_transition_rules].
  - (* PENDING *)
    destruct (check_auto_confirm_conditions_run order s) as (target & Hrule & [->| ->]).
    + left. exists (clock s). rewrite Hs. split; [|done].
      erewrite try_except_run; [reflexivity|]. by erewrite bind_run by exact Hrule.
    + destruct (transition_status_run order OrderStatus.CONFIRMED
                  StatusChangeReason.AUTOMATIC None None None None true true s)
        as (o1 & o' & Hrun & _ & _); [by rewrite Hst|].
      right. eexists OrderStatus.CONFIRMED, (clock s), o', _, _. rewrite Hs.
      split; [by left|]. split; [exact Hrun|].
      erewrite try_except_run; [reflexivity|].
      erewrite bind_run by exact Hrule. cbv beta iota.
      rewrite decide_True by discriminate.
      erewrite bind_run by exact Hrun. reflexivity.
  - (* CONFIRMED *)
    destruct (check_auto_preparing_conditions_run order s)
      as (target & c' & Hrule & [->|(-> & Hvip & _)]).
    + left. exists c'. split; [|done].
      erewrite try_except_run; [reflexivity|]. by erewrite bind_run by exact Hrule.
    + destruct (transition_status_run order OrderStatus.PREPARING
                  StatusChangeReason.AUTOMATIC None None None None true true
                  (with_clock c' s))
        as (o1 & o' & Hrun & _ & _); [by rewrite Hst|].
      right. eexists OrderStatus.PREPARING, c', o', _, _.
      split; [right; auto|]. split; [exact Hrun|].
      erewrite try_except_run; [reflexivity|].
      erewrite bind_run by exact Hrule. cbv beta iota.
      rewrite decide_True by discriminate.
      erewrite bind_run by exact Hrun. reflexivity.
  - left. exists (clock s). rewrite Hs. split; [by erewrite try_except_run|done].
  - left. exists (clock s). rewrite Hs. split; [by erewrite try_except_run|done].
  - left. exists (clock s). rewrite Hs. split; [by erewrite try_except_run|done].
  - left. exists (clock s). rewrite Hs. split; [by erewrite try_except_run|done].
  - left. exists (clock s). rewrite Hs. split; [by erewrite try_except_run|done].
  - left. exists (clock s). rewrite Hs. split; [by erewrite try_except_run|done].
Qed.

(** X23.  One iteration of the automatic processing never records an
    error: the rules propose only transitions the table allows (a pending
    order to Confirmed, a confirmed VIP order whose confirmation is at least
    five minutes old to Preparing), so the engine does not refuse them.  The
    iteration counts the order as processed; either it leaves the orders and
    the ledger as they were, or it counts one transition, stores the order
    in the proposed status and appends one ledger row with the reason
    [automatic].  An order in any status but Pending and Confirmed is left
    alone and the clock is not read for it. *)
Theorem automatic_step_never_fails results order s :
  ∃ r s',
    process_automatic_step payment_status_of results order s = (inr r, s')
    ∧ processed_orders r = processed_orders results + 1
    ∧ errors r = errors results
    ∧ ((transitions_made r = transitions_made results
        ∧ orders s' = orders s
        ∧ order_status_history s' = order_status_history s)
       ∨ (transitions_made r = transitions_made results + 1
          ∧ ∃ o' h,
              orders s' !! Order.id order = Some o'
              ∧ order_status_history s' = order_status_history s ++ [h]
              ∧ OrderStatusHistory.reason h = "automatic"
              ∧ OrderStatusHistory.changed_by_user_id h = None
              ∧ _validate_transition (Order.status order) (Order.status o') = inr tt
              ∧ ((Order.status order = OrderStatus.PENDING
                  ∧ Order.status o' = OrderStatus.CONFIRMED)
                 ∨ (Order.status order = OrderStatus.CONFIRMED
                    ∧ Order.status o' = OrderStatus.PREPARING
                    ∧ Order.priority order = OrderPriority.VIP))))
    ∧ (Order.status order ≠ OrderStatus.PENDING →
       Order.status order ≠ OrderStatus.CONFIRMED → s' = s).
Proof.
  destruct (process_automatic_step_cases results order s)
    as [(c' & Hstep & Hsame)|(target & c' & o' & h & s' & Hpair & Hrun & Hstep)].
  - eexists _, _. split; [exact Hstep|].
    cbn [processed_orders errors transitions_made].
    split; [reflexivity|]. split; [reflexivity|]. split; [by left|exact Hsame].
  - exists (mkAutoResults (processed_orders results + 1)
              (transitions_made results + 1) (errors results)), s'.
    split; [exact Hstep|]. cbn [processed_orders errors transitions_made].
    split; [reflexivity|]. split; [reflexivity|].
    pose proof (transition_status_identity _ _ _ _ _ _ _ _ _ _ _ _ _ Hrun)
      as (_ & _ & Hst').
    pose proof (transition_status_inv _ _ _ _ _ _ _ _ _ _ _ _ _ Hrun)
      as (Hv & Hh & Hs' & _).
    split.
    + right. split; [reflexivity|]. exists o', h.
      split; [rewrite Hs'; cbn [orders]; by rewrite lookup_insert_eq|].
      split; [by rewrite Hs'|]. split; [by rewrite Hh|]. split; [by rewrite Hh|].
      split; [rewrite Hst'; by apply Hv|].
      rewrite Hst'. destruct Hpair as [(? & ->)|(? & -> & ?)]; auto.
    + intros Hp Hc. destruct Hpair as [(? & _)|(? & _)]; contradiction.
Qed.

(** X24.  [process_automatic_transitions] never makes a transition.  The
    query for the eligible orders cannot be built, because it names
    [sqlalchemy], which the module does not bind; the exception is caught by
    the outer handler, so the call returns with no order processed, no
    transition made and the one error, and leaves the session as it was.
    The loop is not at fault: over any list of orders it returns, counts
    every order as processed, makes at most one transition per order and
    records no error. *)
Theorem automatic_transitions_never_run s :
  process_automatic_transitions payment_status_of query_error s
  = (inr (mkAutoResults 0 0 [ProcessingError query_error]), s)
  ∧ ∀ eligible_orders results s0,
      ∃ r s',
        process_automatic_loop payment_status_of eligible_orders results s0
        = (inr r, s')
        ∧ processed_orders r
          = processed_orders results + Z.of_nat (length eligible_orders)
        ∧ errors r = errors results
        ∧ transitions_made results ≤ transitions_made r
          ≤ transitions_made results + Z.of_nat (length eligible_orders).
Proof.
  split; [reflexivity|].
  induction eligible_orders as [|order rest IH]; intros results s0.
  - exists results, s0. cbn [process_automatic_loop length].
    split; [reflexivity|]. split; [lia|]. split; [reflexivity|lia].
  - destruct (process_automatic_step_cases results order s0)
      as [(c' & Hstep & _)|(target & c' & o' & h & s1 & _ & _ & Hstep)];
      match type of Hstep with _ = (inr ?r1, ?s1) =>
        destruct (IH r1 s1) as (r & s' & Hloop & Hp & He & Ht)
      end;
      (exists r, s'; split;
       [cbn [process_automatic_loop]; by erewrite bind_run by exact Hstep|]);
      cbn [length processed_orders errors transitions_made] in *;
      (split; [lia|]); (split; [congruence|lia]).
Qed.

End AutomationResults.

(** ** Displayed durations *)

(** X25.  [duration_display] shows nothing for a missing duration and for
    a duration of zero minutes.  Otherwise the text stands for exactly the
    stored minutes below one day (a negative duration is shown as it is, in
    minutes), and from one day on it drops the minutes: it stands for the
    stored duration rounded down to the hour. *)
Theorem duration_display_precision (h : OrderStatusHistory.fields) :
  (duration_display h = None
   ↔ OrderStatusHistory.duration_from_previous h = None
     ∨ OrderStatusHistory.duration_from_previous h = Some 0)
  ∧ ∀ m, OrderStatusHistory.duration_from_previous h = Some m → m ≠ 0 →
      ∃ text,
        duration_display h = Some text
        ∧ (m < 60 → text = Minutes m)
        ∧ (m < 1440 → shown_minutes text = m)
        ∧ (1440 ≤ m → shown_minutes text ≤ m < shown_minutes text + 60
                      ∧ shown_minutes text mod 60 = 0).
Proof.
  unfold duration_display.
  destruct (OrderStatusHistory.duration_from_previous h) as [m|];
    cbn [truthy_int negb default id].
  - split.
    + destruct (m =? 0) eqn:Hz; cbn [negb].
      * apply Z.eqb_eq in Hz as ->. split; [auto|reflexivity].
      * apply Z.eqb_neq in Hz. split.
        -- repeat case_match; discriminate.
        -- intros [?|[= ?]]; [discriminate|contradiction].
    + intros m' [= <-] Hm. apply Z.eqb_neq in Hm. rewrite Hm. cbn [negb].
      destruct (m <? 60) eqn:H60.
      { apply Z.ltb_lt in H60. eexists. split; [reflexivity|].
        cbn [shown_minutes]. repeat split; try reflexivity; lia. }
      apply Z.ltb_ge in H60.
      destruct (m <? 1440) eqn:Hday.
      { apply Z.ltb_lt in Hday.
        destruct (m mod 60 =? 0) eqn:Hrem;
          [apply Z.eqb_eq in Hrem|apply Z.eqb_neq in Hrem];
          (eexists; split; [reflexivity|]); cbn [shown_minutes];
          (split; [lia|]); (split; [|lia]); intros _;
          pose proof (Z.div_mod m 60 ltac:(lia)); lia. }
      apply Z.ltb_ge in Hday.
      pose proof (Z.div_mod m 1440 ltac:(lia)) as Hd.
      pose proof (Z.mod_pos_bound m 1440 ltac:(lia)) as Hb.
      pose proof (Z.div_mod (m mod 1440) 60 ltac:(lia)) as Hd'.
      pose proof (Z.mod_pos_bound (m mod 1440) 60 ltac:(lia)) as Hb'.
      destruct (m mod 1440 / 60 =? 0) eqn:Hrem;
        [apply Z.eqb_eq in Hrem|apply Z.eqb_neq in Hrem];
        (eexists; split; [reflexivity|]); cbn [shown_minutes];
        (split; [lia|]); (split; [lia|]); intros _;
        (split; [lia|]).
      * rewrite Z.mul_comm. replace 1440 with (24 * 60) by reflexivity.
        rewrite Z.mul_assoc. apply Z.mod_mul. lia.
      * replace (1440 * (m / 1440) + 60 * (m mod 1440 / 60))
          with ((24 * (m / 1440) + m mod 1440 / 60) * 60) by lia.
        apply Z.mod_mul. lia.
  - split; [split; auto|]. intros m [=].
Qed.
